(** * The data-analyst chatbot back end (app.py), embedded in Rocq

    The development follows app.py function by function:
    - [PyStr]: the [str] methods the handlers call ([strip], [find],
      [rfind], slicing, [replace], [in], [join]);
    - a state, log and exception monad [M] for code that reads the module
      globals, talks to the outside world and raises;
    - [chat_with_data] (section 9 of app.py), then the frames of pandas,
      [prepare_chart_data], [get_ai_visualizations], [get_ai_insights] and
      [upload_file] (sections 6 to 8), and the two routes served in turn;
    - the statements, claim by claim.

    A Python [str] is a [string] whose characters are code points below 256.
    Library calls the program only consumes (the OpenAI client, [json.loads],
    [subprocess], [urllib.parse.unquote], pandas) are fields of the
    environment records [Env] and [Engine]; every theorem quantifies over
    them.  Console logging ([print]) has no effect on any value and is left
    out. *)

From Stdlib Require Import String Ascii List ZArith NArith Bool Lia Permutation.
From Stdlib Require QArith_base.
Import ListNotations.

Set Warnings "-register-all".

Local Open Scope list_scope.
Local Open Scope string_scope.

(** ** Python strings *)

Module PyStr.

Definition dq : string := String (ascii_of_nat 34) EmptyString.
Definition nl : string := String (ascii_of_nat 10) EmptyString.
Definition backslash : ascii := ascii_of_nat 92.

(** [lines l] is the text whose lines are [l]. *)
Definition lines (l : list string) : string := String.concat nl l.

(** [str.isspace] on one code point below 256: TAB..CR, FS..US, space,
    NEL (0x85) and NBSP (0xA0). *)
Definition isspace (c : ascii) : bool :=
  let n := nat_of_ascii c in
  (Nat.leb 9 n && Nat.leb n 13) || (Nat.leb 28 n && Nat.leb n 32)
  || Nat.eqb n 133 || Nat.eqb n 160.

Fixpoint lstrip (s : string) : string :=
  match s with
  | EmptyString => EmptyString
  | String c s' => if isspace c then lstrip s' else s
  end.

Fixpoint rstrip (s : string) : string :=
  match s with
  | EmptyString => EmptyString
  | String c s' =>
      match rstrip s' with
      | EmptyString => if isspace c then EmptyString else String c EmptyString
      | r => String c r
      end
  end.

(** [s.strip()]: whitespace removed at both ends. *)
Definition strip (s : string) : string := rstrip (lstrip s).

Fixpoint find_from (c : ascii) (s : string) (i : Z) : Z :=
  match s with
  | EmptyString => (-1)%Z
  | String a s' => if Ascii.eqb a c then i else find_from c s' (i + 1)%Z
  end.

(** [s.find(c)]: lowest index of [c], or -1. *)
Definition find (s : string) (c : ascii) : Z := find_from c s 0%Z.

Fixpoint rfind_from (c : ascii) (s : string) (i : Z) : Z :=
  match s with
  | EmptyString => (-1)%Z
  | String a s' =>
      let r := rfind_from c s' (i + 1)%Z in
      if (r =? -1)%Z then (if Ascii.eqb a c then i else (-1)%Z) else r
  end.

(** [s.rfind(c)]: highest index of [c], or -1. *)
Definition rfind (s : string) (c : ascii) : Z := rfind_from c s 0%Z.

(** A slice bound, as Python normalises it: negative bounds count from
    the end, and everything is clamped to [0, len]. *)
Definition clamp (len i : Z) : Z :=
  if (i <? 0)%Z then Z.max 0 (i + len) else Z.min i len.

(** [s[start:stop]]. *)
Definition slice (s : string) (start stop : Z) : string :=
  let len := Z.of_nat (String.length s) in
  let a := clamp len start in
  let b := clamp len stop in
  substring (Z.to_nat a) (Z.to_nat (b - a)) s.

(** [s.replace(c, new)] for a one-character pattern [c]. *)
Fixpoint replace (c : ascii) (new : string) (s : string) : string :=
  match s with
  | EmptyString => EmptyString
  | String a s' =>
      if Ascii.eqb a c then new ++ replace c new s'
      else String a (replace c new s')
  end.

(** [sub in s]. *)
Fixpoint contains (sub s : string) : bool :=
  prefix sub s ||
  match s with
  | EmptyString => false
  | String _ s' => contains sub s'
  end.

(** [sep.join(l)]. *)
Definition join (sep : string) (l : list string) : string := String.concat sep l.

(** Membership of a string in a list of strings ([x in ["a", "b"]]). *)
Definition mem (x : string) (l : list string) : bool :=
  existsb (String.eqb x) l.

End PyStr.
Import PyStr.

(** ** Exceptions and JSON values *)

(** The exception classes the handlers tell apart, and any other subclass of
    [Exception] with its class name; [msg] is [str(e)]. *)
Inductive exn : Type :=
| TimeoutExpired (timeout : N) (msg : string)
| CalledProcessError (returncode : Z) (output stderr : string) (msg : string)
| PyException (cls msg : string).

Inductive result (A : Type) : Type :=
| Ok (a : A)
| Raise (e : exn).
Arguments Ok {A} a.
Arguments Raise {A} e.

(** A Python float that JSON can carry. *)
Inductive pyfloat : Type :=
| Finite (q : QArith_base.Q)
| Infinity (negative : bool)
| NaN.

(** What [json.loads] and [request.json] produce; an object keeps its
    members in insertion order, with distinct keys. *)
Inductive json : Type :=
| JNull
| JBool (b : bool)
| JInt (z : Z)
| JFloat (f : pyfloat)
| JStr (s : string)
| JArr (l : list json)
| JObj (members : list (string * json)).

Fixpoint assoc {A : Type} (k : string) (l : list (string * A)) : option A :=
  match l with
  | [] => None
  | (k', v) :: l' => if String.eqb k k' then Some v else assoc k l'
  end.

(** [d.get(key, default)] on a dict. *)
Definition dict_get (d : list (string * json)) (k : string) (default : json) : json :=
  match assoc k d with
  | Some v => v
  | None => default
  end.

(** [bool(v)]: the truth value Python's [not] and [if] test. *)
Definition truthy (v : json) : bool :=
  match v with
  | JNull => false
  | JBool b => b
  | JInt z => negb (z =? 0)%Z
  | JFloat (Finite q) => negb (QArith_base.Qeq_bool q (QArith_base.Qmake 0 1))
  | JFloat _ => true
  | JStr s => negb (String.eqb s "")
  | JArr l => match l with [] => false | _ => true end
  | JObj m => match m with [] => false | _ => true end
  end.

(** The Python type name of a JSON value, as it appears in error messages. *)
Definition type_name (v : json) : string :=
  match v with
  | JNull => "NoneType"
  | JBool _ => "bool"
  | JInt _ => "int"
  | JFloat _ => "float"
  | JStr _ => "str"
  | JArr _ => "list"
  | JObj _ => "dict"
  end.

(** ** Effects: module globals, the outside world, exceptions *)

(** The two module-level variables of section 5 of app.py. *)
Record globals : Type := {
  last_uploaded_filepath : option string;
  csv_column_names : string
}.

(** The state of the module when it has just been imported. *)
Definition initial_globals : globals :=
  {| last_uploaded_filepath := None; csv_column_names := "" |}.

Record message : Type := { role : string; content : string }.

(** The arguments of [client.chat.completions.create]. *)
Record llm_request : Type := {
  messages : list message;
  model : string;
  temperature : QArith_base.Q
}.

(** What waiting for the child process gives, before [check=True] is
    applied: it exited, the timeout ran out first (the child is killed), or
    starting or reading it failed. *)
Inductive wait_outcome : Type :=
| Exited (returncode : Z) (stdout stderr : string)
| Expired
| SpawnFailed (e : exn).

(** What a handler does to the world, in order. *)
Inductive event : Type :=
| LLMCall (r : llm_request)
| FileWrite (path text : string)
| FileSave (path : string)
| Spawn (argv : list string) (timeout : N).

(** The services app.py calls and does not define. *)
Record Env : Type := {
  (** [client.chat.completions.create(...).choices[0].message.content]:
      the text, [None], or the exception raised on the way. *)
  create : llm_request -> result (option string);
  (** [json.loads]. *)
  json_loads : string -> result json;
  (** [str(v)] for a value that is not a [str]. *)
  str_of : json -> string;
  (** [urllib.parse.unquote] on a [str], and [str(e)] of the exception it
      raises on anything else. *)
  unquote : string -> string;
  unquote_error : json -> string;
  (** [open(path, 'w')] and the write: the fault, if any. *)
  write_fault : string -> option exn;
  (** [file.save(path)]: the fault, if any. *)
  save_fault : string -> option exn;
  (** The child process started with [argv] on the script text [argv[1]]
      holds, waited for at most [timeout] seconds. *)
  run_child : list string -> string -> N -> wait_outcome;
  (** [str(e)] of the [TimeoutExpired] and of the [CalledProcessError] that
      [subprocess.run] raises for [argv]. *)
  timeout_str : list string -> N -> string;
  exit_str : list string -> Z -> string;
  sys_executable : string;
  gettempdir : string;
  path_join : string -> string -> string;
  abspath : string -> string
}.

(** A computation reads and writes the module globals, records what it does
    to the world and returns or raises.  The globals and the log survive an
    exception, as they do in Python. *)
Definition M (A : Type) : Type := globals -> result A * globals * list event.

Definition ret {A : Type} (a : A) : M A := fun g => (Ok a, g, []).

Definition raise {A : Type} (e : exn) : M A := fun g => (Raise e, g, []).

Definition bind {A B : Type} (m : M A) (k : A -> M B) : M B :=
  fun g =>
    match m g with
    | (Ok a, g1, l1) => let '(r, g2, l2) := k a g1 in (r, g2, (l1 ++ l2)%list)
    | (Raise e, g1, l1) => (Raise e, g1, l1)
    end.

Notation "x <- m ;; k" := (bind m (fun x => k))
  (at level 61, m at next level, right associativity).
Notation "m ;;; k" := (bind m (fun _ => k))
  (at level 61, right associativity).

Definition lift {A : Type} (r : result A) : M A := fun g => (r, g, []).

Definition emit (ev : event) : M unit := fun g => (Ok tt, g, [ev]).

(** [global x; x = v] *)
Definition set_last_uploaded_filepath (v : string) : M unit :=
  fun g => (Ok tt, {| last_uploaded_filepath := Some v;
                      csv_column_names := csv_column_names g |}, []).

Definition set_csv_column_names (v : string) : M unit :=
  fun g => (Ok tt, {| last_uploaded_filepath := last_uploaded_filepath g;
                      csv_column_names := v |}, []).

Definition get_globals : M globals := fun g => (Ok g, g, []).

(** [try: body  except ... as e: handler e] *)
Definition try_except {A : Type} (body : M A) (handler : exn -> M A) : M A :=
  fun g =>
    match body g with
    | (Ok a, g1, l1) => (Ok a, g1, l1)
    | (Raise e, g1, l1) => let '(r, g2, l2) := handler e g1 in (r, g2, (l1 ++ l2)%list)
    end.

(** [str(e)] in a handler that catches [Exception]. *)
Definition exn_str (e : exn) : string :=
  match e with
  | TimeoutExpired _ msg => msg
  | CalledProcessError _ _ _ msg => msg
  | PyException _ msg => msg
  end.

(** Exceptions in code that touches neither the globals nor the world. *)
Definition rbind {A B : Type} (r : result A) (k : A -> result B) : result B :=
  match r with
  | Ok a => k a
  | Raise e => Raise e
  end.

Notation "'let*' x := r 'in' k" := (rbind r (fun x => k))
  (at level 61, x name, r at next level, right associativity).

Definition rtry {A : Type} (body : result A) (handler : exn -> result A) : result A :=
  match body with
  | Ok a => Ok a
  | Raise e => handler e
  end.

(** A Flask response: [jsonify(body), status]. *)
Record response : Type := { body : json; status : Z }.

Definition jsonify (members : list (string * json)) (code : Z) : response :=
  {| body := JObj members; status := code |}.

(** An f-string field [{v}]. *)
Definition format (E : Env) (v : json) : string :=
  match v with
  | JStr s => s
  | _ => str_of E v
  end.

(** The model call, with the request recorded. *)
Definition completion (E : Env) (r : llm_request) : M (option string) :=
  emit (LLMCall r) ;;; lift (create E r).

Definition GPT_MODEL : string := "gpt-3.5-turbo-0125".

(** ** Section 9 of app.py: the chat endpoint *)

(** [filepath.replace('\\', '\\\\')]: only a [str] has the method. *)
Definition replace_backslashes (filepath : json) : result string :=
  match filepath with
  | JStr s => Ok (replace backslash (String backslash (String backslash "")) s)
  | v => Raise (PyException "AttributeError"
                  ("'" ++ type_name v ++ "' object has no attribute 'replace'"))
  end.

(** [unquote(metrics_encoded)] *)
Definition py_unquote (E : Env) (v : json) : result string :=
  match v with
  | JStr s => Ok (unquote E s)
  | JArr _ | JObj _ => Raise (PyException "AttributeError" (unquote_error E v))
  | _ => Raise (PyException "TypeError" (unquote_error E v))
  end.

(** The segments of the f-string of lines 302-345, one per source line. *)
Definition final_prompt_lines (columns chat_history metrics_prompt question safe_filepath : string)
    : list string :=
  [
    ("");
    ("        You are a data analyst AI. Your only job is to write a single, executable, standalone Python script to answer the user's question.");
    ("        ");
    ("        CSV Columns: " ++ columns);
    ("        CHAT HISTORY (for context): " ++ chat_history);
    ("        " ++ metrics_prompt);
    ("");
    ("        ---");
    ("        First, analyze the user's question: " ++ dq ++ question ++ dq);
    ("        ");
    ("        1.  Is this a " ++ dq ++ "WHAT" ++ dq ++ " question (asking for a specific calculation, like " ++ dq ++ "what is the total profit" ++ dq ++ ", " ++ dq ++ "who is the top customer" ++ dq ++ ")?");
    ("        2.  Or is this a " ++ dq ++ "WHY" ++ dq ++ " or " ++ dq ++ "HOW" ++ dq ++ " question (asking for an explanation or correlation, like " ++ dq ++ "why did sales drop" ++ dq ++ ", " ++ dq ++ "how did discounts affect profit" ++ dq ++ ")?");
    ("        ");
    ("        If it is a " ++ dq ++ "WHAT" ++ dq ++ " question:");
    ("        Write a Python script that calculates the answer and prints a concise, human-readable sentence.");
    ("        Your script MUST start with `import pandas as pd` and `df = pd.read_csv(" ++ dq ++ safe_filepath ++ dq ++ ")`.");
    ("        Your script MUST NOT include any other `import` statements.");
    ("        Your script MUST end with a single `print()` statement.");
    ("        Example for " ++ dq ++ "What's the total profit?" ++ dq ++ ":");
    ("        import pandas as pd");
    ("        df = pd.read_csv(" ++ dq ++ safe_filepath ++ dq ++ ")");
    ("        print(f" ++ dq ++ "The total profit is ${df['Profit'].sum():,.2f}" ++ dq ++ ")");
    ("        ");
    ("        If it is a " ++ dq ++ "WHY" ++ dq ++ " or " ++ dq ++ "HOW" ++ dq ++ " question:");
    ("        Write a Python script that finds correlations or data points that *might* explain the answer.");
    ("        You can use `df.corr()` for numerical columns.");
    ("        You can use `df.groupby()` to compare categories.");
    ("        Your answer should be an *observation*, not a *conclusion*.");
    ("        Your script MUST start with `import pandas as pd` and `df = pd.read_csv(" ++ dq ++ safe_filepath ++ dq ++ ", parse_dates=True)`.");
    ("        Example for " ++ dq ++ "Why did profit drop in March?" ++ dq ++ ":");
    ("        import pandas as pd");
    ("        df = pd.read_csv(" ++ dq ++ safe_filepath ++ dq ++ ", parse_dates=['OrderDate'])");
    ("        # Make sure OrderDate is a datetime object");
    ("        df['OrderDate'] = pd.to_datetime(df['OrderDate'], errors='coerce')");
    ("        df_march = df[df['OrderDate'].dt.month == 3]");
    ("        march_profit = df_march['Profit'].sum()");
    ("        feb_profit = df[df['OrderDate'].dt.month == 2]['Profit'].sum()");
    ("        # You can't know the " ++ dq ++ "why" ++ dq ++ ", but you can find correlations.");
    ("        march_discounts = df_march['Discount'].mean()");
    ("        feb_discounts = df[df['OrderDate'].dt.month == 2]['Discount'].mean()");
    ("        print(f" ++ dq ++ "Profit dropped from {feb_profit} in Feb to {march_profit} in March. One observation: the average discount also changed from {feb_discounts:.2f} to {march_discounts:.2f} in that time." ++ dq ++ ")");
    ("");
    ("        Now, write *only* the Python script to answer: " ++ dq ++ question ++ dq);
    ("        ")
  ].

Definition final_prompt (columns chat_history metrics_prompt question safe_filepath : string) : string :=
  lines (final_prompt_lines columns chat_history metrics_prompt question safe_filepath).


Definition CODE_SYSTEM_PROMPT : string :=
  "You are a Python data scientist that only responds with raw Python code. Do not include markdown ticks ```python or ```.".

Definition NO_OUTPUT_ANSWER : string :=
  "I'm sorry, I ran the code but it didn't produce an answer. Please try rephrasing your question.".

Definition TIMEOUT_ANSWER : string :=
  "I'm sorry, the calculation took too long to run and was stopped. Please ask a simpler question.".

Definition NO_QUESTION_ANSWER : string := "You must ask a question.".

Definition NO_UPLOAD_ANSWER : string :=
  "I'm sorry, I can't answer questions. Please upload a CSV file first.".

Definition script_error_answer (stderr : string) : string :=
  "I'm sorry, the AI's code failed to run. (Error: " ++ strip stderr ++ ")".

Definition internal_error_answer (e : exn) : string :=
  "I'm sorry, I encountered an error. The AI's code may have failed. (Error: "
  ++ exn_str e ++ ")".

Record CompletedProcess : Type := {
  cp_returncode : Z;
  cp_stdout : string;
  cp_stderr : string
}.

(** [subprocess.run(argv, capture_output=True, text=True, check=True,
    encoding='utf-8', timeout=timeout)] on the script [script]. *)
Definition subprocess_run (E : Env) (argv : list string) (script : string)
    (timeout : N) : M CompletedProcess :=
  emit (Spawn argv timeout) ;;;
  match run_child E argv script timeout with
  | Exited rc out err =>
      if (rc =? 0)%Z
      then ret {| cp_returncode := rc; cp_stdout := out; cp_stderr := err |}
      else raise (CalledProcessError rc out err (exit_str E argv rc))
  | Expired => raise (TimeoutExpired timeout (timeout_str E argv timeout))
  | SpawnFailed e => raise e
  end.

(** [with open(path, 'w', encoding='utf-8') as f: f.write(text)].  Opening
    truncates the file before [write] rejects [None]. *)
Definition write_script (E : Env) (path : string) (text : option string) : M string :=
  match write_fault E path with
  | Some e => raise e
  | None =>
      match text with
      | Some t => emit (FileWrite path t) ;;; ret t
      | None =>
          emit (FileWrite path "") ;;;
          raise (PyException "TypeError" "write() argument must be str, not None")
      end
  end.

Definition temp_script_path (E : Env) : string :=
  path_join E (gettempdir E) "temp_chat_script.py".

Definition answer (text : string) (code : Z) : response :=
  jsonify [("answer", JStr text)] code.

(** Lines 294-345: the meta-prompt. *)
Definition meta_prompt (E : Env) (question metrics_encoded chat_history filepath columns : json)
    : result string :=
  let* metrics_prompt :=
    (if truthy metrics_encoded
     then let* metrics_decoded := py_unquote E metrics_encoded in
          Ok ("Here are some user-defined metrics to use if needed:"
              ++ nl ++ metrics_decoded ++ nl)
     else Ok "") in
  let* safe_filepath := replace_backslashes filepath in
  Ok (final_prompt (format E columns) (format E chat_history)
                   metrics_prompt (format E question) safe_filepath).

(** Lines 352-359: the request that asks the model for the code. *)
Definition code_request (prompt : string) : llm_request :=
  {| messages := [ {| role := "system"; content := CODE_SYSTEM_PROMPT |};
                   {| role := "user"; content := prompt |} ];
     model := GPT_MODEL;
     temperature := QArith_base.Qmake 0 1 |}.

(** Lines 364-395: save the code, run it, turn its output into the answer. *)
Definition run_script (E : Env) (python_code_to_run : option string) : M response :=
  script <- write_script E (temp_script_path E) python_code_to_run ;;
  result <- subprocess_run E [sys_executable E; temp_script_path E] script 15 ;;
  let final_answer := strip (cp_stdout result) in
  let final_answer :=
    if String.eqb final_answer "" then NO_OUTPUT_ANSWER else final_answer in
  ret (answer final_answer 200).

(** Lines 397-407: the three [except] clauses, in order. *)
Definition chat_except (e : exn) : M response :=
  match e with
  | TimeoutExpired _ _ => ret (answer TIMEOUT_ANSWER 500)
  | CalledProcessError _ _ stderr _ => ret (answer (script_error_answer stderr) 500)
  | PyException _ _ => ret (answer (internal_error_answer e) 500)
  end.

(** [data.get(key, default)] on [request.json]: only a dict has the
    method; on a list, [None], a string or a number it raises. *)
Definition py_get (data : json) (k : string) (default : json) : result json :=
  match data with
  | JObj members => Ok (dict_get members k default)
  | v => Raise (PyException "AttributeError"
                  ("'" ++ type_name v ++ "' object has no attribute 'get'"))
  end.

(** Lines 283-407: the two guards and the [try], on the five fields read
    from the body. *)
Definition chat_on_fields (E : Env)
    (question metrics_encoded chat_history filepath columns : json) : M response :=
  if negb (truthy question) then ret (answer NO_QUESTION_ANSWER 400)
  else if negb (truthy filepath) || negb (truthy columns)
  then ret (answer NO_UPLOAD_ANSWER 400)
  else
    try_except
      (prompt <- lift (meta_prompt E question metrics_encoded chat_history
                                   filepath columns) ;;
       python_code_to_run <- completion E (code_request prompt) ;;
       run_script E python_code_to_run)
      chat_except.

(** [data] is [request.json], any JSON value.  Lines 275-281 read the five
    fields before the [try]: what [get] raises there leaves the view. *)
Definition chat_with_data (E : Env) (data : json) : M response :=
  question <- lift (py_get data "question" JNull) ;;
  metrics_encoded <- lift (py_get data "metrics" (JStr "")) ;;
  chat_history <- lift (py_get data "history" (JStr "No prior conversation.")) ;;
  filepath <- lift (py_get data "filepath" JNull) ;;
  columns <- lift (py_get data "columns" JNull) ;;
  chat_on_fields E question metrics_encoded chat_history filepath columns.

(** ** The tabular-data engine (pandas) *)

(** A frame: column labels, each with whether its dtype is numeric
    ([pd.api.types.is_numeric_dtype]), and the rows in order.  [read_csv]
    gives string labels, made distinct. *)
Record DataFrame (scalar : Type) : Type := {
  columns : list (string * bool);
  rows : list (list scalar)
}.
Arguments columns {scalar} d.
Arguments rows {scalar} d.

(** The engine's scalars (int64, float64, bool, object, missing) and the
    operations on them that the program leaves to pandas. *)
Record Engine : Type := {
  scalar : Type;
  isna : scalar -> bool;
  na : scalar;
  scalar_eqb : scalar -> scalar -> bool;
  (** the order [groupby] sorts its keys by *)
  key_leb : scalar -> scalar -> bool;
  (** [.sum()] of one group and the scalar of a group size *)
  agg_sum : list scalar -> scalar;
  of_count : nat -> scalar;
  (** what [json.loads(frame.to_json(orient='records'))] holds for a cell *)
  scalar_to_json : scalar -> json;
  (** [frame.info(buf)] and [frame.head().to_string()] *)
  info : DataFrame scalar -> string;
  head_to_string : DataFrame scalar -> string;
  (** [pd.read_csv(path, on_bad_lines='skip')] on the saved bytes, and the
      retry with [error_bad_lines=False] *)
  read_csv : string -> string -> result (DataFrame scalar);
  read_csv_legacy : string -> string -> result (DataFrame scalar);
  (** the copy with object columns coerced by [to_datetime] and
      [select_dtypes] applied *)
  for_ai : DataFrame scalar -> DataFrame scalar;
  (** the random numbers the [k]-th [sample] call draws *)
  entropy : nat -> list nat
}.

Section Frames.

Variable E : Engine.
Local Abbreviation frame := (DataFrame (scalar E)).

Definition names (df : frame) : list string := map fst (columns df).

(** [len(df)] *)
Definition len (df : frame) : nat := List.length (rows df).

Fixpoint index_of (x : string) (l : list string) : option nat :=
  match l with
  | [] => None
  | y :: l' => if String.eqb x y then Some 0%nat
               else option_map S (index_of x l')
  end.

Definition key_error {A : Type} (x : string) : result A :=
  Raise (PyException "KeyError" ("'" ++ x ++ "'")).

Definition value_error {A : Type} (msg : string) : result A :=
  Raise (PyException "ValueError" msg).

(** The position of the column labelled [x]; [KeyError] without one. *)
Definition loc (df : frame) (x : string) : result nat :=
  match index_of x (names df) with
  | Some i => Ok i
  | None => key_error x
  end.

Definition cell (i : nat) (row : list (scalar E)) : scalar E := nth i row (na E).

(** [is_numeric_dtype(df[y])] *)
Definition is_numeric_dtype (df : frame) (y : string) : result bool :=
  let* i := loc df y in
  Ok (nth i (map snd (columns df)) false).

(** [df[[l1, ..., ln]]]: the listed columns, in the listed order. *)
Fixpoint locs (df : frame) (labels : list string) : result (list nat) :=
  match labels with
  | [] => Ok []
  | x :: rest =>
      let* i := loc df x in
      let* ixs := locs df rest in
      Ok (i :: ixs)
  end.

Definition select (df : frame) (labels : list string) : result frame :=
  let* ixs := locs df labels in
  Ok {| columns := map (fun i => nth i (columns df) ("", false)) ixs;
        rows := map (fun row => map (fun i => cell i row) ixs) (rows df) |}.

(** The distinct values of a list, first occurrences kept. *)
Fixpoint dedup (l : list (scalar E)) : list (scalar E) :=
  match l with
  | [] => []
  | a :: l' => a :: filter (fun b => negb (scalar_eqb E a b)) (dedup l')
  end.

Fixpoint insert_key (k : scalar E) (l : list (scalar E)) : list (scalar E) :=
  match l with
  | [] => [k]
  | a :: l' => if key_leb E k a then k :: l else a :: insert_key k l'
  end.

Definition sort_keys (l : list (scalar E)) : list (scalar E) :=
  fold_right insert_key [] l.

(** The keys of [df.groupby(x)]: distinct, missing values dropped, sorted. *)
Definition group_keys (df : frame) (i : nat) : list (scalar E) :=
  sort_keys (dedup (filter (fun v => negb (isna E v)) (map (cell i) (rows df)))).

Definition group_rows (df : frame) (i : nat) (k : scalar E) : list (list (scalar E)) :=
  filter (fun row => scalar_eqb E k (cell i row)) (rows df).

(** [series.reset_index()]: the index [x] becomes the first column, which
    pandas refuses when the value column has the same label. *)
Definition reset_index (x : string * bool) (value : string * bool)
    (table : list (scalar E * scalar E)) : result frame :=
  if String.eqb (fst x) (fst value)
  then value_error ("cannot insert " ++ fst x ++ ", already exists")
  else Ok {| columns := [x; value];
             rows := map (fun kv => [fst kv; snd kv]) table |}.

(** [df.groupby(x).size().reset_index(name='Count')] *)
Definition groupby_size (df : frame) (x : string) : result frame :=
  let* i := loc df x in
  reset_index (nth i (columns df) ("", false)) ("Count", true)
    (map (fun k => (k, of_count E (List.length (group_rows df i k))))
         (group_keys df i)).

(** [df.groupby(x)[y].sum().reset_index()] *)
Definition groupby_sum (df : frame) (x y : string) : result frame :=
  let* i := loc df x in
  let* j := loc df y in
  reset_index (nth i (columns df) ("", false)) (nth j (columns df) ("", false))
    (map (fun k => (k, agg_sum E (map (cell j) (group_rows df i k))))
         (group_keys df i)).

(** [df.rename(columns={old: new}, inplace=True)] *)
Definition rename (old new : string) (df : frame) : frame :=
  {| columns := map (fun c => if String.eqb (fst c) old then (new, snd c) else c)
                    (columns df);
     rows := rows df |}.

(** Drawing without replacement: each draw takes one of the rows that are
    left, at the position the next random number selects. *)
Fixpoint remove_nth {A : Type} (i : nat) (l : list A) : list A :=
  match l, i with
  | [], _ => []
  | _ :: l', O => l'
  | a :: l', S i' => a :: remove_nth i' l'
  end.

Fixpoint draw {A : Type} (n : nat) (rnd : list nat) (pool : list A) : list A :=
  match n with
  | O => []
  | S n' =>
      match pool with
      | [] => []
      | a :: _ =>
          let r := match rnd with [] => 0%nat | r :: _ => r end in
          let i := Nat.modulo r (List.length pool) in
          nth i pool a :: draw n' (tl rnd) (remove_nth i pool)
      end
  end.

(** [df.sample(n=n)] *)
Definition sample (rnd : list nat) (n : nat) (df : frame) : frame :=
  {| columns := columns df; rows := draw n rnd (rows df) |}.

Fixpoint distinct (l : list string) : bool :=
  match l with
  | [] => true
  | x :: l' => negb (mem x l') && distinct l'
  end.

(** [json.loads(df.to_json(orient='records'))]: one object per row, which
    pandas refuses to build when two columns share a label. *)
Definition to_records (df : frame) : result (list json) :=
  if distinct (names df)
  then Ok (map (fun row =>
                  JObj (map (fun ic => (snd ic, scalar_to_json E (cell (fst ic) row)))
                            (combine (seq 0 (List.length (names df))) (names df))))
               (rows df))
  else value_error "DataFrame columns must be unique for orient='records'.".

End Frames.

(** ** Section 6 of app.py: the chart data helper *)

Section Extractor.

Variable E : Engine.
Local Abbreviation frame := (DataFrame (scalar E)).

Definition attribute_error {A : Type} (v : json) (attr : string) : result A :=
  Raise (PyException "AttributeError"
           ("'" ++ type_name v ++ "' object has no attribute '" ++ attr ++ "'")).

(** [recipe.get(key)]: only a dict has the method. *)
Definition recipe_get (recipe : json) (k : string) : result json :=
  match recipe with
  | JObj m => Ok (dict_get m k JNull)
  | v => attribute_error v "get"
  end.

(** [v in df.columns]: the index hashes the key before it looks it up, and
    no label equals a value that is not a [str]. *)
Definition in_columns (v : json) (df : frame) : result bool :=
  match v with
  | JStr s => Ok (mem s (names E df))
  | JArr _ | JObj _ =>
      Raise (PyException "TypeError" ("unhashable type: '" ++ type_name v ++ "'"))
  | _ => Ok false
  end.

(** [sub in v] for a [str] [sub]: substring of a [str], element of a list,
    key of a dict; anything else is not iterable. *)
Definition str_in (sub : string) (v : json) : result bool :=
  match v with
  | JStr s => Ok (contains sub s)
  | JArr l => Ok (existsb (fun e => match e with
                                    | JStr t => String.eqb t sub
                                    | _ => false
                                    end) l)
  | JObj m => Ok (existsb (fun kv => String.eqb (fst kv) sub) m)
  | v => Raise (PyException "TypeError"
                  ("argument of type '" ++ type_name v ++ "' is not iterable"))
  end.

(** [v == "literal"] *)
Definition is_str (v : json) (s : string) : bool :=
  match v with
  | JStr t => String.eqb t s
  | _ => false
  end.

(** A column label handed to pandas.  Past the two guards of
    [prepare_chart_data] both labels are [str] (lemma [guards_str]). *)
Definition label (v : json) : result string :=
  match v with
  | JStr s => Ok s
  | v => Raise (PyException "TypeError" ("unhashable type: '" ++ type_name v ++ "'"))
  end.

(** Lines 63-81: the body of the [try]. *)
Definition try_block (rnd : list nat) (df : frame) (chart_type x_col y_col : json)
    : result (option (list json)) :=
  if is_str chart_type "Bar Chart" || is_str chart_type "Pie Chart"
     || is_str chart_type "Line Chart"
  then
    let* marker := str_in "Count of" y_col in
    if marker
    then
      let* x := label x_col in
      let* chart_data := groupby_size E df x in
      let* y := label y_col in
      let chart_data := rename E "Count" y chart_data in
      let* records := to_records E chart_data in
      Ok (Some records)
    else
      let* y := label y_col in
      let* numeric := is_numeric_dtype E df y in
      if numeric
      then
        let* x := label x_col in
        let* chart_data := groupby_sum E df x y in
        let* records := to_records E chart_data in
        Ok (Some records)
      else Ok None
  else if is_str chart_type "Scatter Plot"
  then
    let sample_df := sample E rnd (Nat.min 500 (len E df)) df in
    let* x := label x_col in
    let* y := label y_col in
    let* chart_data := select E sample_df [x; y] in
    let* records := to_records E chart_data in
    Ok (Some records)
  else if is_str chart_type "Histogram"
  then
    let* x := label x_col in
    let* chart_data := select E df [x] in
    let* records := to_records E chart_data in
    Ok (Some records)
  else Ok None.

(** [None] is [Ok None], a payload is [Ok (Some records)]; an exception
    that leaves the function is [Raise]. *)
Definition prepare_chart_data (rnd : list nat) (df : frame) (recipe : json)
    : result (option (list json)) :=
  let* chart_type := recipe_get recipe "chart_type" in
  let* x_col := recipe_get recipe "x_column" in
  let* y_col := recipe_get recipe "y_column" in
  if negb (truthy x_col) || negb (truthy y_col) then Ok None
  else
    let* x_in := in_columns x_col df in
    let* invalid :=
      (if negb x_in then Ok true
       else
         let* y_in := in_columns y_col df in
         if negb y_in
         then let* marker := str_in "Count of" y_col in Ok (negb marker)
         else Ok false) in
    if invalid then Ok None
    else rtry (try_block rnd df chart_type x_col y_col) (fun _ => Ok None).

End Extractor.

(** ** Sections 7 and 7.5 of app.py: charts and insights from the model *)

Definition visualizations_prompt (data_schema_info first_5_rows : string) : string :=
  lines [
    ("");
    ("    You are a helpful data analyst. A user has uploaded a CSV file.");
    ("    Your job is to suggest the best visualizations for a dashboard.");
    ("    Here is the data schema information from pandas `df.info()`:");
    ("    ---");
    ("    " ++ data_schema_info);
    ("    ---");
    ("    Here are the first 5 rows of data for context:");
    ("    ---");
    ("    " ++ first_5_rows);
    ("    ---");
    ("    Based *only* on this information, please suggest up to 15 useful visualizations (if possible, otherwise fewer).");
    ("    For each visualization, provide:");
    ("    1.  A short, clear `title` (e.g., " ++ dq ++ "Total Sales by Region" ++ dq ++ ").");
    ("    2.  The best `chart_type` (e.g., " ++ dq ++ "Bar Chart" ++ dq ++ ", " ++ dq ++ "Line Chart" ++ dq ++ ", " ++ dq ++ "Scatter Plot" ++ dq ++ ", " ++ dq ++ "Pie Chart" ++ dq ++ ", " ++ dq ++ "Histogram" ++ dq ++ ").");
    ("    3.  The `x_column` to use (the exact column name).");
    ("    4.  The `y_column` to use (e.g., " ++ dq ++ "Sales" ++ dq ++ ", " ++ dq ++ "Profit" ++ dq ++ ", or " ++ dq ++ "Count of OrderID" ++ dq ++ ").");
    ("    5.  A one-sentence `description` of what this chart shows.");
    ("    Return your answer as a *single, valid JSON array* (a list of objects).");
    ("    Do not include any other text, markdown, or explanations before or after the JSON array.");
    ("    ")
  ].

Definition insights_prompt (df_schema_info first_5_rows : string) : string :=
  lines [
    ("");
    ("    You are a senior data analyst. You have been given a CSV file.");
    ("    Based on the data schema and first few rows, generate 10 high-level, interesting insights.");
    ("    ");
    ("    Here is the data schema information from pandas `df.info()`:");
    ("    ---");
    ("    " ++ df_schema_info);
    ("    ---");
    ("    Here are the first 5 rows of data for context:");
    ("    ---");
    ("    " ++ first_5_rows);
    ("    ---");
    ("");
    ("    RULES:");
    ("    1.  Your insights should be 1-sentence bullet points.");
    ("    2.  Focus on potential relationships (e.g., " ++ dq ++ "It seems 'Profit' might be related to 'Discount'" ++ dq ++ ").");
    ("    3.  Identify key numerical and categorical columns to summarize (e.g., " ++ dq ++ "The 'Region' column seems to be a key segment" ++ dq ++ ").");
    ("    4.  Do not make up specific numbers, just high-level observations.");
    ("    5.  Return your answer as a *single, valid JSON array of strings*.");
    ("    ");
    ("    Example response:");
    ("    [");
    ("        " ++ dq ++ "The dataset tracks sales, profit, and discounts across different regions and categories." ++ dq ++ ",");
    ("        " ++ dq ++ "'Profit' appears to sometimes be negative, suggesting some orders lose money." ++ dq ++ ",");
    ("        " ++ dq ++ "'OrderDate' could be used to analyze trends over time." ++ dq ++ ",");
    ("        ...");
    ("    ]");
    ("    ")
  ].


Definition JSON_SYSTEM_PROMPT : string :=
  "You are a data analyst that only responds in valid JSON.".

Definition INSIGHTS_FALLBACK : string :=
  "Failed to generate insights. The AI model may be temporarily down.".

(** Lines 129-135 and 194-200: the text from the first [[] to the last []],
    handed to [json.loads]. *)
Definition bracketed_json (V : Env) (ai_response_text : option string)
    (no_array : string) : result json :=
  match ai_response_text with
  | None => attribute_error JNull "find"
  | Some text =>
      let start_index := find text "["%char in
      let end_index := rfind text "]"%char in
      if (start_index =? -1)%Z || (end_index =? -1)%Z
      then Raise (PyException "ValueError" no_array)
      else
        let clean_json_text := slice text start_index (end_index + 1)%Z in
        json_loads V clean_json_text
  end.

(** [for recipe in recipes_list]: what the loop variable ranges over. *)
Definition py_iter (v : json) : result (list json) :=
  match v with
  | JArr l => Ok l
  | JObj m => Ok (map (fun kv => JStr (fst kv)) m)
  | JStr s => Ok (map (fun c => JStr (String c "")) (list_ascii_of_string s))
  | v => Raise (PyException "TypeError" ("'" ++ type_name v ++ "' object is not iterable"))
  end.

Fixpoint dict_set (m : list (string * json)) (k : string) (v : json)
    : list (string * json) :=
  match m with
  | [] => [(k, v)]
  | (k', v') :: m' =>
      if String.eqb k k' then (k, v) :: m' else (k', v') :: dict_set m' k v
  end.

(** [recipe[key] = v] *)
Definition set_item (recipe : json) (k : string) (v : json) : result json :=
  match recipe with
  | JObj m => Ok (JObj (dict_set m k v))
  | r => Raise (PyException "TypeError"
                  ("'" ++ type_name r ++ "' object does not support item assignment"))
  end.

Section Planners.

Variable V : Env.
Variable E : Engine.
Local Abbreviation frame := (DataFrame (scalar E)).

(** The loop of lines 137-142; [k] counts the recipes seen so far. *)
Fixpoint final_charts_list (k : nat) (original_df : frame) (recipes : list json)
    : result (list json) :=
  match recipes with
  | [] => Ok []
  | recipe :: rest =>
      let* chart_data := prepare_chart_data E (entropy E k) original_df recipe in
      match chart_data with
      | Some (r :: rs) =>
          let* recipe' := set_item recipe "chart_data" (JArr (r :: rs)) in
          let* charts := final_charts_list (S k) original_df rest in
          Ok (recipe' :: charts)
      | _ => final_charts_list (S k) original_df rest
      end
  end.

Definition json_request (prompt_text : string) (t : QArith_base.Q) : llm_request :=
  {| messages := [ {| role := "system"; content := JSON_SYSTEM_PROMPT |};
                   {| role := "user"; content := prompt_text |} ];
     model := GPT_MODEL;
     temperature := t |}.

Definition get_ai_visualizations (df_schema original_df : frame) : M json :=
  let data_schema_info := info E df_schema in
  let first_5_rows := head_to_string E df_schema in
  let prompt_text := visualizations_prompt data_schema_info first_5_rows in
  try_except
    (ai_response_text <- completion V (json_request prompt_text (QArith_base.Qmake 1 10)) ;;
     recipes_list <- lift (bracketed_json V ai_response_text
                             "AI response did not contain a valid JSON array.") ;;
     recipes <- lift (py_iter recipes_list) ;;
     charts <- lift (final_charts_list 0 original_df recipes) ;;
     ret (JArr charts))
    (fun e => ret (JObj [("error", JStr "Failed to get AI analysis");
                         ("details", JStr (exn_str e))])).

Definition get_ai_insights (df_schema_info first_5_rows : string) : M json :=
  let prompt_text := insights_prompt df_schema_info first_5_rows in
  try_except
    (ai_response_text <- completion V (json_request prompt_text (QArith_base.Qmake 2 10)) ;;
     insights_list <- lift (bracketed_json V ai_response_text
                              "AI insights response did not contain a valid JSON array.") ;;
     ret insights_list)
    (fun _ => ret (JArr [JStr INSIGHTS_FALLBACK])).

(** ** Section 8 of app.py: the upload endpoint *)

Definition UPLOAD_FOLDER : string := "uploads".

(** One part of [request.files]. *)
Record FileStorage : Type := { filename : string; stream : string }.

Definition error_response (msg : string) (code : Z) : response :=
  jsonify [("error", JStr msg)] code.

Definition save (file : FileStorage) (path : string) : M unit :=
  match save_fault V path with
  | Some e => raise e
  | None => emit (FileSave path)
  end.

Definition upload_file (files : list (string * FileStorage)) : M response :=
  match assoc "file" files with
  | None => ret (error_response "No file part in the request" 400)
  | Some file =>
      if String.eqb (filename file) ""
      then ret (error_response "No file selected" 400)
      else
        let save_path := path_join V UPLOAD_FOLDER (filename file) in
        try_except
          (save file save_path ;;;
           original_df <- lift (rtry (read_csv E save_path (stream file))
                                     (fun _ => read_csv_legacy E save_path (stream file))) ;;
           set_last_uploaded_filepath (abspath V save_path) ;;;
           set_csv_column_names (join ", " (names E original_df)) ;;;
           let simple_df := for_ai E original_df in
           let data_schema_info := info E simple_df in
           let first_5_rows := head_to_string E simple_df in
           visualization_suggestions <- get_ai_visualizations simple_df original_df ;;
           ai_insights <- get_ai_insights data_schema_info first_5_rows ;;
           g <- get_globals ;;
           ret (jsonify [("charts", visualization_suggestions);
                         ("insights", ai_insights);
                         ("filepath", match last_uploaded_filepath g with
                                      | Some p => JStr p
                                      | None => JNull
                                      end);
                         ("columns", JStr (csv_column_names g))] 200))
          (fun e => ret (error_response ("Could not process file: " ++ exn_str e) 500))
  end.

(** ** The two routes *)

Inductive request : Type :=
| PostUpload (files : list (string * FileStorage))
| PostChat (data : json).

Definition handle (r : request) : M response :=
  match r with
  | PostUpload files => upload_file files
  | PostChat data => chat_with_data V data
  end.

End Planners.

(** ** Requests served one after the other *)

(** One request, with the world it meets. *)
Record call : Type := {
  call_env : Env;
  call_engine : Engine;
  call_request : request
}.

(** What Flask answers when a view raises. *)
Definition internal_server_error : response := {| body := JNull; status := 500 |}.

Definition serve_one (c : call) (g : globals) : response * globals :=
  match handle (call_env c) (call_engine c) (call_request c) g with
  | (Ok r, g', _) => (r, g')
  | (Raise _, g', _) => (internal_server_error, g')
  end.

Fixpoint serve (calls : list call) (g : globals) : list response * globals :=
  match calls with
  | [] => ([], g)
  | c :: rest =>
      let '(r, g1) := serve_one c g in
      let '(rs, g2) := serve rest g1 in
      (r :: rs, g2)
  end.

Definition is_upload (c : call) : bool :=
  match call_request c with
  | PostUpload _ => true
  | PostChat _ => false
  end.

(** The three components of a run. *)
Definition value {A : Type} (m : M A) (g : globals) : result A := fst (fst (m g)).
Definition globals_after {A : Type} (m : M A) (g : globals) : globals := snd (fst (m g)).
Definition log {A : Type} (m : M A) (g : globals) : list event := snd (m g).

(** ** A reference reader for plain JSON texts

    Used by the example environments below: [null], [true], [false],
    integers, strings without escapes, arrays and objects.  On these texts
    it returns what [json.loads] returns. *)

Module Reader.

Definition is_ws (c : ascii) : bool :=
  let n := nat_of_ascii c in
  Nat.eqb n 32 || Nat.eqb n 9 || Nat.eqb n 10 || Nat.eqb n 13.

Fixpoint skip_ws (s : string) : string :=
  match s with
  | String c s' => if is_ws c then skip_ws s' else s
  | EmptyString => EmptyString
  end.

Definition digit (c : ascii) : option Z :=
  let n := nat_of_ascii c in
  if Nat.leb 48 n && Nat.leb n 57 then Some (Z.of_nat (n - 48)) else None.

Fixpoint digits (s : string) (acc : Z) : Z * string :=
  match s with
  | String c s' =>
      match digit c with
      | Some d => digits s' (acc * 10 + d)%Z
      | None => (acc, s)
      end
  | EmptyString => (acc, s)
  end.

(** An integer literal: no leading zero before other digits, and nothing
    that would make it a float. *)
Definition number (s : string) : option (Z * string) :=
  let '(neg, s1) := match s with
                    | String "-" r => (true, r)
                    | _ => (false, s)
                    end in
  match s1 with
  | String c r =>
      match digit c with
      | Some d =>
          let '(z, rest) := if (d =? 0)%Z then (0%Z, r) else digits r d in
          match rest with
          | String c' _ =>
              if match digit c' with Some _ => true | None => false end
                 || Ascii.eqb c' "." || Ascii.eqb c' "e" || Ascii.eqb c' "E"
              then None
              else Some (if neg then (- z)%Z else z, rest)
          | EmptyString => Some (if neg then (- z)%Z else z, rest)
          end
      | None => None
      end
  | EmptyString => None
  end.

(** The characters up to the closing quote. *)
Fixpoint chars (s : string) : option (string * string) :=
  match s with
  | String c s' =>
      if Ascii.eqb c (ascii_of_nat 34) then Some (EmptyString, s')
      else if Ascii.eqb c backslash || Nat.ltb (nat_of_ascii c) 32 then None
      else match chars s' with
           | Some (t, rest) => Some (String c t, rest)
           | None => None
           end
  | EmptyString => None
  end.

Definition drop (n : nat) (s : string) : string :=
  substring n (String.length s - n) s.

Definition keyword (kw : string) (v : json) (s : string) : option (json * string) :=
  if prefix kw s then Some (v, drop (String.length kw) s) else None.

Fixpoint read_value (fuel : nat) (s : string) {struct fuel} : option (json * string) :=
  match fuel with
  | O => None
  | S f =>
      match skip_ws s with
      | String c rest =>
          if Ascii.eqb c "["
          then match skip_ws rest with
               | String "]" r => Some (JArr [], r)
               | _ => match read_items f rest with
                      | Some (l, r) => Some (JArr l, r)
                      | None => None
                      end
               end
          else if Ascii.eqb c "{"
          then match skip_ws rest with
               | String "}" r => Some (JObj [], r)
               | _ => match read_members f rest with
                      | Some (m, r) => Some (JObj m, r)
                      | None => None
                      end
               end
          else if Ascii.eqb c (ascii_of_nat 34)
          then match chars rest with
               | Some (t, r) => Some (JStr t, r)
               | None => None
               end
          else if Ascii.eqb c "n" then keyword "null" JNull (String c rest)
          else if Ascii.eqb c "t" then keyword "true" (JBool true) (String c rest)
          else if Ascii.eqb c "f" then keyword "false" (JBool false) (String c rest)
          else match number (String c rest) with
               | Some (z, r) => Some (JInt z, r)
               | None => None
               end
      | EmptyString => None
      end
  end
with read_items (fuel : nat) (s : string) {struct fuel} : option (list json * string) :=
  match fuel with
  | O => None
  | S f =>
      match read_value f s with
      | Some (v, r) =>
          match skip_ws r with
          | String "," r' =>
              match read_items f r' with
              | Some (l, r'') => Some (v :: l, r'')
              | None => None
              end
          | String "]" r' => Some ([v], r')
          | _ => None
          end
      | None => None
      end
  end
with read_members (fuel : nat) (s : string) {struct fuel}
    : option (list (string * json) * string) :=
  match fuel with
  | O => None
  | S f =>
      match skip_ws s with
      | String c rest =>
          if Ascii.eqb c (ascii_of_nat 34)
          then match chars rest with
               | Some (k, r) =>
                   match skip_ws r with
                   | String ":" r1 =>
                       match read_value f r1 with
                       | Some (v, r2) =>
                           match skip_ws r2 with
                           | String "," r3 =>
                               match read_members f r3 with
                               | Some (m, r4) =>
                                   Some (match assoc k m with
                                         | Some v' => (k, v') :: filter (fun kv => negb (String.eqb (fst kv) k)) m
                                         | None => (k, v) :: m
                                         end, r4)
                               | None => None
                               end
                           | String "}" r3 => Some ([(k, v)], r3)
                           | _ => None
                           end
                       | None => None
                       end
                   | _ => None
                   end
               | None => None
               end
          else None
      | EmptyString => None
      end
  end.

Definition loads (s : string) : result json :=
  match read_value (2 * String.length s + 2) s with
  | Some (v, rest) =>
      match skip_ws rest with
      | EmptyString => Ok v
      | _ => Raise (PyException "JSONDecodeError" "Extra data")
      end
  | None => Raise (PyException "JSONDecodeError" "Expecting value")
  end.

End Reader.

(** ** Example worlds *)

Module Examples.

(** A world where the model answers [reply] and the child process ends as
    [child]. *)
Definition env (reply : result (option string)) (child : wait_outcome) : Env :=
  {| create := fun _ => reply;
     json_loads := Reader.loads;
     str_of := fun v => "<" ++ type_name v ++ ">";
     unquote := fun s => s;
     unquote_error := fun v => "argument of type '" ++ type_name v ++ "' is not iterable";
     write_fault := fun _ => None;
     save_fault := fun _ => None;
     run_child := fun _ _ _ => child;
     timeout_str := fun argv _ => "Command '" ++ join " " argv ++ "' timed out";
     exit_str := fun argv _ => "Command '" ++ join " " argv ++ "' returned non-zero exit status";
     sys_executable := "/usr/bin/python3";
     gettempdir := "/tmp";
     path_join := fun a b => a ++ "/" ++ b;
     abspath := fun p => "/srv/app/" ++ p |}.

(** Cells of the example frames. *)
Inductive cellv : Type :=
| Missing
| Num (z : Z)
| Txt (s : string).

Definition cellv_eqb (a b : cellv) : bool :=
  match a, b with
  | Missing, Missing => true
  | Num x, Num y => (x =? y)%Z
  | Txt x, Txt y => String.eqb x y
  | _, _ => false
  end.

Definition cellv_leb (a b : cellv) : bool :=
  match a, b with
  | Missing, _ => true
  | Num x, Num y => (x <=? y)%Z
  | Num _, Txt _ => true
  | Txt x, Txt y => String.leb x y
  | _, _ => false
  end.

Definition cellv_sum (l : list cellv) : cellv :=
  Num (fold_right (fun c acc => match c with Num z => (z + acc)%Z | _ => acc end) 0%Z l).

Definition cellv_json (c : cellv) : json :=
  match c with
  | Missing => JNull
  | Num z => JInt z
  | Txt s => JStr s
  end.

(** An engine whose [read_csv] gives [loaded]. *)
Definition engine (loaded : result (DataFrame cellv)) : Engine :=
  {| scalar := cellv;
     isna := fun c => match c with Missing => true | _ => false end;
     na := Missing;
     scalar_eqb := cellv_eqb;
     key_leb := cellv_leb;
     agg_sum := cellv_sum;
     of_count := fun n => Num (Z.of_nat n);
     scalar_to_json := cellv_json;
     info := fun df => join ", " (map fst (columns df));
     head_to_string := fun df => join ", " (map fst (columns df));
     read_csv := fun _ _ => loaded;
     read_csv_legacy := fun _ _ => loaded;
     for_ai := fun df => df;
     entropy := fun k => [k; 7; 3; 11]%nat |}.

Definition sales : DataFrame cellv :=
  {| columns := [("Region", false); ("Sales", true); ("Units", true)];
     rows := [ [Txt "East"; Num 10; Num 1];
               [Txt "West"; Num 5; Num 2];
               [Txt "East"; Num 7; Num 3] ] |}.

Definition recipe (chart_type x_column y_column : json) : json :=
  JObj [("title", JStr "t"); ("chart_type", chart_type);
        ("x_column", x_column); ("y_column", y_column);
        ("description", JStr "d")].

(** A chat request body with all five fields. *)
Definition chat_body (question filepath columns : json) : list (string * json) :=
  [("question", question); ("filepath", filepath); ("columns", columns)].

Definition fenced_code : string :=
  lines ["```python"; "print(1)"; "```"].

(** A reply with two recipes: the first gives a number as its [y_column],
    the second is a sum of [Sales] by [Region]. *)
Definition numeric_y_recipe : json :=
  JObj [("title", JStr "t"); ("chart_type", JStr "Bar Chart");
        ("x_column", JStr "Region"); ("y_column", JInt 5)].

Definition sales_by_region_recipe : json :=
  JObj [("title", JStr "u"); ("chart_type", JStr "Bar Chart");
        ("x_column", JStr "Region"); ("y_column", JStr "Sales")].

Definition two_recipes_reply : string :=
  "[" ++ "{" ++ dq ++ "title" ++ dq ++ ":" ++ dq ++ "t" ++ dq ++ "," ++ dq ++ "chart_type" ++ dq ++ ":" ++ dq ++ "Bar Chart" ++ dq ++ "," ++ dq ++ "x_column" ++ dq ++ ":" ++ dq ++ "Region" ++ dq ++ "," ++ dq ++ "y_column" ++ dq ++ ":5}"
  ++ "," ++ "{" ++ dq ++ "title" ++ dq ++ ":" ++ dq ++ "u" ++ dq ++ "," ++ dq ++ "chart_type" ++ dq ++ ":" ++ dq ++ "Bar Chart" ++ dq ++ "," ++ dq ++ "x_column" ++ dq ++ ":" ++ dq ++ "Region" ++ dq ++ "," ++ dq ++ "y_column" ++ dq ++ ":" ++ dq ++ "Sales" ++ dq ++ "}" ++ "]".

(** A reply with two recipes: the first names a column the frame does not
    have, the second is a sum of [Sales] by [Region]. *)
Definition unknown_column_recipe : json :=
  JObj [("title", JStr "a"); ("chart_type", JStr "Bar Chart");
        ("x_column", JStr "Nope"); ("y_column", JStr "Sales")].

Definition dropped_then_kept_reply : string :=
  "Here: [" ++ "{" ++ dq ++ "title" ++ dq ++ ":" ++ dq ++ "a" ++ dq ++ "," ++ dq ++ "chart_type" ++ dq ++ ":" ++ dq ++ "Bar Chart" ++ dq ++ "," ++ dq ++ "x_column" ++ dq ++ ":" ++ dq ++ "Nope" ++ dq ++ "," ++ dq ++ "y_column" ++ dq ++ ":" ++ dq ++ "Sales" ++ dq ++ "}"
  ++ "," ++ "{" ++ dq ++ "title" ++ dq ++ ":" ++ dq ++ "u" ++ dq ++ "," ++ dq ++ "chart_type" ++ dq ++ ":" ++ dq ++ "Bar Chart" ++ dq ++ "," ++ dq ++ "x_column" ++ dq ++ ":" ++ dq ++ "Region" ++ dq ++ "," ++ dq ++ "y_column" ++ dq ++ ":" ++ dq ++ "Sales" ++ dq ++ "}" ++ "]".

(** The frame of a file that holds the header line alone. *)
Definition header_only : DataFrame cellv :=
  {| columns := [("Region", false); ("Sales", true); ("Units", true)];
     rows := [] |}.

End Examples.

(** ** Vocabulary of the statements *)

(** [m] neither reads nor writes the globals: its value and its log are the
    same from every state, and the state comes back as it went in. *)
Definition stateless {A : Type} (m : M A) : Prop :=
  exists r l, forall g, m g = (r, g, l).

(** The request [data] passes both guards of [chat_with_data] and its
    meta-prompt is [prompt]. *)
Definition chat_prompt (V : Env) (data : list (string * json)) (prompt : string) : Prop :=
  truthy (dict_get data "question" JNull) = true /\
  truthy (dict_get data "filepath" JNull) = true /\
  truthy (dict_get data "columns" JNull) = true /\
  meta_prompt V (dict_get data "question" JNull)
                (dict_get data "metrics" (JStr ""))
                (dict_get data "history" (JStr "No prior conversation."))
                (dict_get data "filepath" JNull)
                (dict_get data "columns" JNull) = Ok prompt.

Definition all_space (s : string) : bool :=
  forallb isspace (list_ascii_of_string s).

Definition starts_with_space (s : string) : bool :=
  match s with
  | String c _ => isspace c
  | EmptyString => false
  end.

Fixpoint ends_with_space (s : string) : bool :=
  match s with
  | EmptyString => false
  | String c EmptyString => isspace c
  | String _ s' => ends_with_space s'
  end.

(** The text [s] with every backslash written twice. *)
Definition each_backslash_doubled (s : string) : string :=
  fold_right (fun c acc => if Ascii.eqb c backslash
                           then String backslash (String backslash acc)
                           else String c acc)
             "" (list_ascii_of_string s).

(** The metrics paragraph of the meta-prompt for a [metrics] field that is a
    [str] or is falsy. *)
Definition metrics_paragraph (V : Env) (metrics : json) : string :=
  match metrics with
  | JStr m =>
      if String.eqb m "" then ""
      else "Here are some user-defined metrics to use if needed:"
           ++ nl ++ unquote V m ++ nl
  | _ => ""
  end.

(** The error object of [get_ai_visualizations]. *)
Definition planner_error (details : string) : json :=
  JObj [("error", JStr "Failed to get AI analysis"); ("details", JStr details)].

(** The keys of a record of a payload, in order. *)
Definition keys (record : json) : list string :=
  match record with
  | JObj m => map fst m
  | _ => []
  end.

(** The shape of a payload: [n] records, each with the keys [ks]. *)
Definition shaped (payload : result (option (list json))) (n : nat) (ks : list string)
    : Prop :=
  exists records,
    payload = Ok (Some records)
    /\ List.length records = n
    /\ Forall (fun r => keys r = ks) records.

(** The two requests of an upload to the model: charts, then insights. *)
Definition charts_request (E : Engine) (df_schema : DataFrame (scalar E)) : llm_request :=
  json_request (visualizations_prompt (info E df_schema) (head_to_string E df_schema))
               (QArith_base.Qmake 1 10).

Definition insights_request (df_schema_info first_5_rows : string) : llm_request :=
  json_request (insights_prompt df_schema_info first_5_rows) (QArith_base.Qmake 2 10).

(** [charts] are recipes of [recipes], in their order, each with its
    non-empty payload under [chart_data] and its other fields untouched; the
    recipes left out are those the helper gave no payload, or an empty
    one. *)
Inductive charts_of (E : Engine) (df : DataFrame (scalar E))
    : list json -> list json -> Prop :=
| charts_of_nil : charts_of E df [] []
| charts_of_drop (recipe : json) (rest charts : list json) (rnd : list nat) :
    prepare_chart_data E rnd df recipe = Ok None
    \/ prepare_chart_data E rnd df recipe = Ok (Some []) ->
    charts_of E df rest charts ->
    charts_of E df (recipe :: rest) charts
| charts_of_keep (m m' : list (string * json)) (rest charts : list json)
    (rnd : list nat) (payload : list json) :
    prepare_chart_data E rnd df (JObj m) = Ok (Some payload) ->
    payload <> [] ->
    dict_get m' "chart_data" JNull = JArr payload ->
    (forall k d, k <> "chart_data" -> dict_get m' k d = dict_get m k d) ->
    charts_of E df rest charts ->
    charts_of E df (JObj m :: rest) (JObj m' :: charts).

(** The random numbers of a call that draws from [size] rows, one number
    per draw: each is below the number of rows still left. *)
Fixpoint in_range (size : nat) (rnd : list nat) : Prop :=
  match rnd with
  | [] => True
  | r :: rest => (r < size)%nat /\ in_range (pred size) rest
  end.

(** * Properties *)

Arguments final_prompt : simpl never.
Arguments final_prompt_lines : simpl never.
Arguments visualizations_prompt : simpl never.
Arguments insights_prompt : simpl never.
Arguments strip : simpl never.

(** ** Computations that leave the module globals alone *)

Lemma stateless_ret {A : Type} (a : A) : stateless (ret a).
Proof. exists (Ok a), []. reflexivity. Qed.

Lemma stateless_raise {A : Type} (e : exn) : stateless (@raise A e).
Proof. exists (Raise e), []. reflexivity. Qed.

Lemma stateless_lift {A : Type} (r : result A) : stateless (lift r).
Proof. exists r, []. reflexivity. Qed.

Lemma stateless_emit (ev : event) : stateless (emit ev).
Proof. exists (Ok tt), [ev]. reflexivity. Qed.

Lemma stateless_bind {A B : Type} (m : M A) (k : A -> M B) :
  stateless m -> (forall a, stateless (k a)) -> stateless (bind m k).
Proof.
  intros [r [l Hm]] Hk. destruct r as [a | e].
  - destruct (Hk a) as [r' [l' Hka]].
    exists r', (l ++ l')%list. intro g. unfold bind. rewrite Hm, Hka. reflexivity.
  - exists (Raise e), l. intro g. unfold bind. rewrite Hm. reflexivity.
Qed.

Lemma stateless_try_except {A : Type} (body : M A) (handler : exn -> M A) :
  stateless body -> (forall e, stateless (handler e)) ->
  stateless (try_except body handler).
Proof.
  intros [r [l Hb]] Hh. destruct r as [a | e].
  - exists (Ok a), l. intro g. unfold try_except. rewrite Hb. reflexivity.
  - destruct (Hh e) as [r' [l' He]].
    exists r', (l ++ l')%list. intro g. unfold try_except. rewrite Hb, He. reflexivity.
Qed.

Create HintDb stateless.
#[export] Hint Resolve stateless_ret stateless_raise stateless_lift stateless_emit
  : stateless.

Ltac stateless_step :=
  first [ apply stateless_bind; [ | intro ]
        | apply stateless_try_except; [ | intro ]
        | solve [ auto with stateless ] ].

Lemma stateless_completion (V : Env) (r : llm_request) : stateless (completion V r).
Proof. unfold completion. repeat stateless_step. Qed.

Lemma stateless_write_script (V : Env) (path : string) (text : option string) :
  stateless (write_script V path text).
Proof.
  unfold write_script. destruct (write_fault V path); [ auto with stateless | ].
  destruct text; repeat stateless_step.
Qed.

Lemma stateless_subprocess_run (V : Env) (argv : list string) (script : string) (t : N) :
  stateless (subprocess_run V argv script t).
Proof.
  unfold subprocess_run. apply stateless_bind; [ auto with stateless | intros _ ].
  destruct (run_child V argv script t) as [rc out err | | e]; auto with stateless.
  destruct (rc =? 0)%Z; auto with stateless.
Qed.

Lemma stateless_run_script (V : Env) (code : option string) :
  stateless (run_script V code).
Proof.
  unfold run_script.
  apply stateless_bind; [ apply stateless_write_script | intro script ].
  apply stateless_bind; [ apply stateless_subprocess_run | intro res ].
  auto with stateless.
Qed.

Lemma stateless_chat_except (e : exn) : stateless (chat_except e).
Proof. destruct e; simpl; auto with stateless. Qed.

Lemma stateless_chat_on_fields (V : Env)
    (question metrics_encoded chat_history filepath columns : json) :
  stateless (chat_on_fields V question metrics_encoded chat_history filepath columns).
Proof.
  unfold chat_on_fields.
  destruct (negb (truthy question)); [ auto with stateless | ].
  destruct (negb (truthy filepath) || negb (truthy columns)); [ auto with stateless | ].
  apply stateless_try_except; [ | apply stateless_chat_except ].
  apply stateless_bind; [ auto with stateless | intro prompt ].
  apply stateless_bind; [ apply stateless_completion | intro code ].
  apply stateless_run_script.
Qed.

Lemma stateless_chat_with_data (V : Env) (data : json) :
  stateless (chat_with_data V data).
Proof.
  unfold chat_with_data.
  repeat (apply stateless_bind; [ auto with stateless | intro ]).
  apply stateless_chat_on_fields.
Qed.

(** On an object body the five [get]s return and the view goes on with the
    fields. *)
Lemma chat_with_data_object (V : Env) (members : list (string * json)) (g : globals) :
  chat_with_data V (JObj members) g
  = chat_on_fields V (dict_get members "question" JNull)
      (dict_get members "metrics" (JStr ""))
      (dict_get members "history" (JStr "No prior conversation."))
      (dict_get members "filepath" JNull)
      (dict_get members "columns" JNull) g.
Proof.
  unfold chat_with_data. cbv beta iota delta [bind lift py_get].
  destruct (chat_on_fields V _ _ _ _ _ g) as [[r g'] l]. reflexivity.
Qed.

Lemma serve_one_chat (c : call) (g : globals) :
  is_upload c = false -> snd (serve_one c g) = g.
Proof.
  unfold is_upload, serve_one, handle. destruct (call_request c) as [files | data]; [ discriminate | ].
  intros _. destruct (stateless_chat_with_data (call_env c) data) as [r [l H]].
  rewrite H. destruct r; reflexivity.
Qed.

Lemma serve_globals_uploads (calls : list call) :
  forall g, snd (serve calls g) = snd (serve (filter is_upload calls) g).
Proof.
  induction calls as [ | c rest IH]; intro g; [ reflexivity | ].
  simpl. destruct (is_upload c) eqn:Hc.
  - simpl. destruct (serve_one c g) as [r g1].
    specialize (IH g1).
    destruct (serve rest g1) as [rs g2], (serve (filter is_upload rest) g1) as [rs' g2'].
    exact IH.
  - pose proof (serve_one_chat c g Hc) as Hg.
    destruct (serve_one c g) as [r g1]. simpl in Hg. subst g1.
    specialize (IH g).
    destruct (serve rest g) as [rs g2]. exact IH.
Qed.

(** ** Python's [strip] *)

Lemma lstrip_spec (s : string) :
  exists pre, s = pre ++ lstrip s /\ all_space pre = true
              /\ starts_with_space (lstrip s) = false.
Proof.
  induction s as [ | c s IH].
  - exists "". repeat split.
  - simpl. destruct (isspace c) eqn:Hc.
    + destruct IH as [pre [Heq [Hpre Hhead]]].
      exists (String c pre). simpl. rewrite <- Heq.
      unfold all_space in *. simpl. rewrite Hc, Hpre. repeat split. exact Hhead.
    + exists "". simpl. rewrite Hc. repeat split.
Qed.

Lemma rstrip_spec (s : string) :
  exists post, s = rstrip s ++ post /\ all_space post = true
               /\ ends_with_space (rstrip s) = false.
Proof.
  induction s as [ | c s IH].
  - exists "". repeat split.
  - destruct IH as [post [Heq [Hpost Hlast]]]. simpl.
    destruct (rstrip s) as [ | a r] eqn:Hr.
    + simpl in Heq. subst post. destruct (isspace c) eqn:Hc.
      * exists (String c s). unfold all_space in *. simpl. rewrite Hc, Hpost.
        repeat split.
      * exists s. simpl. rewrite Hc. repeat split. exact Hpost.
    + exists post. simpl. simpl in Heq. rewrite <- Heq. repeat split; assumption.
Qed.

Lemma rstrip_keeps_head (c : ascii) (s : string) :
  isspace c = false -> starts_with_space (rstrip (String c s)) = false.
Proof.
  intro Hc. simpl. destruct (rstrip s); [ rewrite Hc | ]; simpl; exact Hc.
Qed.

Lemma append_assoc (a b c : string) : (a ++ b) ++ c = a ++ (b ++ c).
Proof. induction a as [ | x a IH]; simpl; [ | rewrite IH ]; reflexivity. Qed.

(** [strip] removes whitespace at both ends and nothing else. *)
Lemma strip_spec (s : string) :
  exists pre post,
    s = pre ++ strip s ++ post
    /\ all_space pre = true /\ all_space post = true
    /\ starts_with_space (strip s) = false
    /\ ends_with_space (strip s) = false.
Proof.
  unfold strip.
  destruct (lstrip_spec s) as [pre [Hs [Hpre Hhead]]].
  destruct (rstrip_spec (lstrip s)) as [post [Hl [Hpost Hlast]]].
  exists pre, post. repeat split; try assumption.
  - rewrite <- Hl. exact Hs.
  - destruct (lstrip s) as [ | c t]; [ reflexivity | ].
    apply rstrip_keeps_head. exact Hhead.
Qed.

(** ** The chat endpoint *)

Ltac run_monad :=
  cbv beta iota delta [try_except bind lift emit ret raise completion run_script
                       write_script subprocess_run].

(** With the guards passed, the model answering [code] and the scratch file
    writable, the handler does three things to the world and answers by the
    way the child process ends. *)
Lemma chat_outcome (V : Env) (data : list (string * json)) (g : globals)
    (prompt code : string) :
  chat_prompt V data prompt ->
  create V (code_request prompt) = Ok (Some code) ->
  write_fault V (temp_script_path V) = None ->
  chat_with_data V (JObj data) g =
    (Ok (match run_child V [sys_executable V; temp_script_path V] code 15 with
         | Exited rc out err =>
             if (rc =? 0)%Z
             then answer (if String.eqb (strip out) "" then NO_OUTPUT_ANSWER
                          else strip out) 200
             else answer (script_error_answer err) 500
         | Expired => answer TIMEOUT_ANSWER 500
         | SpawnFailed (TimeoutExpired _ _) => answer TIMEOUT_ANSWER 500
         | SpawnFailed (CalledProcessError _ _ stderr _) =>
             answer (script_error_answer stderr) 500
         | SpawnFailed (PyException cls msg) =>
             answer (internal_error_answer (PyException cls msg)) 500
         end),
     g,
     [LLMCall (code_request prompt);
      FileWrite (temp_script_path V) code;
      Spawn [sys_executable V; temp_script_path V] 15]).
Proof.
  intros [Hq [Hf [Hc Hp]]] Hcreate Hwrite.
  rewrite chat_with_data_object. unfold chat_on_fields.
  rewrite Hq, Hf, Hc. cbn [negb orb].
  run_monad. rewrite Hp. cbv beta iota. rewrite Hcreate. cbv beta iota.
  rewrite Hwrite. cbv beta iota.
  destruct (run_child V [sys_executable V; temp_script_path V] code 15)
    as [rc out err | | e].
  - destruct (rc =? 0)%Z; reflexivity.
  - reflexivity.
  - destruct e; reflexivity.
Qed.

(** C1 (as amended).  When the script the model wrote is run: a clean exit
    whose stdout holds something besides whitespace answers 200 with stdout
    stripped of whitespace at BOTH ends ([str.strip]); a clean exit
    whose stdout is empty or all whitespace answers 200 with the fixed
    no-output message; running past the 15-second timeout answers 500 with
    the fixed timeout apology; a non-zero exit answers 500 with the captured
    stderr, stripped at both ends, inside the apology. *)
Theorem C1_executor_outcomes (V : Env) (data : list (string * json)) (g : globals)
    (prompt code : string) :
  chat_prompt V data prompt ->
  create V (code_request prompt) = Ok (Some code) ->
  write_fault V (temp_script_path V) = None ->
  let outcome := run_child V [sys_executable V; temp_script_path V] code 15 in
  let served := value (chat_with_data V (JObj data)) g in
  (forall out err, outcome = Exited 0 out err -> strip out <> "" ->
     served = Ok (answer (strip out) 200))
  /\ (forall out err, outcome = Exited 0 out err -> strip out = "" ->
        served = Ok (answer NO_OUTPUT_ANSWER 200))
  /\ (outcome = Expired -> served = Ok (answer TIMEOUT_ANSWER 500))
  /\ (forall rc out err, outcome = Exited rc out err -> rc <> 0%Z ->
        served = Ok (answer ("I'm sorry, the AI's code failed to run. (Error: "
                             ++ strip err ++ ")") 500))
  /\ In (Spawn [sys_executable V; temp_script_path V] 15)
        (log (chat_with_data V (JObj data)) g).
Proof.
  intros Hp Hcreate Hwrite outcome served.
  subst served. unfold value, log.
  rewrite (chat_outcome V data g prompt code Hp Hcreate Hwrite).
  fold outcome. cbn [fst snd].
  repeat split.
  - intros out err Ho Hne. rewrite Ho. cbn [Z.eqb].
    apply String.eqb_neq in Hne. rewrite Hne. reflexivity.
  - intros out err Ho He. rewrite Ho. cbn [Z.eqb]. rewrite He. reflexivity.
  - intros Ho. rewrite Ho. reflexivity.
  - intros rc out err Ho Hrc. rewrite Ho.
    apply Z.eqb_neq in Hrc. rewrite Hrc. reflexivity.
  - right. right. left. reflexivity.
Qed.

Lemma C1_witness :
  value (chat_with_data
           (Examples.env (Ok (Some "print('  hello')")) (Exited 0 ("  hello" ++ nl) ""))
           (JObj (Examples.chat_body (JStr "q") (JStr "/srv/app/uploads/sales.csv")
                                     (JStr "Region, Sales"))))
        initial_globals
  = Ok (answer "hello" 200).
Proof.
  apply (proj1 (C1_executor_outcomes
                  (Examples.env (Ok (Some "print('  hello')"))
                                (Exited 0 ("  hello" ++ nl) ""))
                  (Examples.chat_body (JStr "q") (JStr "/srv/app/uploads/sales.csv")
                                      (JStr "Region, Sales"))
                  initial_globals
                  (final_prompt "Region, Sales" "No prior conversation." "" "q"
                                "/srv/app/uploads/sales.csv")
                  "print('  hello')"
                  (conj eq_refl (conj eq_refl (conj eq_refl eq_refl)))
                  eq_refl eq_refl)
               ("  hello" ++ nl) "").
  - reflexivity.
  - vm_compute. discriminate.
Defined.

(** The claim as written fails: stdout ["  hello\n"] exits cleanly and is
    not empty, and the answer is not stdout with only its trailing
    whitespace removed. *)
Lemma C1_counterexample :
  let V := Examples.env (Ok (Some "print('  hello')")) (Exited 0 ("  hello" ++ nl) "") in
  let data := Examples.chat_body (JStr "q") (JStr "/srv/app/uploads/sales.csv")
                                 (JStr "Region, Sales") in
  run_child V [sys_executable V; temp_script_path V] "print('  hello')" 15
    = Exited 0 ("  hello" ++ nl) ""
  /\ rstrip ("  hello" ++ nl) = "  hello"
  /\ value (chat_with_data V (JObj data)) initial_globals
     <> Ok (answer (rstrip ("  hello" ++ nl)) 200).
Proof.
  repeat split. vm_compute. discriminate.
Qed.

(** C2 (as amended).  The text written to the scratch file, and run, is the
    model's reply exactly as it came: nothing is stripped from it.  The only
    defence against code fences is the system instruction that asks the
    model not to send them. *)
Theorem C2_script_written_verbatim (V : Env) (data : list (string * json))
    (g : globals) (prompt code : string) :
  chat_prompt V data prompt ->
  create V (code_request prompt) = Ok (Some code) ->
  write_fault V (temp_script_path V) = None ->
  log (chat_with_data V (JObj data)) g =
    [LLMCall (code_request prompt);
     FileWrite (temp_script_path V) code;
     Spawn [sys_executable V; temp_script_path V] 15]
  /\ content (nth 0 (messages (code_request prompt)) {| role := ""; content := "" |})
     = "You are a Python data scientist that only responds with raw Python code. Do not include markdown ticks ```python or ```.".
Proof.
  intros Hp Hcreate Hwrite. unfold log.
  rewrite (chat_outcome V data g prompt code Hp Hcreate Hwrite).
  split; reflexivity.
Qed.

Lemma C2_witness :
  log (chat_with_data
         (Examples.env (Ok (Some "print(1)")) (Exited 0 ("1" ++ nl) ""))
         (JObj (Examples.chat_body (JStr "q") (JStr "/srv/app/uploads/sales.csv")
                                   (JStr "Region, Sales"))))
      initial_globals
  = [LLMCall (code_request
                (final_prompt "Region, Sales" "No prior conversation." "" "q"
                              "/srv/app/uploads/sales.csv"));
     FileWrite "/tmp/temp_chat_script.py" "print(1)";
     Spawn ["/usr/bin/python3"; "/tmp/temp_chat_script.py"] 15].
Proof.
  apply (proj1 (C2_script_written_verbatim
                  (Examples.env (Ok (Some "print(1)")) (Exited 0 ("1" ++ nl) ""))
                  (Examples.chat_body (JStr "q") (JStr "/srv/app/uploads/sales.csv")
                                      (JStr "Region, Sales"))
                  initial_globals
                  (final_prompt "Region, Sales" "No prior conversation." "" "q"
                                "/srv/app/uploads/sales.csv")
                  "print(1)"
                  (conj eq_refl (conj eq_refl (conj eq_refl eq_refl)))
                  eq_refl eq_refl)).
Defined.

(** The claim as written fails: a reply wrapped in a code fence reaches the
    scratch file with its fence markers. *)
Lemma C2_counterexample :
  let V := Examples.env (Ok (Some Examples.fenced_code))
                        (Exited 1 "" "SyntaxError: invalid syntax") in
  let data := Examples.chat_body (JStr "q") (JStr "/srv/app/uploads/sales.csv")
                                 (JStr "Region, Sales") in
  In (FileWrite (temp_script_path V) Examples.fenced_code)
     (log (chat_with_data V (JObj data)) initial_globals)
  /\ contains "```" Examples.fenced_code = true.
Proof.
  split; [ right; left; reflexivity | reflexivity ].
Qed.

(** C5 (as amended).  A request whose body is a JSON object without
    [filepath], or without [columns], is answered 400 without any call to
    the model; the message is the upload-first one when the question is
    present and non-empty, and the ask-a-question one when the question is
    missing or empty, because the question is checked first.  (A body that
    is not an object never reaches the guards: see
    [chat_body_not_an_object].) *)
Theorem C5_missing_dataset_fields (V : Env) (data : list (string * json)) (g : globals) :
  assoc "filepath" data = None \/ assoc "columns" data = None ->
  chat_with_data V (JObj data) g =
    (Ok (answer (if truthy (dict_get data "question" JNull)
                 then "I'm sorry, I can't answer questions. Please upload a CSV file first."
                 else "You must ask a question.") 400),
     g, []).
Proof.
  intro Hmissing. rewrite chat_with_data_object. unfold chat_on_fields.
  destruct (truthy (dict_get data "question" JNull)); [ | reflexivity ].
  cbn [negb].
  assert (Hguard : negb (truthy (dict_get data "filepath" JNull))
                   || negb (truthy (dict_get data "columns" JNull)) = true).
  { unfold dict_get. destruct Hmissing as [H | H]; rewrite H; simpl.
    - reflexivity.
    - apply orb_true_r. }
  rewrite Hguard. reflexivity.
Qed.

Lemma C5_witness :
  chat_with_data (Examples.env (Ok (Some "print(1)")) Expired)
                 (JObj [("question", JStr "What is the total?"); ("columns", JStr "a, b")])
                 initial_globals
  = (Ok (answer "I'm sorry, I can't answer questions. Please upload a CSV file first." 400),
     initial_globals, []).
Proof.
  apply (C5_missing_dataset_fields
           (Examples.env (Ok (Some "print(1)")) Expired)
           [("question", JStr "What is the total?"); ("columns", JStr "a, b")]
           initial_globals).
  left. reflexivity.
Defined.

(** A body that is a list, [null], a string or a number has no [get]: the
    first line of the view raises, before the guards and outside the [try],
    so nothing is done to the world and Flask answers 500. *)
Lemma chat_body_not_an_object (V : Env) (E : Engine) (data : json) (g : globals) :
  (forall members, data <> JObj members) ->
  chat_with_data V data g
  = (Raise (PyException "AttributeError"
              ("'" ++ type_name data ++ "' object has no attribute 'get'")),
     g, [])
  /\ serve_one {| call_env := V; call_engine := E; call_request := PostChat data |} g
     = ({| body := JNull; status := 500 |}, g).
Proof.
  intro Hno.
  assert (H : chat_with_data V data g
              = (Raise (PyException "AttributeError"
                          ("'" ++ type_name data ++ "' object has no attribute 'get'")),
                 g, [])).
  { destruct data; try reflexivity. exfalso. exact (Hno members eq_refl). }
  split; [ exact H | ].
  unfold serve_one, handle. cbn [call_env call_engine call_request]. rewrite H. reflexivity.
Qed.

(** The claim as written fails: with [filepath] and [question] both left
    out, the answer is not the upload-first message. *)
Lemma C5_counterexample :
  let V := Examples.env (Ok (Some "print(1)")) Expired in
  let data := [("columns", JStr "a, b")] in
  assoc "filepath" data = None
  /\ assoc "question" data = None
  /\ value (chat_with_data V (JObj data)) initial_globals
     = Ok (answer "You must ask a question." 400)
  /\ value (chat_with_data V (JObj data)) initial_globals
     <> Ok (answer "I'm sorry, I can't answer questions. Please upload a CSV file first." 400).
Proof.
  repeat split. vm_compute. discriminate.
Qed.

(** C4 (as amended).  The chat handler neither reads nor writes the session
    pointer: from every state of the globals it returns the same response,
    does the same things to the world and hands the globals back unchanged;
    the dataset path and the column list come from the request body.  So
    after any sequence of requests the pointer and the column list are what
    the uploads alone leave. *)
Theorem C4_chat_ignores_session_pointer :
  (forall (V : Env) (data : json),
      exists r l, forall g, chat_with_data V data g = (r, g, l))
  /\ (forall (calls : list call) (g : globals),
        snd (serve calls g) = snd (serve (filter is_upload calls) g)).
Proof.
  split.
  - intros V data. apply stateless_chat_with_data.
  - intros calls g. apply serve_globals_uploads.
Qed.

(** The claim as written fails: after an upload has set the pointer, a chat
    request that does not resend the path is refused; the handler does not
    fall back on the pointer. *)
Lemma C4_counterexample :
  let V := Examples.env (Ok (Some "[]")) Expired in
  let E := Examples.engine (Ok Examples.sales) in
  let upload := {| call_env := V; call_engine := E;
                   call_request := PostUpload [("file", {| filename := "sales.csv";
                                                           stream := "" |})] |} in
  let chat := {| call_env := V; call_engine := E;
                 call_request := PostChat (JObj [("question", JStr "What is the total?")]) |} in
  let g := snd (serve [upload] initial_globals) in
  last_uploaded_filepath g = Some "/srv/app/uploads/sales.csv"
  /\ csv_column_names g = "Region, Sales, Units"
  /\ serve_one chat g
     = (answer "I'm sorry, I can't answer questions. Please upload a CSV file first." 400, g).
Proof.
  repeat split.
Qed.

(** ** The meta-prompt *)

Lemma replace_doubles (s : string) :
  replace backslash (String backslash (String backslash "")) s
  = each_backslash_doubled s.
Proof.
  unfold each_backslash_doubled.
  induction s as [ | c s IH]; [ reflexivity | ].
  simpl. rewrite IH. destruct (Ascii.eqb c backslash); reflexivity.
Qed.

(** The first thing a body does is what the whole [try] does first. *)
Lemma log_starts_with_call (V : Env) (p : string) (r : string -> llm_request)
    (k : option string -> M response) (h : exn -> M response) (g : globals) :
  exists rest,
    snd (try_except (prompt <- lift (Ok p) ;;
                     python_code_to_run <- completion V (r prompt) ;;
                     k python_code_to_run) h g)
    = LLMCall (r p) :: rest.
Proof.
  cbv beta iota delta [try_except bind lift emit completion].
  destruct (create V (r p)) as [code | e].
  - destruct (k code g) as [[res g1] l1]. destruct res as [a | e].
    + eexists. reflexivity.
    + destruct (h e g1) as [[res' g2] l2]. eexists. reflexivity.
  - destruct (h e g) as [[res' g2] l2]. eexists. reflexivity.
Qed.

Lemma concat_app (sep : string) (l1 l2 : list string) :
  l1 <> [] -> l2 <> [] ->
  String.concat sep (l1 ++ l2) = String.concat sep l1 ++ sep ++ String.concat sep l2.
Proof.
  intros H1 H2. induction l1 as [ | a l1 IH]; [ contradiction | ].
  destruct l1 as [ | b l1].
  - destruct l2 as [ | c l2]; [ contradiction | reflexivity ].
  - change (String.concat sep ((a :: b :: l1) ++ l2))
      with (a ++ sep ++ String.concat sep ((b :: l1) ++ l2)).
    rewrite IH by discriminate.
    change (String.concat sep (a :: b :: l1)) with (a ++ sep ++ String.concat sep (b :: l1)).
    rewrite !append_assoc. reflexivity.
Qed.

(** A segment that is neither the first nor the last stands in the text
    between two separators. *)
Lemma concat_middle (sep x : string) (l1 l2 : list string) :
  l1 <> [] -> l2 <> [] ->
  String.concat sep (l1 ++ x :: l2)
  = String.concat sep l1 ++ sep ++ x ++ sep ++ String.concat sep l2.
Proof.
  intros H1 H2. rewrite concat_app by (assumption || discriminate).
  destruct l2 as [ | c l2]; [ contradiction | reflexivity ].
Qed.

(** C10.  For a chat request with a question and with [filepath] and
    [columns] given as non-empty strings, the request the model receives
    has two messages, and the content of its user message is the
    meta-prompt in which one whole line is the data-loading statement on
    the path of the request body, each backslash doubled, and one whole
    line is the column list of the request body as it is.  This holds from
    every state of the globals: the path is never compared with the
    session pointer or with the upload directory. *)
Theorem C10_prompt_targets_client_path (V : Env) (data : list (string * json))
    (fp cols : string) :
  truthy (dict_get data "question" JNull) = true ->
  dict_get data "filepath" JNull = JStr fp -> fp <> "" ->
  dict_get data "columns" JNull = JStr cols -> cols <> "" ->
  (truthy (dict_get data "metrics" (JStr "")) = false
   \/ exists m, dict_get data "metrics" (JStr "") = JStr m) ->
  let safe := each_backslash_doubled fp in
  let segments :=
    final_prompt_lines cols
      (format V (dict_get data "history" (JStr "No prior conversation.")))
      (metrics_paragraph V (dict_get data "metrics" (JStr "")))
      (format V (dict_get data "question" JNull))
      safe in
  exists user_prompt,
    (forall g : globals, exists rest,
        log (chat_with_data V (JObj data)) g
        = LLMCall {| messages :=
                       [ {| role := "system";
                            content := "You are a Python data scientist that only responds with raw Python code. Do not include markdown ticks ```python or ```." |};
                         {| role := "user"; content := user_prompt |} ];
                     model := "gpt-3.5-turbo-0125";
                     temperature := QArith_base.Qmake 0 1 |}
          :: rest)
    /\ user_prompt = lines segments
    /\ (exists before after,
          user_prompt
          = before ++ nl ++ ("        df = pd.read_csv(" ++ dq ++ safe ++ dq ++ ")")
            ++ nl ++ after)
    /\ (exists before after,
          user_prompt = before ++ nl ++ ("        CSV Columns: " ++ cols) ++ nl ++ after)
    /\ In ("        df = pd.read_csv(" ++ dq ++ safe ++ dq ++ ")") segments
    /\ In ("        CSV Columns: " ++ cols) segments.
Proof.
  intros Hq Hfp Hfp_ne Hcols Hcols_ne Hmetrics.
  assert (Hprompt :
             meta_prompt V (dict_get data "question" JNull)
               (dict_get data "metrics" (JStr ""))
               (dict_get data "history" (JStr "No prior conversation."))
               (dict_get data "filepath" JNull) (dict_get data "columns" JNull)
             = Ok (final_prompt cols
                     (format V (dict_get data "history" (JStr "No prior conversation.")))
                     (metrics_paragraph V (dict_get data "metrics" (JStr "")))
                     (format V (dict_get data "question" JNull))
                     (each_backslash_doubled fp))).
  { unfold meta_prompt. rewrite Hfp, Hcols.
    destruct Hmetrics as [Hfalse | [m Hm]].
    - rewrite Hfalse. simpl. rewrite replace_doubles.
      destruct (dict_get data "metrics" (JStr "")) as [ | | | | m | | ];
        try reflexivity.
      simpl in Hfalse. apply negb_false_iff in Hfalse.
      unfold metrics_paragraph. rewrite Hfalse. reflexivity.
    - rewrite Hm. unfold metrics_paragraph. simpl truthy.
      destruct (String.eqb m ""); simpl; rewrite replace_doubles; reflexivity. }
  cbv zeta.
  set (segments := final_prompt_lines cols
         (format V (dict_get data "history" (JStr "No prior conversation.")))
         (metrics_paragraph V (dict_get data "metrics" (JStr "")))
         (format V (dict_get data "question" JNull))
         (each_backslash_doubled fp)).
  exists (lines segments).
  split; [ | split; [ reflexivity | split; [ | split; [ | split ] ] ] ].
  - intro g. unfold log. rewrite chat_with_data_object. unfold chat_on_fields.
    rewrite Hq.
    assert (Hf : truthy (dict_get data "filepath" JNull) = true).
    { rewrite Hfp. simpl. apply String.eqb_neq in Hfp_ne. rewrite Hfp_ne. reflexivity. }
    assert (Hc : truthy (dict_get data "columns" JNull) = true).
    { rewrite Hcols. simpl. apply String.eqb_neq in Hcols_ne. rewrite Hcols_ne.
      reflexivity. }
    rewrite Hf, Hc. cbn [negb orb]. rewrite Hprompt.
    apply (log_starts_with_call V _ code_request (fun code => run_script V code)
             chat_except g).
  - exists (String.concat nl (firstn 20 segments)),
           (String.concat nl (skipn 21 segments)).
    unfold lines.
    rewrite <- concat_middle by (unfold segments, final_prompt_lines; discriminate).
    reflexivity.
  - exists (String.concat nl (firstn 3 segments)),
           (String.concat nl (skipn 4 segments)).
    unfold lines.
    rewrite <- concat_middle by (unfold segments, final_prompt_lines; discriminate).
    reflexivity.
  - unfold segments, final_prompt_lines. cbn [In].
    repeat (first [ left; reflexivity | right ]).
  - unfold segments, final_prompt_lines. cbn [In].
    repeat (first [ left; reflexivity | right ]).
Qed.

Lemma C10_witness :
  exists user_prompt,
    (forall g : globals, exists rest,
        log (chat_with_data
               (Examples.env (Ok (Some "print(1)")) Expired)
               (JObj (Examples.chat_body (JStr "q") (JStr "C:\data\a.csv") (JStr "a, b"))))
            g
        = LLMCall {| messages :=
                       [ {| role := "system";
                            content := "You are a Python data scientist that only responds with raw Python code. Do not include markdown ticks ```python or ```." |};
                         {| role := "user"; content := user_prompt |} ];
                     model := "gpt-3.5-turbo-0125";
                     temperature := QArith_base.Qmake 0 1 |}
          :: rest)
    /\ user_prompt
       = final_prompt "a, b" "No prior conversation." "" "q" "C:\\data\\a.csv".
Proof.
  destruct (C10_prompt_targets_client_path
              (Examples.env (Ok (Some "print(1)")) Expired)
              (Examples.chat_body (JStr "q") (JStr "C:\data\a.csv") (JStr "a, b"))
              "C:\data\a.csv" "a, b"
              eq_refl eq_refl
              (fun H : "C:\data\a.csv" = "" => eq_ind "C:\data\a.csv"
                 (fun s => match s with EmptyString => False | _ => True end) I "" H)
              eq_refl
              (fun H : "a, b" = "" => eq_ind "a, b"
                 (fun s => match s with EmptyString => False | _ => True end) I "" H)
              (or_introl eq_refl)) as [user_prompt [Hlog [Heq _]]].
  exists user_prompt. split; [ exact Hlog | exact Heq ].
Defined.

(** ** [find], [rfind] and slices *)

Lemma get_lt (n : nat) (s : string) (c : ascii) :
  get n s = Some c -> (n < String.length s)%nat.
Proof.
  revert n. induction s as [ | a s IH]; intros n H; [ discriminate | ].
  destruct n as [ | n]; simpl in *; [ lia | ].
  apply IH in H. lia.
Qed.

Lemma find_from_spec (c : ascii) (s : string) :
  forall k : Z,
    (find_from c s k = (-1)%Z /\ forall n, get n s <> Some c)
    \/ (exists n, find_from c s k = (k + Z.of_nat n)%Z
                  /\ get n s = Some c
                  /\ forall m, (m < n)%nat -> get m s <> Some c).
Proof.
  induction s as [ | a s IH]; intro k.
  - left. split; [ reflexivity | intros n H; discriminate ].
  - simpl. destruct (Ascii.eqb a c) eqn:Hac.
    + right. exists 0%nat. apply Ascii.eqb_eq in Hac. subst a.
      split; [ simpl; lia | split; [ reflexivity | intros m Hm; lia ] ].
    + apply Ascii.eqb_neq in Hac.
      destruct (IH (k + 1)%Z) as [[Hr Habs] | [n [Hr [Hn Hfirst]]]].
      * left. split; [ exact Hr | ].
        intros [ | n] H; simpl in H; [ congruence | exact (Habs n H) ].
      * right. exists (S n). split; [ rewrite Hr; lia | split; [ exact Hn | ] ].
        intros [ | m] Hm H; simpl in H; [ congruence | ].
        apply (Hfirst m); [ lia | exact H ].
Qed.

Lemma rfind_from_spec (c : ascii) (s : string) :
  forall k : Z, (0 <= k)%Z ->
    (rfind_from c s k = (-1)%Z /\ forall n, get n s <> Some c)
    \/ (exists n, rfind_from c s k = (k + Z.of_nat n)%Z
                  /\ get n s = Some c
                  /\ forall m, (n < m)%nat -> get m s <> Some c).
Proof.
  induction s as [ | a s IH]; intros k Hk.
  - left. split; [ reflexivity | intros n H; discriminate ].
  - simpl. destruct (IH (k + 1)%Z ltac:(lia)) as [[Hr Habs] | [n [Hr [Hn Hlast]]]].
    + rewrite Hr. simpl. destruct (Ascii.eqb a c) eqn:Hac.
      * right. exists 0%nat. apply Ascii.eqb_eq in Hac. subst a.
        split; [ lia | split; [ reflexivity | ] ].
        intros [ | m] Hm H; [ lia | simpl in H; exact (Habs m H) ].
      * left. apply Ascii.eqb_neq in Hac. split; [ reflexivity | ].
        intros [ | m] H; simpl in H; [ congruence | exact (Habs m H) ].
    + rewrite Hr.
      destruct (k + 1 + Z.of_nat n =? -1)%Z eqn:Hneg; [ apply Z.eqb_eq in Hneg; lia | ].
      right. exists (S n). split; [ lia | split; [ exact Hn | ] ].
      intros [ | m] Hm H; [ lia | simpl in H ].
      apply (Hlast m); [ lia | exact H ].
Qed.

(** The first and the last position of a character are unique. *)
Lemma first_unique (c : ascii) (s : string) (n n' : nat) :
  get n s = Some c -> (forall m, (m < n)%nat -> get m s <> Some c) ->
  get n' s = Some c -> (forall m, (m < n')%nat -> get m s <> Some c) ->
  n = n'.
Proof.
  intros H1 F1 H2 F2.
  destruct (Nat.lt_trichotomy n n') as [Hlt | [Heq | Hgt]]; [ | exact Heq | ].
  - exfalso. exact (F2 n Hlt H1).
  - exfalso. exact (F1 n' Hgt H2).
Qed.

Lemma last_unique (c : ascii) (s : string) (n n' : nat) :
  get n s = Some c -> (forall m, (n < m)%nat -> get m s <> Some c) ->
  get n' s = Some c -> (forall m, (n' < m)%nat -> get m s <> Some c) ->
  n = n'.
Proof.
  intros H1 F1 H2 F2.
  destruct (Nat.lt_trichotomy n n') as [Hlt | [Heq | Hgt]]; [ | exact Heq | ].
  - exfalso. exact (F1 n' Hlt H2).
  - exfalso. exact (F2 n Hgt H1).
Qed.

(** A slice between two positions of the text, the second one included. *)
Lemma slice_between (s : string) (n1 n2 : nat) :
  (n1 < String.length s)%nat -> (n2 < String.length s)%nat ->
  slice s (Z.of_nat n1) (Z.of_nat n2 + 1) = substring n1 (n2 + 1 - n1) s.
Proof.
  intros H1 H2. unfold slice, clamp.
  destruct (Z.of_nat n1 <? 0)%Z eqn:Ha; [ apply Z.ltb_lt in Ha; lia | ].
  destruct (Z.of_nat n2 + 1 <? 0)%Z eqn:Hb; [ apply Z.ltb_lt in Hb; lia | ].
  f_equal; lia.
Qed.

(** What the two planners hand to [json.loads]: nothing without both
    brackets, and otherwise the text from the first [[] to the last []],
    both included. *)
Lemma bracketed_json_spec (V : Env) (text no_array : string) :
  (((forall n, get n text <> Some "["%char) \/ (forall n, get n text <> Some "]"%char))
   /\ bracketed_json V (Some text) no_array = Raise (PyException "ValueError" no_array))
  \/ (exists n1 n2,
         get n1 text = Some "["%char
         /\ (forall m, (m < n1)%nat -> get m text <> Some "["%char)
         /\ get n2 text = Some "]"%char
         /\ (forall m, (n2 < m)%nat -> get m text <> Some "]"%char)
         /\ bracketed_json V (Some text) no_array
            = json_loads V (substring n1 (n2 + 1 - n1) text)).
Proof.
  unfold bracketed_json, find, rfind.
  destruct (find_from_spec "[" text 0) as [[Hf Hnone] | [n1 [Hf [H1 F1]]]].
  - left. split; [ left; exact Hnone | ]. rewrite Hf. reflexivity.
  - destruct (rfind_from_spec "]" text 0 ltac:(lia)) as [[Hr Hnone] | [n2 [Hr [H2 F2]]]].
    + left. split; [ right; exact Hnone | ]. rewrite Hr.
      rewrite orb_true_r. reflexivity.
    + right. exists n1, n2. repeat split; try assumption.
      rewrite Hf, Hr.
      destruct (0 + Z.of_nat n1 =? -1)%Z eqn:Ha; [ apply Z.eqb_eq in Ha; lia | ].
      destruct (0 + Z.of_nat n2 =? -1)%Z eqn:Hb; [ apply Z.eqb_eq in Hb; lia | ].
      cbn [orb]. rewrite !Z.add_0_l.
      rewrite slice_between; [ reflexivity | | ]; eapply get_lt; eassumption.
Qed.

(** The same, read from the positions. *)
Lemma bracketed_json_absent (V : Env) (text no_array : string) :
  (forall n, get n text <> Some "["%char) \/ (forall n, get n text <> Some "]"%char) ->
  bracketed_json V (Some text) no_array = Raise (PyException "ValueError" no_array).
Proof.
  intros Habs.
  destruct (bracketed_json_spec V text no_array)
    as [[_ H] | [n1 [n2 [H1 [_ [H2 _]]]]]]; [ exact H | ].
  exfalso. destruct Habs as [Habs | Habs]; [ exact (Habs n1 H1) | exact (Habs n2 H2) ].
Qed.

Lemma bracketed_json_between (V : Env) (text no_array : string) (n1 n2 : nat) :
  get n1 text = Some "["%char ->
  (forall m, (m < n1)%nat -> get m text <> Some "["%char) ->
  get n2 text = Some "]"%char ->
  (forall m, (n2 < m)%nat -> get m text <> Some "]"%char) ->
  bracketed_json V (Some text) no_array = json_loads V (substring n1 (n2 + 1 - n1) text).
Proof.
  intros H1 F1 H2 F2.
  destruct (bracketed_json_spec V text no_array)
    as [[Habs _] | [m1 [m2 [G1 [E1 [G2 [E2 H]]]]]]].
  - exfalso. destruct Habs as [Habs | Habs]; [ exact (Habs n1 H1) | exact (Habs n2 H2) ].
  - rewrite (first_unique _ _ _ _ H1 F1 G1 E1), (last_unique _ _ _ _ H2 F2 G2 E2).
    exact H.
Qed.

(** ** The two planners *)

(** What [get_ai_visualizations] returns once the model has answered. *)
Lemma visualizations_value (V : Env) (E : Engine)
    (df_schema original_df : DataFrame (scalar E)) (g : globals) (reply : option string) :
  create V (json_request (visualizations_prompt (info E df_schema)
                                                (head_to_string E df_schema))
                         (QArith_base.Qmake 1 10)) = Ok reply ->
  get_ai_visualizations V E df_schema original_df g =
    (Ok (match (let* recipes_list :=
                  bracketed_json V reply "AI response did not contain a valid JSON array." in
                let* recipes := py_iter recipes_list in
                final_charts_list E 0 original_df recipes) with
         | Ok charts => JArr charts
         | Raise e => planner_error (exn_str e)
         end),
     g,
     [LLMCall (json_request (visualizations_prompt (info E df_schema)
                                                   (head_to_string E df_schema))
                            (QArith_base.Qmake 1 10))]).
Proof.
  intro Hcreate. unfold get_ai_visualizations.
  cbv beta iota zeta delta [try_except bind lift emit ret raise completion].
  rewrite Hcreate. cbv beta iota.
  destruct (bracketed_json V reply _) as [parsed | e]; [ | reflexivity ].
  cbv beta iota delta [rbind].
  destruct (py_iter parsed) as [recipes | e]; [ | reflexivity ].
  destruct (final_charts_list E 0 original_df recipes); reflexivity.
Qed.

(** C3.  When the model's reply to the chart request is [text]: the planner
    returns a value and never raises; without a [[] or without a []] it
    returns the error object; with both, what [json.loads] is given is the
    text from the first [[] to the last []] inclusive, so that a parse
    failure gives the error object and a parsed value is the recipe list
    the charts are made from; and the reply [Sure! [{"a":1}] Thanks] is
    read as the one-element array [[{"a":1}]]. *)
Theorem C3_bracket_extraction (V : Env) (E : Engine)
    (df_schema original_df : DataFrame (scalar E)) (g : globals) (text : string) :
  create V (json_request (visualizations_prompt (info E df_schema)
                                                (head_to_string E df_schema))
                         (QArith_base.Qmake 1 10)) = Ok (Some text) ->
  let returned := value (get_ai_visualizations V E df_schema original_df) g in
  (exists v, returned = Ok v)
  /\ ((forall n, get n text <> Some "["%char) \/ (forall n, get n text <> Some "]"%char) ->
      returned = Ok (planner_error "AI response did not contain a valid JSON array."))
  /\ (forall n1 n2,
        get n1 text = Some "["%char ->
        (forall m, (m < n1)%nat -> get m text <> Some "["%char) ->
        get n2 text = Some "]"%char ->
        (forall m, (n2 < m)%nat -> get m text <> Some "]"%char) ->
        let payload := substring n1 (n2 + 1 - n1) text in
        (forall e, json_loads V payload = Raise e ->
                   returned = Ok (planner_error (exn_str e)))
        /\ (forall parsed, json_loads V payload = Ok parsed ->
              returned = Ok (match (let* recipes := py_iter parsed in
                                    final_charts_list E 0 original_df recipes) with
                             | Ok charts => JArr charts
                             | Raise e => planner_error (exn_str e)
                             end)))
  /\ (forall no_array,
        json_loads V ("[{" ++ dq ++ "a" ++ dq ++ ":1}]") = Ok (JArr [JObj [("a", JInt 1)]]) ->
        bracketed_json V (Some ("Sure! [{" ++ dq ++ "a" ++ dq ++ ":1}] Thanks")) no_array
        = Ok (JArr [JObj [("a", JInt 1)]])).
Proof.
  intros Hcreate returned. subst returned. unfold value.
  rewrite (visualizations_value V E df_schema original_df g (Some text) Hcreate).
  cbn [fst]. split; [ | split; [ | split ] ].
  - eexists. reflexivity.
  - intro Habs. rewrite (bracketed_json_absent V text _ Habs). reflexivity.
  - intros n1 n2 H1 F1 H2 F2.
    rewrite (bracketed_json_between V text _ n1 n2 H1 F1 H2 F2).
    split.
    + intros e He. rewrite He. reflexivity.
    + intros parsed Hp. rewrite Hp. reflexivity.
  - intros no_array Hloads.
    rewrite (bracketed_json_between V _ no_array 6 14); try reflexivity.
    + exact Hloads.
    + intros m Hm. do 6 (destruct m as [ | m]; [ discriminate | ]). lia.
    + intros m Hm. do 15 (destruct m as [ | m]; [ lia | ]).
      do 7 (destruct m as [ | m]; [ discriminate | ]). discriminate.
Qed.

Lemma C3_witness :
  value (get_ai_visualizations
           (Examples.env (Ok (Some ("Sure! [{" ++ dq ++ "a" ++ dq ++ ":1}] Thanks"))) Expired)
           (Examples.engine (Ok Examples.sales)) Examples.sales Examples.sales)
        initial_globals
  = Ok (JArr []).
Proof.
  refine (proj2 (proj1 (proj2 (proj2
           (C3_bracket_extraction
              (Examples.env (Ok (Some ("Sure! [{" ++ dq ++ "a" ++ dq ++ ":1}] Thanks"))) Expired)
              (Examples.engine (Ok Examples.sales)) Examples.sales Examples.sales
              initial_globals
              ("Sure! [{" ++ dq ++ "a" ++ dq ++ ":1}] Thanks")
              eq_refl))) 6%nat 14%nat eq_refl _ eq_refl _)
           (JArr [JObj [("a", JInt 1)]]) eq_refl).
  - intros m Hm. do 6 (destruct m as [ | m]; [ discriminate | ]). lia.
  - intros m Hm. do 15 (destruct m as [ | m]; [ lia | ]).
    do 7 (destruct m as [ | m]; [ discriminate | ]). discriminate.
Defined.

(** What [get_ai_insights] returns, by the model's answer. *)
Lemma insights_value (V : Env) (df_schema_info first_5_rows : string) (g : globals) :
  get_ai_insights V df_schema_info first_5_rows g =
    (Ok (match (let* reply := create V (json_request
                                          (insights_prompt df_schema_info first_5_rows)
                                          (QArith_base.Qmake 2 10)) in
                bracketed_json V reply
                  "AI insights response did not contain a valid JSON array.") with
         | Ok insights_list => insights_list
         | Raise _ => JArr [JStr INSIGHTS_FALLBACK]
         end),
     g,
     [LLMCall (json_request (insights_prompt df_schema_info first_5_rows)
                            (QArith_base.Qmake 2 10))]).
Proof.
  unfold get_ai_insights.
  cbv beta iota zeta delta [try_except bind lift emit ret raise completion rbind].
  destruct (create V _) as [reply | e]; [ | reflexivity ].
  destruct (bracketed_json V reply _); reflexivity.
Qed.

(** C9 (as amended).  The insight generator returns a value and never
    raises.  When the model call raises, the reply has no text, a bracket is
    missing or [json.loads] fails, it returns the one-element list with the
    fixed apology.  When [json.loads] succeeds it returns the parsed value
    as it is: no element is inspected, not even for being a string. *)
Theorem C9_insights_fallback (V : Env) (df_schema_info first_5_rows : string)
    (g : globals) :
  let reply := create V (json_request (insights_prompt df_schema_info first_5_rows)
                                      (QArith_base.Qmake 2 10)) in
  let returned := value (get_ai_insights V df_schema_info first_5_rows) g in
  let fallback :=
    Ok (JArr [JStr "Failed to generate insights. The AI model may be temporarily down."]) in
  (exists v, returned = Ok v)
  /\ (forall e, reply = Raise e -> returned = fallback)
  /\ (reply = Ok None -> returned = fallback)
  /\ (forall text, reply = Ok (Some text) ->
        (forall n, get n text <> Some "["%char) \/ (forall n, get n text <> Some "]"%char) ->
        returned = fallback)
  /\ (forall text n1 n2, reply = Ok (Some text) ->
        get n1 text = Some "["%char ->
        (forall m, (m < n1)%nat -> get m text <> Some "["%char) ->
        get n2 text = Some "]"%char ->
        (forall m, (n2 < m)%nat -> get m text <> Some "]"%char) ->
        let payload := substring n1 (n2 + 1 - n1) text in
        (forall e, json_loads V payload = Raise e -> returned = fallback)
        /\ (forall parsed, json_loads V payload = Ok parsed -> returned = Ok parsed)).
Proof.
  intros reply returned fallback. subst returned. unfold value.
  rewrite insights_value. cbn [fst]. fold reply.
  split; [ | split; [ | split; [ | split ] ] ].
  - eexists. reflexivity.
  - intros e He. rewrite He. reflexivity.
  - intros He. rewrite He. reflexivity.
  - intros text He Habs. rewrite He. cbn [rbind].
    rewrite (bracketed_json_absent V text _ Habs). reflexivity.
  - intros text n1 n2 He H1 F1 H2 F2. rewrite He. cbn [rbind].
    rewrite (bracketed_json_between V text _ n1 n2 H1 F1 H2 F2).
    split.
    + intros e Hl. rewrite Hl. reflexivity.
    + intros parsed Hl. rewrite Hl. reflexivity.
Qed.

(** The claim as written fails: a reply that parses to numbers is returned
    with its numbers; no element was checked for being a string. *)
Lemma C9_counterexample :
  let V := Examples.env (Ok (Some "Here you go: [1, 2]")) Expired in
  value (get_ai_insights V "schema" "rows") initial_globals
  = Ok (JArr [JInt 1; JInt 2]).
Proof.
  reflexivity.
Qed.

(** ** The chart data helper: when it raises *)

Lemma rtry_total {A : Type} (body : result A) (a : A) :
  exists r, rtry body (fun _ => Ok a) = Ok r.
Proof. destruct body as [b | e]; eexists; reflexivity. Qed.

(** Past the two guards both labels are [str]. *)
Lemma guards_str (E : Engine) (df : DataFrame (scalar E)) (x_col y_col : json) :
  truthy x_col = true -> truthy y_col = true ->
  in_columns E x_col df = Ok true ->
  (let* y_in := in_columns E y_col df in
   if negb y_in
   then let* marker := str_in "Count of" y_col in Ok (negb marker)
   else Ok false) = Ok false ->
  (exists x, x_col = JStr x) /\ (exists y, y_col = JStr y).
Proof.
  intros Hx Hy Hin Hvalid. split.
  - destruct x_col; try discriminate. eexists. reflexivity.
  - destruct y_col as [ | b | z | f | s | l | m];
      try (eexists; reflexivity); simpl in Hvalid; discriminate.
Qed.

(** On a dict recipe whose two column fields are strings, or are absent or
    otherwise falsy, the helper returns: nothing leaves it as an
    exception. *)
Lemma prepare_chart_data_returns (E : Engine) (rnd : list nat)
    (df : DataFrame (scalar E)) (m : list (string * json)) :
  (truthy (dict_get m "x_column" JNull) = false
   \/ exists x, dict_get m "x_column" JNull = JStr x) ->
  (truthy (dict_get m "y_column" JNull) = false
   \/ exists y, dict_get m "y_column" JNull = JStr y) ->
  exists payload, prepare_chart_data E rnd df (JObj m) = Ok payload.
Proof.
  intros Hx Hy. unfold prepare_chart_data. cbn [recipe_get rbind].
  destruct (truthy (dict_get m "x_column" JNull)) eqn:Tx;
    [ | eexists; reflexivity ].
  destruct (truthy (dict_get m "y_column" JNull)) eqn:Ty;
    [ | eexists; reflexivity ].
  destruct Hx as [Hx | [x Hx]]; [ discriminate | ].
  destruct Hy as [Hy | [y Hy]]; [ discriminate | ].
  rewrite Hx, Hy. cbn [negb orb in_columns rbind str_in].
  destruct (mem x (names E df)); cbn [negb]; [ | eexists; reflexivity ].
  destruct (mem y (names E df)); cbn [negb rbind].
  - apply rtry_total.
  - destruct (contains "Count of" y); cbn [negb]; [ apply rtry_total | ].
    eexists. reflexivity.
Qed.

(** C6.  The helper is not total.  A recipe whose [y_column] is the number
    5, with an [x_column] that exists, makes the second guard evaluate
    ["Count of" not in 5]: a [TypeError] raised before the [try], which
    leaves the helper.  The loop of the planner has no [try] of its own, so
    the batch is lost with it: the recipe after it, which alone would give
    a chart, is never looked at and the planner returns its error object. *)
Theorem C6_numeric_y_column_escapes :
  let E := Examples.engine (Ok Examples.sales) in
  let V := Examples.env (Ok (Some Examples.two_recipes_reply)) Expired in
  json_loads V Examples.two_recipes_reply
  = Ok (JArr [Examples.numeric_y_recipe; Examples.sales_by_region_recipe])
  /\ prepare_chart_data E [] Examples.sales Examples.numeric_y_recipe
     = Raise (PyException "TypeError" "argument of type 'int' is not iterable")
  /\ prepare_chart_data E [] Examples.sales Examples.sales_by_region_recipe
     = Ok (Some [JObj [("Region", JStr "East"); ("Sales", JInt 17)];
                 JObj [("Region", JStr "West"); ("Sales", JInt 5)]])
  /\ value (get_ai_visualizations V E Examples.sales Examples.sales) initial_globals
     = Ok (planner_error "argument of type 'int' is not iterable").
Proof.
  repeat split.
Qed.

(** ** Frames *)

Lemma mem_In (x : string) (l : list string) : mem x l = true <-> In x l.
Proof.
  unfold mem. rewrite existsb_exists. split.
  - intros [y [Hy Heq]]. apply String.eqb_eq in Heq. subst y. exact Hy.
  - intro H. exists x. split; [ exact H | apply String.eqb_refl ].
Qed.

Lemma index_of_In (x : string) (l : list string) :
  In x l -> exists i, index_of x l = Some i.
Proof.
  induction l as [ | y l IH]; intro H; [ contradiction | ].
  simpl. destruct (String.eqb x y) eqn:Hxy; [ eexists; reflexivity | ].
  destruct H as [H | H]; [ subst y; rewrite String.eqb_refl in Hxy; discriminate | ].
  destruct (IH H) as [i Hi]. rewrite Hi. eexists. reflexivity.
Qed.

Lemma index_of_nth (x : string) (l : list string) (d : string) :
  forall i, index_of x l = Some i -> (i < List.length l)%nat /\ nth i l d = x.
Proof.
  induction l as [ | y l IH]; intros i H; [ discriminate | ].
  simpl in H. destruct (String.eqb x y) eqn:Hxy.
  - injection H as <-. apply String.eqb_eq in Hxy. subst y. simpl. split; [ lia | reflexivity ].
  - destruct (index_of x l) as [j | ] eqn:Hj; [ | discriminate ].
    injection H as <-. destruct (IH j eq_refl) as [Hlt Hn]. simpl. split; [ lia | exact Hn ].
Qed.

Lemma index_of_In_inv (x : string) (l : list string) (i : nat) :
  index_of x l = Some i -> In x l.
Proof.
  intro H. destruct (index_of_nth x l "" i H) as [Hlt Hn].
  rewrite <- Hn. apply nth_In. exact Hlt.
Qed.

Lemma column_label (E : Engine) (df : DataFrame (scalar E)) (x : string) (i : nat) :
  index_of x (names E df) = Some i ->
  fst (nth i (columns df) ("", false)) = x.
Proof.
  intro H. destruct (index_of_nth x (names E df) "" i H) as [_ Hn].
  unfold names in Hn. rewrite <- Hn.
  change "" with (fst ("", false)) at 2. rewrite map_nth. reflexivity.
Qed.

Lemma loc_found (E : Engine) (df : DataFrame (scalar E)) (x : string) (i : nat) :
  index_of x (names E df) = Some i -> loc E df x = Ok i.
Proof. intro H. unfold loc. rewrite H. reflexivity. Qed.

Lemma snd_combine_seq {A : Type} (l : list A) :
  forall k, map snd (combine (seq k (List.length l)) l) = l.
Proof.
  induction l as [ | a l IH]; intro k; [ reflexivity | ].
  simpl. rewrite IH. reflexivity.
Qed.

(** One record per row, with the column labels as its keys. *)
Lemma to_records_shape (E : Engine) (df : DataFrame (scalar E)) :
  distinct (names E df) = true ->
  exists records,
    to_records E df = Ok records
    /\ List.length records = List.length (rows df)
    /\ Forall (fun r => keys r = names E df) records.
Proof.
  intro Hd. unfold to_records. rewrite Hd. eexists. split; [ reflexivity | ].
  split; [ apply length_map | ].
  apply Forall_forall. intros r Hr. apply in_map_iff in Hr.
  destruct Hr as [row [<- _]]. unfold keys. rewrite map_map.
  cbn [fst snd]. apply snd_combine_seq.
Qed.

Lemma length_insert_key (E : Engine) (k : scalar E) (l : list (scalar E)) :
  List.length (insert_key E k l) = S (List.length l).
Proof.
  induction l as [ | a l IH]; [ reflexivity | ].
  simpl. destruct (key_leb E k a); simpl; [ | rewrite IH ]; reflexivity.
Qed.

Lemma length_sort_keys (E : Engine) (l : list (scalar E)) :
  List.length (sort_keys E l) = List.length l.
Proof.
  induction l as [ | a l IH]; [ reflexivity | ].
  unfold sort_keys in *. simpl. rewrite length_insert_key, IH. reflexivity.
Qed.

Lemma dedup_nil (E : Engine) (l : list (scalar E)) : dedup E l = [] <-> l = [].
Proof.
  destruct l; simpl; split; intro H; try reflexivity; discriminate.
Qed.

(** There is a group exactly when some row has a value in the key column. *)
Lemma group_keys_nonempty (E : Engine) (df : DataFrame (scalar E)) (i : nat) :
  group_keys E df i <> []
  <-> exists row, In row (rows df) /\ isna E (cell E i row) = false.
Proof.
  unfold group_keys.
  set (present := filter (fun v => negb (isna E v)) (map (cell E i) (rows df))).
  assert (Hlen : sort_keys E (dedup E present) = [] <-> present = []).
  { split; intro H.
    - apply (dedup_nil E). apply length_zero_iff_nil.
      rewrite <- length_sort_keys, H. reflexivity.
    - rewrite H. reflexivity. }
  split.
  - intro Hne. destruct present as [ | v rest] eqn:Hp.
    + exfalso. apply Hne. apply Hlen. reflexivity.
    + assert (Hin : In v present) by (rewrite Hp; left; reflexivity).
      unfold present in Hin. apply filter_In in Hin. destruct Hin as [Hin Hna].
      apply in_map_iff in Hin. destruct Hin as [row [Hrow Hin]].
      exists row. split; [ exact Hin | ]. rewrite Hrow.
      apply negb_true_iff. exact Hna.
  - intros [row [Hin Hna]] Hnil. apply Hlen in Hnil.
    assert (Hmem : In (cell E i row) present).
    { unfold present. apply filter_In. split; [ apply in_map; exact Hin | ].
      rewrite Hna. reflexivity. }
    rewrite Hnil in Hmem. contradiction.
Qed.

(** ** Sampling without replacement *)

Lemma length_remove_nth {A : Type} (l : list A) :
  forall i, (i < List.length l)%nat -> List.length (remove_nth i l) = pred (List.length l).
Proof.
  induction l as [ | a l IH]; intros i Hi; [ simpl in Hi; lia | ].
  destruct i as [ | i]; [ reflexivity | ].
  simpl. simpl in Hi. rewrite IH by lia. destruct l; simpl in *; lia.
Qed.

Lemma nth_remove_nth_perm {A : Type} (l : list A) (d : A) :
  forall i, (i < List.length l)%nat -> Permutation (nth i l d :: remove_nth i l) l.
Proof.
  induction l as [ | a l IH]; intros i Hi; [ simpl in Hi; lia | ].
  destruct i as [ | i]; [ apply Permutation_refl | ].
  simpl. simpl in Hi.
  apply Permutation_trans with (a :: nth i l d :: remove_nth i l).
  - apply perm_swap.
  - apply perm_skip. apply IH. lia.
Qed.

Lemma length_draw {A : Type} (n : nat) :
  forall (rnd : list nat) (pool : list A),
    List.length (draw n rnd pool) = Nat.min n (List.length pool).
Proof.
  induction n as [ | n IH]; intros rnd pool; [ reflexivity | ].
  destruct pool as [ | a pool]; [ reflexivity | ].
  cbn [draw]. cbn [List.length]. rewrite IH.
  rewrite length_remove_nth.
  - cbn [List.length]. lia.
  - apply Nat.mod_upper_bound. discriminate.
Qed.

(** What is drawn, together with what is left, is the pool: no row is drawn
    twice and none is invented. *)
Lemma draw_perm {A : Type} (n : nat) :
  forall (rnd : list nat) (pool : list A),
    exists rest, Permutation (draw n rnd pool ++ rest) pool.
Proof.
  induction n as [ | n IH]; intros rnd pool.
  - exists pool. apply Permutation_refl.
  - destruct pool as [ | a pool]; [ exists []; apply Permutation_refl | ].
    cbn [draw].
    set (i := Nat.modulo match rnd with [] => 0%nat | r :: _ => r end
                         (List.length (a :: pool))).
    destruct (IH (tl rnd) (remove_nth i (a :: pool))) as [rest Hrest].
    exists rest. cbn [app].
    apply Permutation_trans with (nth i (a :: pool) a :: remove_nth i (a :: pool)).
    + apply perm_skip. exact Hrest.
    + apply nth_remove_nth_perm. apply Nat.mod_upper_bound. discriminate.
Qed.

Lemma draw_all {A : Type} (n : nat) (rnd : list nat) (pool : list A) :
  (List.length pool <= n)%nat -> Permutation (draw n rnd pool) pool.
Proof.
  intro Hn. destruct (draw_perm n rnd pool) as [rest Hrest].
  assert (Hlen : List.length rest = 0%nat).
  { apply Permutation_length in Hrest. rewrite length_app, length_draw in Hrest. lia. }
  apply length_zero_iff_nil in Hlen. subst rest.
  rewrite app_nil_r in Hrest. exact Hrest.
Qed.

(** Every choice of rows without replacement is drawn by some random
    numbers: the sampler rules no sample out. *)
Lemma draw_reaches {A : Type} (picked rest : list A) :
  forall pool, Permutation (picked ++ rest) pool ->
    exists rnd, draw (List.length picked) rnd pool = picked.
Proof.
  induction picked as [ | a picked IH]; intros pool Hperm.
  - exists []. reflexivity.
  - destruct pool as [ | b pool].
    + apply Permutation_sym, Permutation_nil in Hperm. discriminate.
    + assert (Hin : In a (b :: pool)).
      { eapply Permutation_in; [ exact Hperm | left; reflexivity ]. }
      destruct (In_nth (b :: pool) a b Hin) as [i [Hi Hnth]].
      assert (Hrest : Permutation (picked ++ rest) (remove_nth i (b :: pool))).
      { apply Permutation_cons_inv with a. cbn [app] in Hperm.
        apply Permutation_trans with (b :: pool); [ exact Hperm | ].
        apply Permutation_sym. rewrite <- Hnth.
        apply nth_remove_nth_perm. exact Hi. }
      destruct (IH _ Hrest) as [rnd Hrnd].
      exists (i :: rnd).
      change (List.length (a :: picked)) with (S (List.length picked)).
      cbn [draw tl]. rewrite (Nat.mod_small i _ Hi), Hnth, Hrnd.
      reflexivity.
Qed.

(** ** The chart data helper: what it returns *)

Lemma distinct_pair (x y : string) : x <> y -> distinct [x; y] = true.
Proof.
  intro H. simpl. apply String.eqb_neq in H. rewrite H. reflexivity.
Qed.

Lemma truthy_str (s : string) : s <> "" -> truthy (JStr s) = true.
Proof. intro H. simpl. apply String.eqb_neq in H. rewrite H. reflexivity. Qed.

(** A recipe with an existing [x_column] and a [y_column] that exists or
    carries the marker gets past the guards, into the [try]. *)
Lemma prepare_after_guards (E : Engine) (rnd : list nat) (df : DataFrame (scalar E))
    (m : list (string * json)) (x y : string) (i : nat) :
  dict_get m "x_column" JNull = JStr x ->
  dict_get m "y_column" JNull = JStr y ->
  x <> "" -> y <> "" ->
  index_of x (names E df) = Some i ->
  In y (names E df) \/ contains "Count of" y = true ->
  prepare_chart_data E rnd df (JObj m)
  = rtry (try_block E rnd df (dict_get m "chart_type" JNull) (JStr x) (JStr y))
         (fun _ => Ok None).
Proof.
  intros Hx Hy Hxne Hyne Hi Hyok.
  unfold prepare_chart_data. cbn [recipe_get rbind]. rewrite Hx, Hy.
  rewrite (truthy_str x Hxne), (truthy_str y Hyne). cbn [negb orb in_columns rbind].
  assert (Hmx : mem x (names E df) = true).
  { apply mem_In. eapply index_of_In_inv. exact Hi. }
  rewrite Hmx. cbn [negb].
  destruct (mem y (names E df)) eqn:Hmy; cbn [negb rbind str_in]; [ reflexivity | ].
  destruct Hyok as [Hin | Hmarker].
  - apply mem_In in Hin. rewrite Hin in Hmy. discriminate.
  - rewrite Hmarker. reflexivity.
Qed.

Lemma rtry_shaped (body : result (option (list json))) (n : nat) (ks : list string) :
  shaped body n ks -> shaped (rtry body (fun _ => Ok None)) n ks.
Proof.
  intros [records [Hb H]]. exists records. rewrite Hb. split; [ reflexivity | exact H ].
Qed.

Lemma count_shaped (E : Engine) (rnd : list nat) (df : DataFrame (scalar E))
    (t : json) (x y : string) (i : nat) :
  is_str t "Bar Chart" || is_str t "Pie Chart" || is_str t "Line Chart" = true ->
  contains "Count of" y = true ->
  index_of x (names E df) = Some i ->
  x <> "Count" -> x <> y ->
  shaped (try_block E rnd df t (JStr x) (JStr y))
         (List.length (group_keys E df i)) [x; y].
Proof.
  intros Hagg Hmarker Hi Hcount Hxy.
  unfold try_block. rewrite Hagg. cbn [str_in rbind]. rewrite Hmarker.
  cbn [label rbind]. unfold groupby_size. rewrite (loc_found E df x i Hi).
  cbn [rbind]. unfold reset_index.
  pose proof (column_label E df x i Hi) as Hlabel.
  destruct (nth i (columns df) ("", false)) as [cx numeric]. cbn [fst] in *. subst cx.
  apply String.eqb_neq in Hcount. rewrite Hcount. cbn [rbind].
  match goal with
  | |- shaped (let* records := to_records E ?f in _) _ _ =>
      destruct (to_records_shape E f) as [records [Hr [Hlen Hkeys]]]
  end.
  - unfold rename, names. cbn [columns map fst snd]. rewrite Hcount.
    rewrite String.eqb_refl. cbn [fst]. apply distinct_pair. exact Hxy.
  - rewrite Hr. cbn [rbind]. exists records. split; [ reflexivity | ]. split.
    + rewrite Hlen. unfold rename. cbn [rows]. rewrite !length_map. reflexivity.
    + unfold rename, names in Hkeys. cbn [columns map fst snd] in Hkeys.
      rewrite Hcount, String.eqb_refl in Hkeys. exact Hkeys.
Qed.

Lemma sum_shaped (E : Engine) (rnd : list nat) (df : DataFrame (scalar E))
    (t : json) (x y : string) (i : nat) :
  is_str t "Bar Chart" || is_str t "Pie Chart" || is_str t "Line Chart" = true ->
  contains "Count of" y = false ->
  index_of x (names E df) = Some i ->
  is_numeric_dtype E df y = Ok true ->
  x <> y ->
  shaped (try_block E rnd df t (JStr x) (JStr y))
         (List.length (group_keys E df i)) [x; y].
Proof.
  intros Hagg Hmarker Hi Hnum Hxy.
  unfold try_block. rewrite Hagg. cbn [str_in rbind]. rewrite Hmarker.
  cbn [label rbind]. rewrite Hnum. cbn [rbind].
  unfold groupby_sum. rewrite (loc_found E df x i Hi). cbn [rbind].
  unfold is_numeric_dtype, loc in Hnum. unfold loc.
  destruct (index_of y (names E df)) as [j | ] eqn:Hj; [ | discriminate ].
  cbn [rbind]. unfold reset_index.
  pose proof (column_label E df x i Hi) as Hlx.
  pose proof (column_label E df y j Hj) as Hly.
  destruct (nth i (columns df) ("", false)) as [cx bx].
  destruct (nth j (columns df) ("", false)) as [cy by_].
  cbn [fst] in *. subst cx cy.
  apply String.eqb_neq in Hxy. rewrite Hxy. cbn [rbind].
  match goal with
  | |- shaped (let* records := to_records E ?f in _) _ _ =>
      destruct (to_records_shape E f) as [records [Hr [Hlen Hkeys]]]
  end.
  - unfold names. cbn [columns map fst]. apply distinct_pair.
    apply String.eqb_neq. exact Hxy.
  - rewrite Hr. cbn [rbind]. exists records. split; [ reflexivity | ]. split.
    + rewrite Hlen. cbn [rows]. rewrite !length_map. reflexivity.
    + exact Hkeys.
Qed.

Lemma scatter_block (E : Engine) (rnd : list nat) (df : DataFrame (scalar E))
    (x y : string) (i j : nat) :
  index_of x (names E df) = Some i ->
  index_of y (names E df) = Some j ->
  try_block E rnd df (JStr "Scatter Plot") (JStr x) (JStr y)
  = if distinct [x; y]
    then Ok (Some (map (fun row => JObj [(x, scalar_to_json E (cell E i row));
                                         (y, scalar_to_json E (cell E j row))])
                       (draw (Nat.min 500 (len E df)) rnd (rows df))))
    else value_error "DataFrame columns must be unique for orient='records'.".
Proof.
  intros Hi Hj. unfold try_block.
  change (is_str (JStr "Scatter Plot") "Bar Chart" || is_str (JStr "Scatter Plot") "Pie Chart"
          || is_str (JStr "Scatter Plot") "Line Chart") with false.
  change (is_str (JStr "Scatter Plot") "Scatter Plot") with true.
  cbv beta iota zeta. cbn [label rbind].
  unfold select. cbn [locs]. unfold loc.
  change (names E (sample E rnd (Nat.min 500 (len E df)) df)) with (names E df).
  rewrite Hi, Hj. cbn [rbind map].
  unfold to_records, names, sample. cbn [columns rows map].
  rewrite (column_label E df x i Hi), (column_label E df y j Hj).
  destruct (distinct [x; y]); [ | reflexivity ].
  cbn [rbind]. rewrite map_map. reflexivity.
Qed.

Lemma histogram_block (E : Engine) (rnd : list nat) (df : DataFrame (scalar E))
    (x : string) (y_col : json) (i : nat) :
  index_of x (names E df) = Some i ->
  try_block E rnd df (JStr "Histogram") (JStr x) y_col
  = Ok (Some (map (fun row => JObj [(x, scalar_to_json E (cell E i row))]) (rows df))).
Proof.
  intros Hi. unfold try_block.
  change (is_str (JStr "Histogram") "Bar Chart" || is_str (JStr "Histogram") "Pie Chart"
          || is_str (JStr "Histogram") "Line Chart") with false.
  change (is_str (JStr "Histogram") "Scatter Plot") with false.
  change (is_str (JStr "Histogram") "Histogram") with true.
  cbv beta iota. cbn [label rbind].
  unfold select. cbn [locs]. unfold loc. rewrite Hi. cbn [rbind map].
  unfold to_records, names. cbn [columns rows map].
  rewrite (column_label E df x i Hi). cbn [distinct mem existsb negb andb rbind].
  rewrite map_map. reflexivity.
Qed.

Lemma is_str_eq (t : json) (s : string) : is_str t s = true -> t = JStr s.
Proof.
  destruct t; try discriminate. simpl. intro H. apply String.eqb_eq in H. subst. reflexivity.
Qed.

(** ** Grouping: the keys as a function of the data *)

Lemma insert_key_perm (E : Engine) (k : scalar E) (l : list (scalar E)) :
  Permutation (insert_key E k l) (k :: l).
Proof.
  induction l as [ | a l IH]; [ apply Permutation_refl | ].
  simpl. destruct (key_leb E k a); [ apply Permutation_refl | ].
  apply Permutation_trans with (a :: k :: l); [ apply perm_skip; exact IH | apply perm_swap ].
Qed.

Lemma sort_keys_perm (E : Engine) (l : list (scalar E)) :
  Permutation (sort_keys E l) l.
Proof.
  induction l as [ | a l IH]; [ apply Permutation_refl | ].
  unfold sort_keys in *. simpl.
  apply Permutation_trans with (a :: fold_right (insert_key E) [] l).
  - apply insert_key_perm.
  - apply perm_skip. exact IH.
Qed.

Section Keys.

Variable E : Engine.
Hypothesis eqb_eq : forall a b : scalar E, scalar_eqb E a b = true <-> a = b.

Lemma dedup_In (l : list (scalar E)) (v : scalar E) : In v (dedup E l) <-> In v l.
Proof.
  induction l as [ | a l IH]; [ reflexivity | ].
  simpl. rewrite filter_In, IH. split.
  - intros [H | [H _]]; [ left; exact H | right; exact H ].
  - intros [H | H]; [ left; exact H | ].
    destruct (scalar_eqb E a v) eqn:Hav.
    + left. apply eqb_eq. exact Hav.
    + right. split; [ exact H | reflexivity ].
Qed.

Lemma dedup_NoDup (l : list (scalar E)) : NoDup (dedup E l).
Proof.
  induction l as [ | a l IH]; [ constructor | ].
  simpl. constructor.
  - rewrite filter_In. intros [_ H].
    rewrite (proj2 (eqb_eq a a) eq_refl) in H. discriminate H.
  - apply NoDup_filter. exact IH.
Qed.

(** The keys of a grouping are the distinct values present in the key
    column, each once. *)
Lemma group_keys_spec (df : DataFrame (scalar E)) (i : nat) :
  NoDup (group_keys E df i)
  /\ forall v, In v (group_keys E df i)
               <-> isna E v = false
                   /\ exists row, In row (rows df) /\ cell E i row = v.
Proof.
  unfold group_keys. split.
  - eapply Permutation_NoDup; [ apply Permutation_sym, sort_keys_perm | apply dedup_NoDup ].
  - intro v. split.
    + intro H. apply (Permutation_in _ (sort_keys_perm E _)) in H.
      apply (proj1 (dedup_In _ _)) in H. apply filter_In in H. destruct H as [H Hna].
      apply in_map_iff in H. destruct H as [row [Hrow Hin]].
      split; [ apply negb_true_iff; exact Hna | exists row; split; assumption ].
    + intros [Hna [row [Hin Hrow]]].
      apply (Permutation_in _ (Permutation_sym (sort_keys_perm E _))).
      apply (proj2 (dedup_In _ _)). apply filter_In. split.
      * apply in_map_iff. exists row. split; assumption.
      * rewrite Hna. reflexivity.
Qed.

End Keys.

(** The payload of a count chart: one record per key, with the number of
    rows of that key under the marker. *)
Lemma count_block (E : Engine) (rnd : list nat) (df : DataFrame (scalar E))
    (t : json) (x y : string) (i : nat) :
  is_str t "Bar Chart" || is_str t "Pie Chart" || is_str t "Line Chart" = true ->
  contains "Count of" y = true ->
  index_of x (names E df) = Some i ->
  x <> "Count" ->
  try_block E rnd df t (JStr x) (JStr y)
  = if distinct [x; y]
    then Ok (Some (map (fun k =>
                          JObj [(x, scalar_to_json E k);
                                (y, scalar_to_json E
                                      (of_count E
                                         (List.length
                                            (filter (fun row => scalar_eqb E k (cell E i row))
                                                    (rows df)))))])
                       (group_keys E df i)))
    else value_error "DataFrame columns must be unique for orient='records'.".
Proof.
  intros Hagg Hmarker Hi Hcount.
  unfold try_block. rewrite Hagg. cbn [str_in rbind]. rewrite Hmarker.
  cbn [label rbind]. unfold groupby_size. rewrite (loc_found E df x i Hi).
  cbn [rbind]. unfold reset_index.
  pose proof (column_label E df x i Hi) as Hlabel.
  destruct (nth i (columns df) ("", false)) as [cx numeric]. cbn [fst] in *. subst cx.
  apply String.eqb_neq in Hcount. rewrite Hcount. cbn [rbind].
  unfold to_records, rename, names. cbn [columns rows map fst snd].
  rewrite Hcount, String.eqb_refl. cbn [fst].
  destruct (distinct [x; y]); [ | reflexivity ].
  cbn [rbind]. rewrite !map_map. reflexivity.
Qed.

(** The payload of a sum chart: one record per key, with the engine's sum
    of the value column over the rows of that key. *)
Lemma sum_block (E : Engine) (rnd : list nat) (df : DataFrame (scalar E))
    (t : json) (x y : string) (i j : nat) :
  is_str t "Bar Chart" || is_str t "Pie Chart" || is_str t "Line Chart" = true ->
  contains "Count of" y = false ->
  index_of x (names E df) = Some i ->
  index_of y (names E df) = Some j ->
  try_block E rnd df t (JStr x) (JStr y)
  = if nth j (map snd (columns df)) false
    then
      if String.eqb x y
      then value_error ("cannot insert " ++ x ++ ", already exists")
      else Ok (Some (map (fun k =>
                            JObj [(x, scalar_to_json E k);
                                  (y, scalar_to_json E
                                        (agg_sum E
                                           (map (cell E j)
                                                (filter (fun row => scalar_eqb E k (cell E i row))
                                                        (rows df)))))])
                         (group_keys E df i)))
    else Ok None.
Proof.
  intros Hagg Hmarker Hi Hj.
  unfold try_block. rewrite Hagg. cbn [str_in rbind]. rewrite Hmarker.
  cbn [label rbind]. unfold is_numeric_dtype. rewrite (loc_found E df y j Hj).
  cbn [rbind]. destruct (nth j (map snd (columns df)) false); [ | reflexivity ].
  unfold groupby_sum. rewrite (loc_found E df x i Hi), (loc_found E df y j Hj).
  cbn [rbind]. unfold reset_index.
  pose proof (column_label E df x i Hi) as Hlx.
  pose proof (column_label E df y j Hj) as Hly.
  destruct (nth i (columns df) ("", false)) as [cx bx].
  destruct (nth j (columns df) ("", false)) as [cy by_].
  cbn [fst] in *. subst cx cy.
  destruct (String.eqb x y) eqn:Hxy; [ reflexivity | ].
  cbn [rbind]. unfold to_records, names. cbn [columns rows map fst snd].
  rewrite (distinct_pair x y) by (apply String.eqb_neq; exact Hxy).
  cbn [rbind]. rewrite !map_map. reflexivity.
Qed.

Lemma cellv_eqb_eq (a b : Examples.cellv) : Examples.cellv_eqb a b = true <-> a = b.
Proof.
  destruct a as [ | x | s], b as [ | y | t]; simpl; split; intro H;
    try reflexivity; try discriminate.
  - apply Z.eqb_eq in H. subst. reflexivity.
  - injection H as ->. apply Z.eqb_refl.
  - apply String.eqb_eq in H. subst. reflexivity.
  - injection H as ->. apply String.eqb_refl.
Qed.

Lemma marker_not_count (y : string) : contains "Count of" y = true -> y <> "Count".
Proof. intros H ->. discriminate H. Qed.

(** C7 (as amended).  For a recipe whose [x_column] names an existing
    column and whose [y_column] is a non-empty string, with [ks] the
    distinct non-missing values of the [x] column:
    - Bar, Pie or Line with the count marker, [x] not called [Count] and
      different from [y]: one record per value of [ks], with the keys
      [x_column] and the marker text, the marker bound to the number of rows
      of that value;
    - Bar, Pie or Line without the marker, on an existing numeric
      [y_column] different from [x]: one record per value of [ks], with the
      keys [x_column] and [y_column], the latter bound to the sum over the
      rows of that value;
    - Scatter on an existing [y_column] different from [x]: [min(500, rows)]
      records with the keys [x_column] and [y_column];
    - Histogram, when [y_column] exists or carries the marker: one record
      per row, whose only key is [x_column];
    - Bar, Pie, Line or Scatter with [x_column] equal to [y_column]: no
      payload.
    A grouped payload is empty exactly when no row has a value in the [x]
    column. *)
Theorem C7_payload_keys (E : Engine) (rnd : list nat) (df : DataFrame (scalar E))
    (m : list (string * json)) (x y : string) (i : nat) :
  (forall a b : scalar E, scalar_eqb E a b = true <-> a = b) ->
  dict_get m "x_column" JNull = JStr x ->
  dict_get m "y_column" JNull = JStr y ->
  x <> "" -> y <> "" ->
  index_of x (names E df) = Some i ->
  let chart_type := dict_get m "chart_type" JNull in
  let payload := prepare_chart_data E rnd df (JObj m) in
  let aggregating :=
    is_str chart_type "Bar Chart" || is_str chart_type "Pie Chart"
    || is_str chart_type "Line Chart" in
  let rows_of := fun k => filter (fun row => scalar_eqb E k (cell E i row)) (rows df) in
  exists ks,
    NoDup ks
    /\ (forall v, In v ks
                  <-> isna E v = false /\ exists row, In row (rows df) /\ cell E i row = v)
    /\ (ks = [] <-> forall row, In row (rows df) -> isna E (cell E i row) = true)
    /\ (aggregating = true -> contains "Count of" y = true -> x <> "Count" -> x <> y ->
          payload
          = Ok (Some (map (fun k =>
                             JObj [(x, scalar_to_json E k);
                                   (y, scalar_to_json E (of_count E (List.length (rows_of k))))])
                          ks))
          /\ shaped payload (List.length ks) [x; y])
    /\ (aggregating = true -> contains "Count of" y = false ->
        forall j, index_of y (names E df) = Some j ->
                  nth j (map snd (columns df)) false = true ->
                  x <> y ->
          payload
          = Ok (Some (map (fun k =>
                             JObj [(x, scalar_to_json E k);
                                   (y, scalar_to_json E
                                         (agg_sum E (map (cell E j) (rows_of k))))])
                          ks))
          /\ shaped payload (List.length ks) [x; y])
    /\ (chart_type = JStr "Scatter Plot" -> In y (names E df) -> x <> y ->
          shaped payload (Nat.min 500 (len E df)) [x; y])
    /\ (chart_type = JStr "Histogram" ->
        In y (names E df) \/ contains "Count of" y = true ->
          payload
          = Ok (Some (map (fun row => JObj [(x, scalar_to_json E (cell E i row))])
                          (rows df)))
          /\ shaped payload (len E df) [x])
    /\ (aggregating = true \/ chart_type = JStr "Scatter Plot" -> x = y ->
          payload = Ok None).
Proof.
  intros Heq Hx Hy Hxne Hyne Hi chart_type payload aggregating rows_of.
  destruct (group_keys_spec E Heq df i) as [Hnd Hin].
  exists (group_keys E df i).
  split; [ exact Hnd | ]. split; [ exact Hin | ]. split.
  { pose proof (group_keys_nonempty E df i) as Hne. split.
    - intros Hnil row Hrow. destruct (isna E (cell E i row)) eqn:Hna; [ reflexivity | ].
      exfalso. apply (proj2 Hne); [ exists row; split; assumption | exact Hnil ].
    - intro Hall. destruct (group_keys E df i) as [ | k ks] eqn:Hk; [ reflexivity | ].
      exfalso. destruct (proj1 Hne) as [row [Hrow Hna]]; [ discriminate | ].
      rewrite (Hall row Hrow) in Hna. discriminate Hna. }
  subst payload. split; [ | split; [ | split; [ | split ] ] ].
  - intros Hagg Hmarker Hcount Hxy.
    rewrite (prepare_after_guards E rnd df m x y i Hx Hy Hxne Hyne Hi (or_intror Hmarker)).
    split.
    + fold chart_type. rewrite (count_block E rnd df chart_type x y i Hagg Hmarker Hi Hcount).
      rewrite (distinct_pair x y Hxy). reflexivity.
    + apply rtry_shaped. apply count_shaped; assumption.
  - intros Hagg Hmarker j Hj Hnum Hxy.
    assert (Hiny : In y (names E df)) by (eapply index_of_In_inv; exact Hj).
    rewrite (prepare_after_guards E rnd df m x y i Hx Hy Hxne Hyne Hi (or_introl Hiny)).
    split.
    + fold chart_type. rewrite (sum_block E rnd df chart_type x y i j Hagg Hmarker Hi Hj).
      rewrite Hnum. apply String.eqb_neq in Hxy. rewrite Hxy. reflexivity.
    + apply rtry_shaped. apply sum_shaped; try assumption.
      unfold is_numeric_dtype. rewrite (loc_found E df y j Hj). cbn [rbind].
      rewrite Hnum. reflexivity.
  - intros Ht Hiny Hxy.
    rewrite (prepare_after_guards E rnd df m x y i Hx Hy Hxne Hyne Hi (or_introl Hiny)).
    fold chart_type. rewrite Ht.
    destruct (index_of_In y (names E df) Hiny) as [j Hj].
    rewrite (scatter_block E rnd df x y i j Hi Hj), (distinct_pair x y Hxy).
    eexists. split; [ reflexivity | ]. split.
    + rewrite length_map, length_draw. unfold len. lia.
    + apply Forall_forall. intros r Hr. apply in_map_iff in Hr.
      destruct Hr as [row [<- _]]. reflexivity.
  - intros Ht Hyok.
    rewrite (prepare_after_guards E rnd df m x y i Hx Hy Hxne Hyne Hi Hyok).
    fold chart_type. rewrite Ht.
    rewrite (histogram_block E rnd df x (JStr y) i Hi).
    split; [ reflexivity | ].
    eexists. split; [ reflexivity | ]. split.
    + rewrite length_map. reflexivity.
    + apply Forall_forall. intros r Hr. apply in_map_iff in Hr.
      destruct Hr as [row [<- _]]. reflexivity.
  - intros Hkind Hxy. subst y.
    assert (Hinx : In x (names E df)) by (eapply index_of_In_inv; exact Hi).
    rewrite (prepare_after_guards E rnd df m x x i Hx Hy Hxne Hyne Hi (or_introl Hinx)).
    fold chart_type. destruct Hkind as [Hagg | Ht].
    + destruct (contains "Count of" x) eqn:Hmarker.
      * rewrite (count_block E rnd df chart_type x x i Hagg Hmarker Hi
                   (marker_not_count x Hmarker)).
        simpl. rewrite String.eqb_refl. reflexivity.
      * rewrite (sum_block E rnd df chart_type x x i i Hagg Hmarker Hi Hi).
        rewrite String.eqb_refl.
        destruct (nth i (map snd (columns df)) false); reflexivity.
    + rewrite Ht, (scatter_block E rnd df x x i i Hi Hi).
      simpl. rewrite String.eqb_refl. reflexivity.
Qed.

Lemma C7_witness :
  prepare_chart_data (Examples.engine (Ok Examples.sales)) [] Examples.sales
    (Examples.recipe (JStr "Bar Chart") (JStr "Region") (JStr "Count of Sales"))
  = Ok (Some [JObj [("Region", JStr "East"); ("Count of Sales", JInt 2)];
              JObj [("Region", JStr "West"); ("Count of Sales", JInt 1)]]).
Proof.
  destruct (C7_payload_keys (Examples.engine (Ok Examples.sales)) [] Examples.sales
              [("title", JStr "t"); ("chart_type", JStr "Bar Chart");
               ("x_column", JStr "Region"); ("y_column", JStr "Count of Sales");
               ("description", JStr "d")]
              "Region" "Count of Sales" 0
              cellv_eqb_eq eq_refl eq_refl
              (fun H : "Region" = "" => eq_ind "Region"
                 (fun s => match s with EmptyString => False | _ => True end) I "" H)
              (fun H : "Count of Sales" = "" => eq_ind "Count of Sales"
                 (fun s => match s with EmptyString => False | _ => True end) I "" H)
              eq_refl)
    as [ks [_ [_ [_ [_ _]]]]].
  reflexivity.
Defined.

(** The claim as written fails, on recipes that name existing columns only
    and ask for a compatible aggregation: a Bar chart of a numeric column
    by itself gets no payload; a Bar chart over a file that holds the
    header alone gets an empty payload; and a Histogram gets records
    without the [y_column] key. *)
Lemma C7_counterexample :
  prepare_chart_data (Examples.engine (Ok Examples.sales)) [] Examples.sales
    (Examples.recipe (JStr "Bar Chart") (JStr "Sales") (JStr "Sales"))
  = Ok None
  /\ prepare_chart_data (Examples.engine (Ok Examples.header_only)) [] Examples.header_only
       (Examples.recipe (JStr "Bar Chart") (JStr "Region") (JStr "Sales"))
     = Ok (Some [])
  /\ exists records,
       prepare_chart_data (Examples.engine (Ok Examples.sales)) [] Examples.sales
         (Examples.recipe (JStr "Histogram") (JStr "Sales") (JStr "Units"))
       = Ok (Some records)
       /\ records <> []
       /\ Forall (fun r => ~ In "Units" (keys r)) records.
Proof.
  split; [ reflexivity | ]. split; [ reflexivity | ].
  eexists. split; [ reflexivity | ]. split; [ discriminate | ].
  repeat constructor; simpl; intros [H | H]; try discriminate; exact H.
Qed.

(** ** Sampling: the rows drawn as a function of the random numbers *)

Lemma remove_nth_map {A B : Type} (f : A -> B) (l : list A) :
  forall i, remove_nth i (map f l) = map f (remove_nth i l).
Proof.
  induction l as [ | a l IH]; intros [ | i]; simpl; try reflexivity.
  rewrite IH. reflexivity.
Qed.

(** Drawing rows is drawing their positions. *)
Lemma draw_map {A B : Type} (f : A -> B) (n : nat) :
  forall (rnd : list nat) (pool : list A),
    draw n rnd (map f pool) = map f (draw n rnd pool).
Proof.
  induction n as [ | n IH]; intros rnd pool; [ reflexivity | ].
  destruct pool as [ | a pool]; [ reflexivity | ].
  cbn [draw map]. rewrite <- (IH (tl rnd)).
  change (f a :: map f pool) with (map f (a :: pool)).
  rewrite length_map, remove_nth_map, map_nth. reflexivity.
Qed.

Lemma map_nth_seq {A : Type} (l : list A) (d : A) :
  map (fun p => nth p l d) (seq 0 (List.length l)) = l.
Proof.
  induction l as [ | a l IH]; [ reflexivity | ].
  cbn [List.length seq map nth]. rewrite <- seq_shift, map_map. cbn [nth].
  rewrite IH. reflexivity.
Qed.

Lemma draw_positions {A : Type} (n : nat) (rnd : list nat) (l : list A) (d : A) :
  draw n rnd l = map (fun p => nth p l d) (draw n rnd (seq 0 (List.length l))).
Proof.
  rewrite <- draw_map, map_nth_seq. reflexivity.
Qed.

Lemma NoDup_remove_nth {A : Type} (l : list A) (i : nat) :
  (i < List.length l)%nat -> NoDup l -> NoDup (remove_nth i l).
Proof.
  intros Hi Hl. destruct l as [ | a l]; [ simpl in Hi; lia | ].
  pose proof (nth_remove_nth_perm (a :: l) a i Hi) as Hperm.
  apply Permutation_sym in Hperm.
  apply (Permutation_NoDup Hperm) in Hl. inversion Hl. assumption.
Qed.

(** Different random numbers draw different positions. *)
Lemma draw_injective {A : Type} (n : nat) :
  forall (pool : list A) (rnd1 rnd2 : list nat),
    NoDup pool ->
    List.length rnd1 = n -> List.length rnd2 = n ->
    in_range (List.length pool) rnd1 -> in_range (List.length pool) rnd2 ->
    draw n rnd1 pool = draw n rnd2 pool ->
    rnd1 = rnd2.
Proof.
  induction n as [ | n IH]; intros pool rnd1 rnd2 Hnd H1 H2 R1 R2 Heq.
  - destruct rnd1, rnd2; try discriminate. reflexivity.
  - destruct rnd1 as [ | r1 t1]; [ discriminate | ].
    destruct rnd2 as [ | r2 t2]; [ discriminate | ].
    destruct R1 as [Hr1 R1]. destruct R2 as [Hr2 R2].
    destruct pool as [ | a pool]; [ simpl in Hr1; lia | ].
    cbn [draw tl] in Heq.
    rewrite (Nat.mod_small r1 _ Hr1), (Nat.mod_small r2 _ Hr2) in Heq.
    injection Heq as Hhead Htail.
    assert (Hr : r1 = r2).
    { apply (proj1 (NoDup_nth (a :: pool) a) Hnd); assumption. }
    subst r2. f_equal.
    apply (IH (remove_nth r1 (a :: pool))).
    + apply NoDup_remove_nth; assumption.
    + simpl in H1. lia.
    + simpl in H2. lia.
    + rewrite length_remove_nth by exact Hr1. exact R1.
    + rewrite length_remove_nth by exact Hr1. exact R2.
    + exact Htail.
Qed.

(** Every choice without replacement is drawn by random numbers in range. *)
Lemma draw_reaches_in_range {A : Type} (picked rest : list A) :
  forall pool, Permutation (picked ++ rest) pool ->
    exists rnd,
      List.length rnd = List.length picked
      /\ in_range (List.length pool) rnd
      /\ draw (List.length picked) rnd pool = picked.
Proof.
  induction picked as [ | a picked IH]; intros pool Hperm.
  - exists []. repeat split.
  - destruct pool as [ | b pool].
    + apply Permutation_sym, Permutation_nil in Hperm. discriminate.
    + assert (Hin : In a (b :: pool)).
      { eapply Permutation_in; [ exact Hperm | left; reflexivity ]. }
      destruct (In_nth (b :: pool) a b Hin) as [i [Hi Hnth]].
      assert (Hrest : Permutation (picked ++ rest) (remove_nth i (b :: pool))).
      { apply Permutation_cons_inv with a. cbn [app] in Hperm.
        apply Permutation_trans with (b :: pool); [ exact Hperm | ].
        apply Permutation_sym. rewrite <- Hnth.
        apply nth_remove_nth_perm. exact Hi. }
      destruct (IH _ Hrest) as [rnd [Hlen [Hrange Hrnd]]].
      exists (i :: rnd). split; [ simpl; rewrite Hlen; reflexivity | ]. split.
      * split; [ exact Hi | ]. rewrite length_remove_nth in Hrange by exact Hi.
        exact Hrange.
      * change (List.length (a :: picked)) with (S (List.length picked)).
        cbn [draw tl]. rewrite (Nat.mod_small i _ Hi), Hnth, Hrnd. reflexivity.
Qed.

Lemma NoDup_incl_rest {A : Type} (ps : list A) :
  forall l, NoDup ps -> NoDup l -> incl ps l ->
    exists rest, Permutation (ps ++ rest) l.
Proof.
  induction ps as [ | a ps IH]; intros l Hps Hl Hincl.
  - exists l. apply Permutation_refl.
  - assert (Ha : In a l) by (apply Hincl; left; reflexivity).
    destruct (in_split a l Ha) as [l1 [l2 ->]].
    inversion Hps as [ | a' ps' Hnotin Hps']; subst.
    destruct (IH (l1 ++ l2)%list Hps' (NoDup_remove_1 _ _ _ Hl)) as [rest Hrest].
    + intros p Hp. assert (Hpl : In p (l1 ++ a :: l2)%list) by (apply Hincl; right; exact Hp).
      apply in_app_or in Hpl. apply in_or_app.
      destruct Hpl as [H | [H | H]]; [ left; exact H | | right; exact H ].
      subst p. contradiction.
    + exists rest. cbn [app].
      apply Permutation_trans with (a :: l1 ++ l2)%list.
      * apply perm_skip. exact Hrest.
      * apply Permutation_middle.
Qed.

(** C8 (as amended).  For a Scatter recipe whose two columns exist and are
    different columns, the payload is a uniform random sample without
    replacement of exactly [min(500, rows)] rows, each projected onto the
    two labels.  Without replacement: what is drawn, with the rows left
    over, is a rearrangement of the dataset, and a dataset of at most 500
    rows is drawn whole.  Uniform: the positions of the rows drawn are a
    one-to-one function of the random numbers of the call, taken in range,
    onto the ordered choices of that many distinct positions; so random
    numbers that are uniform make every such choice equally likely.  A
    Scatter recipe that names the same column twice gets no payload. *)
Theorem C8_scatter_sample (E : Engine) (rnd : list nat) (df : DataFrame (scalar E))
    (m : list (string * json)) (x y : string) (i j : nat) :
  dict_get m "chart_type" JNull = JStr "Scatter Plot" ->
  dict_get m "x_column" JNull = JStr x ->
  dict_get m "y_column" JNull = JStr y ->
  x <> "" -> y <> "" ->
  index_of x (names E df) = Some i ->
  index_of y (names E df) = Some j ->
  let n := Nat.min 500 (len E df) in
  let project := fun row => JObj [(x, scalar_to_json E (cell E i row));
                                  (y, scalar_to_json E (cell E j row))] in
  let positions := fun r => draw n r (seq 0 (len E df)) in
  (x <> y ->
     (exists drawn,
         prepare_chart_data E rnd df (JObj m) = Ok (Some (map project drawn))
         /\ List.length drawn = n
         /\ (exists rest, Permutation (drawn ++ rest) (rows df))
         /\ ((len E df <= 500)%nat -> Permutation drawn (rows df)))
     /\ (forall r,
           prepare_chart_data E r df (JObj m)
           = Ok (Some (map project (map (fun p => nth p (rows df) []) (positions r)))))
     /\ (forall r1 r2,
           List.length r1 = n -> List.length r2 = n ->
           in_range (len E df) r1 -> in_range (len E df) r2 ->
           positions r1 = positions r2 -> r1 = r2)
     /\ (forall ps,
           List.length ps = n -> NoDup ps -> (forall p, In p ps -> (p < len E df)%nat) ->
           exists r, List.length r = n /\ in_range (len E df) r /\ positions r = ps)
     /\ (forall picked rest,
           Permutation (picked ++ rest) (rows df) ->
           List.length picked = n ->
           exists r, prepare_chart_data E r df (JObj m) = Ok (Some (map project picked))))
  /\ (x = y -> prepare_chart_data E rnd df (JObj m) = Ok None).
Proof.
  intros Ht Hx Hy Hxne Hyne Hi Hj n project positions.
  assert (Hin : In y (names E df)) by (eapply index_of_In_inv; exact Hj).
  assert (Hblock : forall r,
             prepare_chart_data E r df (JObj m)
             = rtry (try_block E r df (JStr "Scatter Plot") (JStr x) (JStr y))
                    (fun _ => Ok None)).
  { intro r.
    rewrite (prepare_after_guards E r df m x y i Hx Hy Hxne Hyne Hi (or_introl Hin)).
    rewrite Ht. reflexivity. }
  split.
  - intro Hxy.
    assert (Hpay : forall r,
               prepare_chart_data E r df (JObj m)
               = Ok (Some (map project (draw n r (rows df))))).
    { intro r. rewrite Hblock, (scatter_block E r df x y i j Hi Hj).
      rewrite (distinct_pair x y Hxy). reflexivity. }
    split; [ | split; [ | split; [ | split ] ] ].
    + exists (draw n rnd (rows df)). split; [ apply Hpay | ]. split; [ | split ].
      * rewrite length_draw. unfold n, len. lia.
      * apply draw_perm.
      * intro Hsmall. apply draw_all. unfold n, len in *. lia.
    + intro r. rewrite Hpay. unfold positions, len.
      rewrite <- (draw_positions n r (rows df) []). reflexivity.
    + intros r1 r2 H1 H2 R1 R2 Heq. unfold positions in Heq.
      apply (draw_injective n (seq 0 (len E df)) r1 r2); try assumption.
      * apply seq_NoDup.
      * rewrite length_seq. exact R1.
      * rewrite length_seq. exact R2.
    + intros ps Hlen Hnd Hbound.
      destruct (NoDup_incl_rest ps (seq 0 (len E df)) Hnd (seq_NoDup _ _)) as [rest Hrest].
      { intros p Hp. apply in_seq. specialize (Hbound p Hp). lia. }
      destruct (draw_reaches_in_range ps rest _ Hrest) as [r [Hr [Hrange Hdraw]]].
      exists r. rewrite length_seq in Hrange. rewrite Hlen in Hr, Hdraw.
      split; [ exact Hr | split; [ exact Hrange | exact Hdraw ] ].
    + intros picked rest Hperm Hlen.
      destruct (draw_reaches picked rest (rows df) Hperm) as [r Hr].
      exists r. rewrite Hpay, <- Hlen, Hr. reflexivity.
  - intros <-. rewrite Hblock, (scatter_block E rnd df x x i j Hi Hj).
    simpl. rewrite String.eqb_refl. reflexivity.
Qed.

Lemma C8_witness :
  exists drawn,
    prepare_chart_data (Examples.engine (Ok Examples.sales)) [5; 5; 5]%nat Examples.sales
      (Examples.recipe (JStr "Scatter Plot") (JStr "Units") (JStr "Sales"))
    = Ok (Some (map (fun row => JObj [("Units", Examples.cellv_json (nth 2 row Examples.Missing));
                                      ("Sales", Examples.cellv_json (nth 1 row Examples.Missing))])
                    drawn))
    /\ List.length drawn = 3%nat
    /\ (exists rest, Permutation (drawn ++ rest) (rows Examples.sales))
    /\ ((3 <= 500)%nat -> Permutation drawn (rows Examples.sales)).
Proof.
  refine (proj1 (proj1 (C8_scatter_sample (Examples.engine (Ok Examples.sales)) [5; 5; 5]%nat
                   Examples.sales
                   [("title", JStr "t"); ("chart_type", JStr "Scatter Plot");
                    ("x_column", JStr "Units"); ("y_column", JStr "Sales");
                    ("description", JStr "d")]
                   "Units" "Sales" 2 1
                   eq_refl eq_refl eq_refl _ _ eq_refl eq_refl) _));
    intro H; discriminate H.
Defined.

(** The claim as written fails: both columns of this Scatter recipe exist,
    and there is no payload. *)
Lemma C8_counterexample :
  In "Sales" (names (Examples.engine (Ok Examples.sales)) Examples.sales)
  /\ prepare_chart_data (Examples.engine (Ok Examples.sales)) [5; 5; 5]%nat Examples.sales
       (Examples.recipe (JStr "Scatter Plot") (JStr "Sales") (JStr "Sales"))
     = Ok None.
Proof.
  split; [ right; left; reflexivity | reflexivity ].
Qed.

(** * Further properties of the code *)

(** ** The chat endpoint, case by case *)

Ltac run_chat :=
  cbv beta iota delta [try_except bind lift emit ret raise completion run_script
                       write_script subprocess_run chat_except].

Ltac answered := do 2 eexists; split; [ reflexivity | auto ].

(** X1.  Whatever the members of an object body, the model, the file
    system and the child process are, [chat_with_data] returns a response
    and raises nothing: the body is an object with the single key [answer] bound to a
    text, and the status is 200, 400 or 500. *)
Theorem chat_always_answers (V : Env) (data : list (string * json)) (g : globals) :
  exists text code,
    value (chat_with_data V (JObj data)) g = Ok (answer text code)
    /\ (code = 200 \/ code = 400 \/ code = 500)%Z.
Proof.
  unfold value. rewrite chat_with_data_object. unfold chat_on_fields.
  destruct (negb (truthy (dict_get data "question" JNull))); [ answered | ].
  destruct (negb (truthy (dict_get data "filepath" JNull))
            || negb (truthy (dict_get data "columns" JNull))); [ answered | ].
  run_chat.
  destruct (meta_prompt V _ _ _ _ _) as [prompt | e]; [ | destruct e; answered ].
  destruct (create V (code_request prompt)) as [[code | ] | e];
    [ | | destruct e; answered ].
  - destruct (write_fault V (temp_script_path V)) as [e | ]; [ destruct e; answered | ].
    cbv beta iota.
    destruct (run_child V [sys_executable V; temp_script_path V] code 15)
      as [rc out err | | e].
    + destruct (rc =? 0)%Z; answered.
    + answered.
    + destruct e; answered.
  - destruct (write_fault V (temp_script_path V)) as [e | ]; [ destruct e | ]; answered.
Qed.

(** X2.  What one chat request does to the world is one of four things, in
    this order: nothing; one call to the model; the call and a write of the
    scratch file; the call, the write and one child process.  The file
    written is always the scratch path, the text written is the model's
    reply of this request (the empty text when the reply has none, the file
    being truncated before the write fails), and the child is always the
    interpreter on the scratch path with a 15-second timeout. *)
Theorem chat_effects_in_order (V : Env) (data : list (string * json)) (g : globals) :
  let l := log (chat_with_data V (JObj data)) g in
  let path := temp_script_path V in
  l = []
  \/ (exists prompt, l = [LLMCall (code_request prompt)])
  \/ (exists prompt,
        create V (code_request prompt) = Ok None
        /\ l = [LLMCall (code_request prompt); FileWrite path ""])
  \/ (exists prompt code,
        create V (code_request prompt) = Ok (Some code)
        /\ l = [LLMCall (code_request prompt); FileWrite path code;
                Spawn [sys_executable V; path] 15]).
Proof.
  unfold log. rewrite chat_with_data_object. unfold chat_on_fields.
  destruct (negb (truthy (dict_get data "question" JNull))); [ left; reflexivity | ].
  destruct (negb (truthy (dict_get data "filepath" JNull))
            || negb (truthy (dict_get data "columns" JNull))); [ left; reflexivity | ].
  run_chat.
  destruct (meta_prompt V _ _ _ _ _) as [prompt | e];
    [ | destruct e; left; reflexivity ].
  destruct (create V (code_request prompt)) as [[code | ] | e] eqn:Hcreate;
    [ | | destruct e; right; left; eexists; reflexivity ].
  - destruct (write_fault V (temp_script_path V)) as [e | ];
      [ destruct e; right; left; eexists; reflexivity | ].
    cbv beta iota. right. right. right. exists prompt, code.
    split; [ exact Hcreate | ].
    destruct (run_child V [sys_executable V; temp_script_path V] code 15)
      as [rc out err | | e].
    + destruct (rc =? 0)%Z; reflexivity.
    + reflexivity.
    + destruct e; reflexivity.
  - destruct (write_fault V (temp_script_path V)) as [e | ];
      [ destruct e; right; left; eexists; reflexivity | ].
    right. right. left. exists prompt. split; [ exact Hcreate | reflexivity ].
Qed.

(** X3.  A 200 answer is never empty and neither starts nor ends with
    whitespace: it is the stripped stdout of the child when that holds
    anything, and the fixed no-output message otherwise. *)
Theorem chat_ok_answer_trimmed (V : Env) (data : list (string * json)) (g : globals)
    (r : response) :
  value (chat_with_data V (JObj data)) g = Ok r ->
  status r = 200%Z ->
  exists text,
    body r = JObj [("answer", JStr text)]
    /\ text <> ""
    /\ starts_with_space text = false
    /\ ends_with_space text = false.
Proof.
  unfold value. rewrite chat_with_data_object. unfold chat_on_fields.
  destruct (negb (truthy (dict_get data "question" JNull)));
    [ intros [= <-] H; discriminate H | ].
  destruct (negb (truthy (dict_get data "filepath" JNull))
            || negb (truthy (dict_get data "columns" JNull)));
    [ intros [= <-] H; discriminate H | ].
  run_chat.
  destruct (meta_prompt V _ _ _ _ _) as [prompt | e];
    [ | destruct e; intros [= <-] H; discriminate H ].
  destruct (create V (code_request prompt)) as [[code | ] | e];
    [ | | destruct e; intros [= <-] H; discriminate H ].
  - destruct (write_fault V (temp_script_path V)) as [e | ];
      [ destruct e; intros [= <-] H; discriminate H | ].
    cbv beta iota.
    destruct (run_child V [sys_executable V; temp_script_path V] code 15)
      as [rc out err | | e].
    + destruct (rc =? 0)%Z; cbn [fst]; [ | intros [= <-] H; discriminate H ].
      intros [= <-] _. cbn [cp_stdout body answer jsonify].
      destruct (String.eqb (strip out) "") eqn:Hout.
      * eexists. split; [ reflexivity | ].
        split; [ discriminate | split; reflexivity ].
      * exists (strip out). split; [ reflexivity | ].
        destruct (strip_spec out) as [pre [post [_ [_ [_ [Hhead Hlast]]]]]].
        split; [ apply String.eqb_neq; exact Hout | split; assumption ].
    + intros [= <-] H; discriminate H.
    + destruct e; intros [= <-] H; discriminate H.
  - destruct (write_fault V (temp_script_path V)) as [e | ];
      [ destruct e | ]; intros [= <-] H; discriminate H.
Qed.

(** X4.  The status is 400 exactly when the question, the file path or the
    column list is missing or falsy in the body, and a request answered 400
    does nothing to the world. *)
Theorem chat_400_iff_field_missing (V : Env) (data : list (string * json)) (g : globals) :
  let present :=
    truthy (dict_get data "question" JNull)
    && truthy (dict_get data "filepath" JNull)
    && truthy (dict_get data "columns" JNull) in
  (present = false <->
   exists text, value (chat_with_data V (JObj data)) g = Ok (answer text 400))
  /\ (present = false -> log (chat_with_data V (JObj data)) g = []).
Proof.
  cbv zeta. unfold value, log. rewrite chat_with_data_object. unfold chat_on_fields.
  destruct (truthy (dict_get data "question" JNull)); cbn [negb andb].
  2: { split; [ split; [ intros _; eexists; reflexivity | reflexivity ] | reflexivity ]. }
  destruct (truthy (dict_get data "filepath" JNull)); cbn [negb andb orb].
  2: { split; [ split; [ intros _; eexists; reflexivity | reflexivity ] | reflexivity ]. }
  destruct (truthy (dict_get data "columns" JNull)); cbn [negb andb orb].
  2: { split; [ split; [ intros _; eexists; reflexivity | reflexivity ] | reflexivity ]. }
  split; [ | discriminate ].
  split; [ discriminate | ].
  intros [text' Hv']. exfalso. revert Hv'.
  run_chat.
  destruct (meta_prompt V _ _ _ _ _) as [prompt | e];
    [ | destruct e; discriminate ].
  destruct (create V (code_request prompt)) as [[code' | ] | e];
    [ | | destruct e; discriminate ].
  - destruct (write_fault V (temp_script_path V)) as [e | ];
      [ destruct e; discriminate | ].
    cbv beta iota.
    destruct (run_child V [sys_executable V; temp_script_path V] code' 15)
      as [rc out err | | e].
    + destruct (rc =? 0)%Z; discriminate.
    + discriminate.
    + destruct e; discriminate.
  - destruct (write_fault V (temp_script_path V)) as [e | ];
      [ destruct e | ]; discriminate.
Qed.

Lemma chat_ok_answer_trimmed_witness :
  exists text,
    body (answer "hello" 200) = JObj [("answer", JStr text)]
    /\ text <> ""
    /\ starts_with_space text = false
    /\ ends_with_space text = false.
Proof.
  exact (chat_ok_answer_trimmed
           (Examples.env (Ok (Some "print('  hello')")) (Exited 0 ("  hello" ++ nl) ""))
           (Examples.chat_body (JStr "q") (JStr "/srv/app/uploads/sales.csv")
                               (JStr "Region, Sales"))
           initial_globals (answer "hello" 200) eq_refl eq_refl).
Defined.

(** X5.  When the call to the model raises, the request is answered 500 with
    the text of the exception inside the internal-error apology; the
    scratch file is not touched and no process is started. *)
Theorem chat_model_failure (V : Env) (data : list (string * json)) (g : globals)
    (prompt cls msg : string) :
  chat_prompt V data prompt ->
  create V (code_request prompt) = Raise (PyException cls msg) ->
  chat_with_data V (JObj data) g =
    (Ok (answer ("I'm sorry, I encountered an error. The AI's code may have failed. (Error: "
                 ++ msg ++ ")") 500),
     g, [LLMCall (code_request prompt)]).
Proof.
  intros [Hq [Hf [Hc Hp]]] Hcreate.
  rewrite chat_with_data_object. unfold chat_on_fields.
  rewrite Hq, Hf, Hc. cbn [negb orb].
  run_chat. rewrite Hp. cbv beta iota. rewrite Hcreate. reflexivity.
Qed.

Lemma chat_model_failure_witness :
  value (chat_with_data
           (Examples.env (Raise (PyException "APIConnectionError" "Connection error.")) Expired)
           (JObj (Examples.chat_body (JStr "q") (JStr "/srv/app/uploads/sales.csv")
                                     (JStr "Region, Sales"))))
        initial_globals
  = Ok (answer "I'm sorry, I encountered an error. The AI's code may have failed. (Error: Connection error.)" 500).
Proof.
  exact (f_equal (fun t => fst (fst t))
           (chat_model_failure
              (Examples.env (Raise (PyException "APIConnectionError" "Connection error."))
                            Expired)
              (Examples.chat_body (JStr "q") (JStr "/srv/app/uploads/sales.csv")
                                  (JStr "Region, Sales"))
              initial_globals
              (final_prompt "Region, Sales" "No prior conversation." "" "q"
                            "/srv/app/uploads/sales.csv")
              "APIConnectionError" "Connection error."
              (conj eq_refl (conj eq_refl (conj eq_refl eq_refl))) eq_refl)).
Defined.

(** X6.  When the model's reply carries no text, the scratch file is opened
    and so emptied, the write of [None] fails, no process is started and
    the request is answered 500 with that [TypeError] in the apology. *)
Theorem chat_reply_without_text (V : Env) (data : list (string * json)) (g : globals)
    (prompt : string) :
  chat_prompt V data prompt ->
  create V (code_request prompt) = Ok None ->
  write_fault V (temp_script_path V) = None ->
  chat_with_data V (JObj data) g =
    (Ok (answer "I'm sorry, I encountered an error. The AI's code may have failed. (Error: write() argument must be str, not None)" 500),
     g, [LLMCall (code_request prompt); FileWrite (temp_script_path V) ""]).
Proof.
  intros [Hq [Hf [Hc Hp]]] Hcreate Hwrite.
  rewrite chat_with_data_object. unfold chat_on_fields.
  rewrite Hq, Hf, Hc. cbn [negb orb].
  run_chat. rewrite Hp. cbv beta iota. rewrite Hcreate. cbv beta iota.
  rewrite Hwrite. reflexivity.
Qed.

Lemma chat_reply_without_text_witness :
  log (chat_with_data (Examples.env (Ok None) Expired)
         (JObj (Examples.chat_body (JStr "q") (JStr "/srv/app/uploads/sales.csv")
                                   (JStr "Region, Sales"))))
      initial_globals
  = [LLMCall (code_request (final_prompt "Region, Sales" "No prior conversation." "" "q"
                                         "/srv/app/uploads/sales.csv"));
     FileWrite "/tmp/temp_chat_script.py" ""].
Proof.
  exact (f_equal snd
           (chat_reply_without_text (Examples.env (Ok None) Expired)
              (Examples.chat_body (JStr "q") (JStr "/srv/app/uploads/sales.csv")
                                  (JStr "Region, Sales"))
              initial_globals
              (final_prompt "Region, Sales" "No prior conversation." "" "q"
                            "/srv/app/uploads/sales.csv")
              (conj eq_refl (conj eq_refl (conj eq_refl eq_refl))) eq_refl eq_refl)).
Defined.

(** X7.  A file path that is truthy and not a string (a number, [true], a
    list, an object) passes the guards and then fails at [replace]: the
    request is answered 500 with the [AttributeError] in the apology, and
    the model is never asked.  The same holds for a truthy [metrics] field
    that is not a string, whose failure comes first. *)
Theorem chat_non_string_fields (V : Env) (data : list (string * json)) (g : globals) :
  truthy (dict_get data "question" JNull) = true ->
  truthy (dict_get data "filepath" JNull) = true ->
  truthy (dict_get data "columns" JNull) = true ->
  (forall s, dict_get data "filepath" JNull <> JStr s)
  \/ (truthy (dict_get data "metrics" (JStr "")) = true
      /\ forall s, dict_get data "metrics" (JStr "") <> JStr s) ->
  exists msg,
    chat_with_data V (JObj data) g =
      (Ok (answer ("I'm sorry, I encountered an error. The AI's code may have failed. (Error: "
                   ++ msg ++ ")") 500),
       g, [])
    /\ ((truthy (dict_get data "metrics" (JStr "")) = false
         \/ exists m, dict_get data "metrics" (JStr "") = JStr m) ->
        msg = "'" ++ type_name (dict_get data "filepath" JNull)
              ++ "' object has no attribute 'replace'").
Proof.
  intros Hq Hf Hc Hbad.
  rewrite chat_with_data_object. unfold chat_on_fields.
  rewrite Hq, Hf, Hc. cbn [negb orb].
  run_chat. unfold meta_prompt.
  destruct (truthy (dict_get data "metrics" (JStr ""))) eqn:Hm.
  - destruct (dict_get data "metrics" (JStr "")) as [ | b | z | f | m | l | o] eqn:Hmetrics;
      try (eexists; split; [ reflexivity | intros [H | [m' H]]; discriminate H ]).
    destruct Hbad as [Hfp | [_ Hms]]; [ | exfalso; exact (Hms m eq_refl) ].
    cbn [py_unquote rbind].
    destruct (dict_get data "filepath" JNull) as [ | b | z | f | s | l | o];
      try (eexists; split; [ reflexivity | intros _; reflexivity ]).
    exfalso. exact (Hfp s eq_refl).
  - destruct Hbad as [Hfp | [Hms _]]; [ | discriminate Hms ].
    cbn [rbind].
    destruct (dict_get data "filepath" JNull) as [ | b | z | f | s | l | o];
      try (eexists; split; [ reflexivity | intros _; reflexivity ]).
    exfalso. exact (Hfp s eq_refl).
Qed.

Lemma chat_non_string_fields_witness :
  exists msg,
    chat_with_data (Examples.env (Ok (Some "print(1)")) Expired)
      (JObj (Examples.chat_body (JStr "q") (JInt 7) (JStr "Region, Sales"))) initial_globals
    = (Ok (answer ("I'm sorry, I encountered an error. The AI's code may have failed. (Error: "
                   ++ msg ++ ")") 500),
       initial_globals, [])
    /\ ((truthy (JStr "") = false \/ exists m, JStr "" = JStr m) ->
        msg = "'int' object has no attribute 'replace'").
Proof.
  exact (chat_non_string_fields (Examples.env (Ok (Some "print(1)")) Expired)
           (Examples.chat_body (JStr "q") (JInt 7) (JStr "Region, Sales")) initial_globals
           eq_refl eq_refl eq_refl
           (or_introl (fun s (H : JInt 7 = JStr s) =>
                         eq_ind (JInt 7)
                           (fun v => match v with JInt _ => True | _ => False end)
                           I (JStr s) H))).
Defined.

(** ** The planners, whatever the model does *)

Lemma visualizations_run (V : Env) (E : Engine)
    (df_schema original_df : DataFrame (scalar E)) :
  exists v, forall g,
    get_ai_visualizations V E df_schema original_df g
    = (Ok v, g, [LLMCall (charts_request E df_schema)]).
Proof.
  unfold get_ai_visualizations, charts_request.
  cbv beta iota zeta delta [try_except bind lift emit ret raise completion].
  destruct (create V _) as [reply | e]; [ | eexists; intro g; reflexivity ].
  destruct (bracketed_json V reply _) as [parsed | e]; [ | eexists; intro g; reflexivity ].
  destruct (py_iter parsed) as [recipes | e]; [ | eexists; intro g; reflexivity ].
  destruct (final_charts_list E 0 original_df recipes); eexists; intro g; reflexivity.
Qed.

Lemma insights_run (V : Env) (df_schema_info first_5_rows : string) :
  exists v, forall g,
    get_ai_insights V df_schema_info first_5_rows g
    = (Ok v, g, [LLMCall (insights_request df_schema_info first_5_rows)]).
Proof.
  eexists. intro g. rewrite insights_value. reflexivity.
Qed.

Lemma dict_get_set_same (m : list (string * json)) (k : string) (v d : json) :
  dict_get (dict_set m k v) k d = v.
Proof.
  unfold dict_get. induction m as [ | [k' v'] m IH]; simpl.
  - rewrite String.eqb_refl. reflexivity.
  - destruct (String.eqb k k') eqn:Hk; simpl.
    + rewrite String.eqb_refl. reflexivity.
    + rewrite Hk. exact IH.
Qed.

Lemma dict_get_set_other (m : list (string * json)) (k k' : string) (v d : json) :
  k' <> k -> dict_get (dict_set m k v) k' d = dict_get m k' d.
Proof.
  intro Hne. unfold dict_get. apply String.eqb_neq in Hne.
  induction m as [ | [k0 v0] m IH]; simpl.
  - rewrite Hne. reflexivity.
  - destruct (String.eqb k k0) eqn:Hk; simpl.
    + apply String.eqb_eq in Hk. subst k0. rewrite Hne. reflexivity.
    + destruct (String.eqb k' k0); [ reflexivity | exact IH ].
Qed.

Lemma final_charts_list_spec (E : Engine) (df : DataFrame (scalar E)) (recipes : list json) :
  forall k charts,
    final_charts_list E k df recipes = Ok charts -> charts_of E df recipes charts.
Proof.
  induction recipes as [ | recipe rest IH]; intros k charts H.
  - injection H as <-. constructor.
  - cbn [final_charts_list] in H.
    destruct (prepare_chart_data E (entropy E k) df recipe) as [[[ | r rs] | ] | e] eqn:Hp;
      cbn [rbind] in H; try discriminate.
    + eapply charts_of_drop; [ right; exact Hp | eapply IH; exact H ].
    + destruct recipe as [ | | | | | | m]; try discriminate.
      cbn [set_item rbind] in H.
      destruct (final_charts_list E (S k) df rest) as [tail | e] eqn:Ht;
        cbn [rbind] in H; [ | discriminate ].
      injection H as <-.
      eapply charts_of_keep.
      * exact Hp.
      * discriminate.
      * apply dict_get_set_same.
      * intros k0 d Hk. apply dict_get_set_other. exact Hk.
      * eapply IH. exact Ht.
    + eapply charts_of_drop; [ left; exact Hp | eapply IH; exact H ].
Qed.

(** X8.  [get_ai_visualizations] returns whatever the model does: it makes
    exactly one call to the model, leaves the globals alone and returns
    either a list of charts or the error object; when the call raises the
    details are the text of the exception, and when the reply has no text
    they are the [AttributeError] of [None.find]. *)
Theorem planner_always_returns (V : Env) (E : Engine)
    (df_schema original_df : DataFrame (scalar E)) (g : globals) :
  exists v,
    get_ai_visualizations V E df_schema original_df g
    = (Ok v, g, [LLMCall (charts_request E df_schema)])
    /\ ((exists charts, v = JArr charts) \/ (exists details, v = planner_error details))
    /\ (forall e, create V (charts_request E df_schema) = Raise e ->
                  v = planner_error (exn_str e))
    /\ (create V (charts_request E df_schema) = Ok None ->
        v = planner_error "'NoneType' object has no attribute 'find'").
Proof.
  unfold get_ai_visualizations, charts_request.
  cbv beta iota zeta delta [try_except bind lift emit ret raise completion].
  destruct (create V _) as [reply | e].
  - destruct (bracketed_json V reply _) as [parsed | e] eqn:Hb.
    + destruct (py_iter parsed) as [recipes | e].
      * destruct (final_charts_list E 0 original_df recipes) as [charts | e];
          eexists; (split; [ reflexivity | ]);
          (split; [ first [ left; eexists; reflexivity | right; eexists; reflexivity ] | ]);
          (split; [ intros e' He; discriminate He | ]);
          intro Hn; injection Hn as ->; discriminate Hb.
      * eexists. split; [ reflexivity | ].
        split; [ right; eexists; reflexivity | ].
        split; [ intros e' He; discriminate He | ].
        intro Hn; injection Hn as ->; discriminate Hb.
    + eexists. split; [ reflexivity | ].
      split; [ right; eexists; reflexivity | ].
      split; [ intros e' He; discriminate He | ].
      intro Hn. injection Hn as ->. cbn in Hb. injection Hb as <-. reflexivity.
  - eexists. split; [ reflexivity | ].
    split; [ right; eexists; reflexivity | ].
    split; [ intros e' He; injection He as <-; reflexivity | ].
    intro Hn. discriminate Hn.
Qed.

(** X9.  The charts the planner returns are recipes of the model's reply,
    in the order of the reply: each is a recipe for which the helper gave a
    non-empty payload, with that payload under [chart_data] and every other
    field as the model sent it; a recipe is left out exactly when the helper
    gave it no payload or an empty one.  So there are never more charts
    than recipes. *)
Theorem planner_charts_follow_recipes (V : Env) (E : Engine)
    (df_schema original_df : DataFrame (scalar E)) (g : globals)
    (text : string) (parsed : json) (recipes charts : list json) :
  create V (charts_request E df_schema) = Ok (Some text) ->
  bracketed_json V (Some text) "AI response did not contain a valid JSON array."
  = Ok parsed ->
  py_iter parsed = Ok recipes ->
  value (get_ai_visualizations V E df_schema original_df) g = Ok (JArr charts) ->
  charts_of E original_df recipes charts
  /\ (List.length charts <= List.length recipes)%nat.
Proof.
  intros Hcreate Hparsed Hiter Hv.
  unfold value in Hv.
  rewrite (visualizations_value V E df_schema original_df g (Some text) Hcreate) in Hv.
  cbn [fst] in Hv. rewrite Hparsed in Hv. cbn [rbind] in Hv. rewrite Hiter in Hv.
  cbn [rbind] in Hv.
  destruct (final_charts_list E 0 original_df recipes) as [cs | e] eqn:Hl;
    [ | discriminate Hv ].
  injection Hv as ->.
  pose proof (final_charts_list_spec E original_df recipes 0 charts Hl) as Hof.
  split; [ exact Hof | ].
  clear Hl Hiter. induction Hof; cbn [List.length]; lia.
Qed.

Lemma planner_charts_follow_recipes_witness :
  charts_of (Examples.engine (Ok Examples.sales)) Examples.sales
    [Examples.unknown_column_recipe; Examples.sales_by_region_recipe]
    [JObj [("title", JStr "u"); ("chart_type", JStr "Bar Chart");
           ("x_column", JStr "Region"); ("y_column", JStr "Sales");
           ("chart_data",
            JArr [JObj [("Region", JStr "East"); ("Sales", JInt 17)];
                  JObj [("Region", JStr "West"); ("Sales", JInt 5)]])]]
  /\ (1 <= 2)%nat.
Proof.
  apply (planner_charts_follow_recipes
           (Examples.env (Ok (Some Examples.dropped_then_kept_reply)) Expired)
           (Examples.engine (Ok Examples.sales)) Examples.sales Examples.sales
           initial_globals Examples.dropped_then_kept_reply
           (JArr [Examples.unknown_column_recipe; Examples.sales_by_region_recipe])
           [Examples.unknown_column_recipe; Examples.sales_by_region_recipe]);
    vm_compute; reflexivity.
Defined.

Lemma substring_zero (s : string) : forall n, substring n 0 s = "".
Proof.
  induction s as [ | c s IH]; intros [ | n]; simpl; try reflexivity. apply IH.
Qed.

(** X10.  When the last []] of the reply comes before its first [[], both
    brackets are found, no [ValueError] is raised, and [json.loads] is
    handed the empty text. *)
Theorem reversed_brackets_parse_empty (V : Env) (text no_array : string) (n1 n2 : nat) :
  get n1 text = Some "["%char ->
  (forall m, (m < n1)%nat -> get m text <> Some "["%char) ->
  get n2 text = Some "]"%char ->
  (forall m, (n2 < m)%nat -> get m text <> Some "]"%char) ->
  (n2 < n1)%nat ->
  bracketed_json V (Some text) no_array = json_loads V "".
Proof.
  intros H1 F1 H2 F2 Hlt.
  rewrite (bracketed_json_between V text no_array n1 n2 H1 F1 H2 F2).
  replace (n2 + 1 - n1)%nat with 0%nat by lia.
  rewrite substring_zero. reflexivity.
Qed.

Lemma reversed_brackets_parse_empty_witness :
  bracketed_json (Examples.env (Ok None) Expired) (Some "] then [") "no array"
  = Raise (PyException "JSONDecodeError" "Expecting value").
Proof.
  refine (reversed_brackets_parse_empty (Examples.env (Ok None) Expired)
            "] then [" "no array" 7 0 eq_refl _ eq_refl _ _).
  - intros m Hm. do 7 (destruct m as [ | m]; [ discriminate | ]). lia.
  - intros m Hm. destruct m as [ | m]; [ lia | ].
    do 8 (destruct m as [ | m]; [ discriminate | ]). discriminate.
  - lia.
Defined.

(** ** The upload endpoint *)

Ltac run_upload :=
  cbv beta iota zeta delta [try_except bind lift emit ret raise save
                            set_last_uploaded_filepath set_csv_column_names get_globals].


Lemma upload_read (V : Env) (E : Engine)
    (files : list (string * FileStorage)) (file : FileStorage)
    (df : DataFrame (scalar E)) (g : globals) :
  assoc "file" files = Some file ->
  filename file <> "" ->
  save_fault V (path_join V "uploads" (filename file)) = None ->
  rtry (read_csv E (path_join V "uploads" (filename file)) (stream file))
       (fun _ => read_csv_legacy E (path_join V "uploads" (filename file)) (stream file))
  = Ok df ->
  exists charts insights,
    upload_file V E files g
    = (Ok (jsonify [("charts", charts); ("insights", insights);
                    ("filepath", JStr (abspath V (path_join V "uploads" (filename file))));
                    ("columns", JStr (join ", " (names E df)))] 200),
       {| last_uploaded_filepath :=
            Some (abspath V (path_join V "uploads" (filename file)));
          csv_column_names := join ", " (names E df) |},
       [FileSave (path_join V "uploads" (filename file));
        LLMCall (charts_request E (for_ai E df));
        LLMCall (insights_request (info E (for_ai E df))
                                  (head_to_string E (for_ai E df)))]).
Proof.
  intros Hfile Hname Hsave Hr.
  destruct (visualizations_run V E (for_ai E df) df) as [v Hv].
  destruct (insights_run V (info E (for_ai E df)) (head_to_string E (for_ai E df)))
    as [i Hi].
  exists v, i.
  unfold upload_file. rewrite Hfile.
  apply String.eqb_neq in Hname. rewrite Hname.
  run_upload. unfold UPLOAD_FOLDER. rewrite Hsave, Hr, Hv, Hi. reflexivity.
Qed.

(** X11.  An upload always gets a response, with status 200, 400 or 500:
    no exception leaves the view, whatever the file system, the CSV reader
    and the model do. *)
Theorem upload_always_answers (V : Env) (E : Engine)
    (files : list (string * FileStorage)) (g : globals) :
  exists r g' l,
    upload_file V E files g = (Ok r, g', l)
    /\ (status r = 200%Z \/ status r = 400%Z \/ status r = 500%Z).
Proof.
  unfold upload_file.
  destruct (assoc "file" files) as [file | ];
    [ | do 3 eexists; split; [ reflexivity | right; left; reflexivity ] ].
  destruct (String.eqb (filename file) "");
    [ do 3 eexists; split; [ reflexivity | right; left; reflexivity ] | ].
  run_upload.
  destruct (save_fault V _) as [e | ];
    [ do 3 eexists; split; [ reflexivity | right; right; reflexivity ] | ].
  destruct (rtry (read_csv E _ _) _) as [df | e];
    [ | do 3 eexists; split; [ reflexivity | right; right; reflexivity ] ].
  destruct (visualizations_run V E (for_ai E df) df) as [v Hv]. rewrite Hv.
  destruct (insights_run V (info E (for_ai E df)) (head_to_string E (for_ai E df)))
    as [i Hi].
  rewrite Hi.
  do 3 eexists; split; [ reflexivity | left; reflexivity ].
Qed.

(** X12.  When the file is saved and one of the two [read_csv] attempts
    gives a frame, the upload answers 200; the module variables are then
    the absolute path of the saved file and the column labels joined by a
    comma and a space, the response carries the same two values under
    [filepath] and [columns], and the effects are, in this order, the file
    saved, the charts request and the insights request. *)
Theorem upload_stores_what_it_answers (V : Env) (E : Engine)
    (files : list (string * FileStorage)) (file : FileStorage)
    (df : DataFrame (scalar E)) (g : globals) :
  assoc "file" files = Some file ->
  filename file <> "" ->
  let save_path := path_join V "uploads" (filename file) in
  save_fault V save_path = None ->
  (read_csv E save_path (stream file) = Ok df
   \/ ((exists e, read_csv E save_path (stream file) = Raise e)
       /\ read_csv_legacy E save_path (stream file) = Ok df)) ->
  exists charts insights,
    upload_file V E files g
    = (Ok (jsonify [("charts", charts); ("insights", insights);
                    ("filepath", JStr (abspath V save_path));
                    ("columns", JStr (join ", " (names E df)))] 200),
       {| last_uploaded_filepath := Some (abspath V save_path);
          csv_column_names := join ", " (names E df) |},
       [FileSave save_path;
        LLMCall (charts_request E (for_ai E df));
        LLMCall (insights_request (info E (for_ai E df))
                                  (head_to_string E (for_ai E df)))]).
Proof.
  intros Hfile Hname save_path Hsave Hread.
  apply upload_read; [ exact Hfile | exact Hname | exact Hsave | ].
  fold save_path.
  destruct Hread as [H | [[e H] H']]; rewrite H; [ reflexivity | exact H' ].
Qed.

(** X13.  An upload that fails before a frame is read leaves the module
    variables as they were and asks the model nothing: with no [file]
    part, or an empty file name, the answer is 400 and nothing is saved;
    when saving raises, the answer is 500 with the exception's text after
    [Could not process file: ]; when both [read_csv] attempts raise, the
    answer is 500 with the text of the second exception, the first being
    dropped, and the file stays saved. *)
Theorem upload_failure_keeps_pointer (V : Env) (E : Engine)
    (files : list (string * FileStorage)) (g : globals) :
  (assoc "file" files = None ->
   upload_file V E files g
   = (Ok (error_response "No file part in the request" 400), g, []))
  /\ (forall file,
        assoc "file" files = Some file -> filename file = "" ->
        upload_file V E files g = (Ok (error_response "No file selected" 400), g, []))
  /\ (forall file e,
        assoc "file" files = Some file -> filename file <> "" ->
        save_fault V (path_join V "uploads" (filename file)) = Some e ->
        upload_file V E files g
        = (Ok (error_response ("Could not process file: " ++ exn_str e) 500), g, []))
  /\ (forall file e1 e2,
        assoc "file" files = Some file -> filename file <> "" ->
        let save_path := path_join V "uploads" (filename file) in
        save_fault V save_path = None ->
        read_csv E save_path (stream file) = Raise e1 ->
        read_csv_legacy E save_path (stream file) = Raise e2 ->
        upload_file V E files g
        = (Ok (error_response ("Could not process file: " ++ exn_str e2) 500), g,
           [FileSave save_path])).
Proof.
  unfold upload_file. split; [ | split; [ | split ] ].
  - intros ->. reflexivity.
  - intros file -> ->. reflexivity.
  - intros file e -> Hname Hsave. apply String.eqb_neq in Hname. rewrite Hname.
    run_upload. unfold UPLOAD_FOLDER. rewrite Hsave. reflexivity.
  - intros file e1 e2 -> Hname Hsave H1 H2.
    apply String.eqb_neq in Hname. rewrite Hname.
    run_upload. unfold UPLOAD_FOLDER. rewrite Hsave, H1.
    cbn [rtry]. rewrite H2. reflexivity.
Qed.

(** X14.  The module variables after any sequence of requests are those
    set by the last upload that read a frame, if no upload comes after it:
    chat requests in between and afterwards change nothing. *)
Theorem last_upload_wins (before after : list call) (c : call)
    (files : list (string * FileStorage)) (file : FileStorage)
    (df : DataFrame (scalar (call_engine c))) (g : globals) :
  call_request c = PostUpload files ->
  assoc "file" files = Some file ->
  filename file <> "" ->
  let V := call_env c in
  let E := call_engine c in
  let save_path := path_join V "uploads" (filename file) in
  save_fault V save_path = None ->
  read_csv E save_path (stream file) = Ok df ->
  Forall (fun c' => is_upload c' = false) after ->
  snd (serve (before ++ c :: after) g)
  = {| last_uploaded_filepath := Some (abspath V save_path);
       csv_column_names := join ", " (names E df) |}.
Proof.
  intros Hreq Hfile Hname V E save_path Hsave Hread Hafter.
  revert g. induction before as [ | b before IH]; intro g.
  - cbn [app serve].
    assert (Hone : snd (serve_one c g)
                   = {| last_uploaded_filepath := Some (abspath V save_path);
                        csv_column_names := join ", " (names E df) |}).
    { unfold serve_one, handle. rewrite Hreq.
      destruct (upload_read V E files file df g Hfile Hname Hsave) as [v [i Hup]].
      - fold save_path. rewrite Hread. reflexivity.
      - fold V E. rewrite Hup. reflexivity. }
    destruct (serve_one c g) as [r g1]. cbn [snd] in Hone. subst g1.
    pose proof (serve_globals_uploads after
                  {| last_uploaded_filepath := Some (abspath V save_path);
                     csv_column_names := join ", " (names E df) |}) as Hs.
    assert (Hnone : filter is_upload after = []).
    { clear Hs. induction Hafter as [ | a rest Ha _ IHr]; [ reflexivity | ].
      cbn [filter]. rewrite Ha. exact IHr. }
    rewrite Hnone in Hs. cbn [serve snd] in Hs.
    destruct (serve after _) as [rs g2]. cbn [snd] in Hs |- *. exact Hs.
  - cbn [app serve]. destruct (serve_one b g) as [r g1].
    specialize (IH g1). destruct (serve (before ++ c :: after) g1) as [rs g2].
    exact IH.
Qed.

(** X15.  The two fields an upload answers are the ones a chat request
    needs: a chat whose body carries a question and the [filepath] and
    [columns] members of a 200 upload response asks the model, as the
    first thing it does, with the prompt built from the uploaded file's
    absolute path, each backslash doubled, and from its column labels,
    provided neither is empty.  The chat may be served by another process
    state and in another environment than the upload. *)
Theorem upload_fields_drive_chat (V V' : Env) (E : Engine)
    (files : list (string * FileStorage)) (file : FileStorage)
    (df : DataFrame (scalar E)) (question : string) (g g' : globals) :
  assoc "file" files = Some file ->
  filename file <> "" ->
  let save_path := path_join V "uploads" (filename file) in
  save_fault V save_path = None ->
  read_csv E save_path (stream file) = Ok df ->
  question <> "" ->
  abspath V save_path <> "" ->
  join ", " (names E df) <> "" ->
  exists r members rest,
    value (upload_file V E files) g = Ok r
    /\ body r = JObj members
    /\ log (chat_with_data V'
              (JObj [("question", JStr question);
                     ("filepath", dict_get members "filepath" JNull);
                     ("columns", dict_get members "columns" JNull)])) g'
       = LLMCall (code_request
                    (final_prompt (join ", " (names E df)) "No prior conversation." ""
                       question (each_backslash_doubled (abspath V save_path))))
         :: rest.
Proof.
  intros Hfile Hname save_path Hsave Hread Hq Hp Hc.
  destruct (upload_read V E files file df g Hfile Hname Hsave) as [v [i Hup]].
  { fold save_path. rewrite Hread. reflexivity. }
  fold save_path in Hup.
  destruct (log_starts_with_call V'
              (final_prompt (join ", " (names E df)) "No prior conversation." ""
                 question (each_backslash_doubled (abspath V save_path)))
              code_request (fun code => run_script V' code) chat_except g')
    as [rest Hrest].
  eexists. eexists. exists rest.
  unfold value. rewrite Hup. cbn [fst body jsonify].
  split; [ reflexivity | split; [ reflexivity | ] ].
  unfold log. rewrite chat_with_data_object. unfold chat_on_fields.
  change (dict_get _ "question" JNull) with (JStr question).
  change (dict_get _ "metrics" (JStr "")) with (JStr "").
  change (dict_get _ "history" (JStr "No prior conversation."))
    with (JStr "No prior conversation.").
  change (dict_get _ "filepath" JNull) with (JStr (abspath V save_path)).
  change (dict_get _ "columns" JNull) with (JStr (join ", " (names E df))).
  rewrite (truthy_str question Hq), (truthy_str _ Hp), (truthy_str _ Hc).
  cbn [negb orb].
  unfold meta_prompt. cbn [truthy String.eqb negb rbind replace_backslashes format].
  rewrite replace_doubles. exact Hrest.
Qed.

Lemma upload_fields_drive_chat_witness :
  exists r members rest,
    value (upload_file (Examples.env (Ok None) Expired) (Examples.engine (Ok Examples.sales))
             [("file", {| filename := "sales.csv"; stream := "" |})]) initial_globals = Ok r
    /\ body r = JObj members
    /\ log (chat_with_data (Examples.env (Ok (Some "print(1)")) (Exited 0 "1" ""))
              (JObj [("question", JStr "Which region sells most?");
                     ("filepath", dict_get members "filepath" JNull);
                     ("columns", dict_get members "columns" JNull)])) initial_globals
       = LLMCall (code_request
                    (final_prompt "Region, Sales, Units" "No prior conversation." ""
                       "Which region sells most?" "/srv/app/uploads/sales.csv"))
         :: rest.
Proof.
  apply (upload_fields_drive_chat (Examples.env (Ok None) Expired)
           (Examples.env (Ok (Some "print(1)")) (Exited 0 "1" ""))
           (Examples.engine (Ok Examples.sales))
           [("file", {| filename := "sales.csv"; stream := "" |})]
           {| filename := "sales.csv"; stream := "" |} Examples.sales
           "Which region sells most?" initial_globals initial_globals);
    solve [ reflexivity | intro H; discriminate H ].
Defined.

Lemma upload_stores_what_it_answers_witness :
  exists charts insights,
    upload_file (Examples.env (Ok None) Expired) (Examples.engine (Ok Examples.sales))
      [("file", {| filename := "sales.csv"; stream := "" |})] initial_globals
    = (Ok (jsonify [("charts", charts); ("insights", insights);
                    ("filepath", JStr "/srv/app/uploads/sales.csv");
                    ("columns", JStr "Region, Sales, Units")] 200),
       {| last_uploaded_filepath := Some "/srv/app/uploads/sales.csv";
          csv_column_names := "Region, Sales, Units" |},
       [FileSave "uploads/sales.csv";
        LLMCall (charts_request (Examples.engine (Ok Examples.sales))
                   (for_ai (Examples.engine (Ok Examples.sales)) Examples.sales));
        LLMCall (insights_request
                   (info (Examples.engine (Ok Examples.sales))
                      (for_ai (Examples.engine (Ok Examples.sales)) Examples.sales))
                   (head_to_string (Examples.engine (Ok Examples.sales))
                      (for_ai (Examples.engine (Ok Examples.sales)) Examples.sales)))]).
Proof.
  apply (upload_stores_what_it_answers (Examples.env (Ok None) Expired)
           (Examples.engine (Ok Examples.sales))
           [("file", {| filename := "sales.csv"; stream := "" |})]
           {| filename := "sales.csv"; stream := "" |} Examples.sales initial_globals);
    [ reflexivity | intro H; discriminate H | reflexivity | left; reflexivity ].
Defined.

Lemma last_upload_wins_witness :
  snd (serve
         [ {| call_env := Examples.env (Ok (Some "print(1)")) (Exited 0 "1" "");
              call_engine := Examples.engine (Ok Examples.sales);
              call_request := PostChat (JObj (Examples.chat_body (JStr "q") (JStr "old.csv")
                                                (JStr "a, b"))) |};
           {| call_env := Examples.env (Ok None) Expired;
              call_engine := Examples.engine (Ok Examples.sales);
              call_request := PostUpload [("file", {| filename := "sales.csv"; stream := "" |})] |};
           {| call_env := Examples.env (Ok (Some "print(1)")) (Exited 0 "1" "");
              call_engine := Examples.engine (Ok Examples.sales);
              call_request := PostChat (JObj (Examples.chat_body (JStr "q") (JStr "old.csv")
                                                (JStr "a, b"))) |} ]
         initial_globals)
  = {| last_uploaded_filepath := Some "/srv/app/uploads/sales.csv";
       csv_column_names := "Region, Sales, Units" |}.
Proof.
  apply (last_upload_wins
           [ {| call_env := Examples.env (Ok (Some "print(1)")) (Exited 0 "1" "");
                call_engine := Examples.engine (Ok Examples.sales);
                call_request := PostChat (JObj (Examples.chat_body (JStr "q") (JStr "old.csv")
                                                  (JStr "a, b"))) |} ]
           [ {| call_env := Examples.env (Ok (Some "print(1)")) (Exited 0 "1" "");
                call_engine := Examples.engine (Ok Examples.sales);
                call_request := PostChat (JObj (Examples.chat_body (JStr "q") (JStr "old.csv")
                                                  (JStr "a, b"))) |} ]
           {| call_env := Examples.env (Ok None) Expired;
              call_engine := Examples.engine (Ok Examples.sales);
              call_request := PostUpload [("file", {| filename := "sales.csv"; stream := "" |})] |}
           [("file", {| filename := "sales.csv"; stream := "" |})]
           {| filename := "sales.csv"; stream := "" |} Examples.sales initial_globals);
    [ reflexivity | reflexivity | intro H; discriminate H | reflexivity | reflexivity
    | repeat constructor ].
Defined.

(** ** The chart data helper: recipes that get no payload *)

(** X16.  A dict recipe gets no payload, and raises nothing, when one of
    its two column fields is missing, [null], empty or otherwise falsy
    (whatever the other one is), and when its [x_column] is a string, a
    number or a boolean that is not a column label, whatever its
    [y_column] is: the test of [y_column] is not reached. *)
Theorem unknown_x_column_no_payload (E : Engine) (rnd : list nat)
    (df : DataFrame (scalar E)) (m : list (string * json)) :
  let x_col := dict_get m "x_column" JNull in
  let y_col := dict_get m "y_column" JNull in
  (truthy x_col = false \/ truthy y_col = false ->
   prepare_chart_data E rnd df (JObj m) = Ok None)
  /\ ((forall l, x_col <> JArr l) -> (forall o, x_col <> JObj o) ->
      (forall x, x_col = JStr x -> ~ In x (names E df)) ->
      prepare_chart_data E rnd df (JObj m) = Ok None).
Proof.
  cbv zeta. unfold prepare_chart_data. cbn [recipe_get rbind]. split.
  - intros [H | H]; rewrite H; [ reflexivity | ].
    rewrite orb_true_r. reflexivity.
  - intros Hl Ho Hx.
    destruct (negb (truthy (dict_get m "x_column" JNull))
              || negb (truthy (dict_get m "y_column" JNull))); [ reflexivity | ].
    destruct (dict_get m "x_column" JNull) as [ | b | z | f | x | l | o];
      try reflexivity.
    + cbn [in_columns rbind].
      destruct (mem x (names E df)) eqn:Hm; [ | reflexivity ].
      exfalso. apply (Hx x eq_refl). apply mem_In. exact Hm.
    + exfalso. exact (Hl l eq_refl).
    + exfalso. exact (Ho o eq_refl).
Qed.

(** X17.  With an existing [x_column] and a non-empty string as [y_column],
    there is no payload, and no exception, in each of these cases: the
    [y_column] is neither a column nor a count marker; the chart type is
    none of the five; a Bar, Pie or Line chart asks for the sum of a column
    that is not numeric; a count chart groups by a column called [Count];
    a Scatter plot has a count marker that is not a column as its
    [y_column]. *)
Theorem guarded_recipes_without_payload (E : Engine) (rnd : list nat)
    (df : DataFrame (scalar E)) (m : list (string * json)) (x y : string) (i : nat) :
  dict_get m "x_column" JNull = JStr x ->
  dict_get m "y_column" JNull = JStr y ->
  x <> "" -> y <> "" ->
  index_of x (names E df) = Some i ->
  let chart_type := dict_get m "chart_type" JNull in
  let payload := prepare_chart_data E rnd df (JObj m) in
  let aggregating :=
    is_str chart_type "Bar Chart" || is_str chart_type "Pie Chart"
    || is_str chart_type "Line Chart" in
  (~ In y (names E df) -> contains "Count of" y = false -> payload = Ok None)
  /\ (aggregating = false -> is_str chart_type "Scatter Plot" = false ->
      is_str chart_type "Histogram" = false -> payload = Ok None)
  /\ (aggregating = true -> contains "Count of" y = false ->
      forall j, index_of y (names E df) = Some j ->
                nth j (map snd (columns df)) false = false ->
                payload = Ok None)
  /\ (aggregating = true -> contains "Count of" y = true -> x = "Count" ->
      payload = Ok None)
  /\ (chart_type = JStr "Scatter Plot" -> contains "Count of" y = true ->
      ~ In y (names E df) -> payload = Ok None).
Proof.
  intros Hx Hy Hxne Hyne Hi chart_type payload aggregating. subst payload.
  split; [ | split; [ | split; [ | split ] ] ].
  - intros Hnot Hmarker. unfold prepare_chart_data. cbn [recipe_get rbind].
    rewrite Hx, Hy, (truthy_str x Hxne), (truthy_str y Hyne).
    cbn [negb orb in_columns rbind].
    assert (Hmx : mem x (names E df) = true).
    { apply mem_In. eapply index_of_In_inv. exact Hi. }
    rewrite Hmx. cbn [negb].
    destruct (mem y (names E df)) eqn:Hmy.
    + exfalso. apply Hnot. apply mem_In. exact Hmy.
    + cbn [negb rbind str_in]. rewrite Hmarker. reflexivity.
  - intros Hagg Hscatter Hhist.
    destruct (mem y (names E df)) eqn:Hmy.
    + rewrite (prepare_after_guards E rnd df m x y i Hx Hy Hxne Hyne Hi
                 (or_introl (proj1 (mem_In y _) Hmy))).
      unfold try_block. fold chart_type. fold aggregating.
      rewrite Hagg, Hscatter, Hhist. reflexivity.
    + destruct (contains "Count of" y) eqn:Hmarker.
      * rewrite (prepare_after_guards E rnd df m x y i Hx Hy Hxne Hyne Hi
                   (or_intror Hmarker)).
        unfold try_block. fold chart_type. fold aggregating.
        rewrite Hagg, Hscatter, Hhist. reflexivity.
      * unfold prepare_chart_data. cbn [recipe_get rbind].
        rewrite Hx, Hy, (truthy_str x Hxne), (truthy_str y Hyne).
        cbn [negb orb in_columns rbind].
        assert (Hmx : mem x (names E df) = true).
        { apply mem_In. eapply index_of_In_inv. exact Hi. }
        rewrite Hmx, Hmy. cbn [negb rbind str_in]. rewrite Hmarker. reflexivity.
  - intros Hagg Hmarker j Hj Hnum.
    assert (Hiny : In y (names E df)) by (eapply index_of_In_inv; exact Hj).
    rewrite (prepare_after_guards E rnd df m x y i Hx Hy Hxne Hyne Hi (or_introl Hiny)).
    fold chart_type.
    rewrite (sum_block E rnd df chart_type x y i j Hagg Hmarker Hi Hj), Hnum.
    reflexivity.
  - intros Hagg Hmarker Hcount.
    rewrite (prepare_after_guards E rnd df m x y i Hx Hy Hxne Hyne Hi (or_intror Hmarker)).
    fold chart_type. unfold try_block. fold aggregating. rewrite Hagg.
    cbn [str_in rbind]. rewrite Hmarker. cbn [label rbind].
    unfold groupby_size. rewrite (loc_found E df x i Hi). cbn [rbind].
    unfold reset_index.
    rewrite (column_label E df x i Hi). subst x. reflexivity.
  - intros Ht Hmarker Hnot.
    rewrite (prepare_after_guards E rnd df m x y i Hx Hy Hxne Hyne Hi (or_intror Hmarker)).
    fold chart_type. rewrite Ht. unfold try_block.
    change (is_str (JStr "Scatter Plot") "Bar Chart" || is_str (JStr "Scatter Plot") "Pie Chart"
            || is_str (JStr "Scatter Plot") "Line Chart") with false.
    change (is_str (JStr "Scatter Plot") "Scatter Plot") with true.
    cbv beta iota zeta. cbn [label rbind]. unfold select. cbn [locs]. unfold loc.
    change (names E (sample E rnd (Nat.min 500 (len E df)) df)) with (names E df).
    rewrite Hi. cbn [rbind].
    destruct (index_of y (names E df)) as [j | ] eqn:Hj; [ | reflexivity ].
    exfalso. apply Hnot. eapply index_of_In_inv. exact Hj.
Qed.

Lemma guarded_recipes_without_payload_witness :
  prepare_chart_data (Examples.engine (Ok Examples.sales)) [] Examples.sales
    (Examples.recipe (JStr "Bar Chart") (JStr "Sales") (JStr "Region"))
  = Ok None.
Proof.
  refine (proj1 (proj2 (proj2
            (guarded_recipes_without_payload (Examples.engine (Ok Examples.sales)) []
               Examples.sales
               [("title", JStr "t"); ("chart_type", JStr "Bar Chart");
                ("x_column", JStr "Sales"); ("y_column", JStr "Region");
                ("description", JStr "d")]
               "Sales" "Region" 1 eq_refl eq_refl _ _ eq_refl)))
            eq_refl eq_refl 0%nat eq_refl eq_refl);
    intro H; discriminate H.
Defined.
